(** * Section navigation, scroll spy and derived vitals of the clinical intake form

    A shallow embedding of the [App] component (the file that declares
    [SECTIONS], [handleScroll], [scrollToSection], [handleAgeBlur] and the
    BMI effect) together with the part of the browser it talks to: the
    element geometry, the scroll offset, the clock and the [setTimeout]
    queue.  The [Toast] that [App] renders is part of the machine as far as
    it acts on [App]: its [visible] cell, its two timers and its [onClose].

    Conventions.
    - Pixel coordinates and milliseconds are integers ([Z]).
    - A handler is a function from the state it reads to the list of
      mutations it performs, in program order ([Effect]); [run] applies
      them left to right.  The order of the statements of a handler is
      therefore part of the model.
    - A handler that React attaches ([onClick], [onChange], [onBlur]) reads
      [activeSectionId] of the current state: React is taken to have rendered
      by the time it calls one, so that the closure of the handler is the one
      of the latest render.
    - The effects of a render run after it ([useEffect]).  For the effect
      that computes the BMI the moment does not matter (no handler reads
      [bmi]); it is run with the input event that changes [height] or
      [weight].  For the other two it does matter: the effect that attaches
      the scroll listener, and the effect of [Toast].  When these run is not
      fixed here: it is an event of its own, [Effects], as a scroll or a new
      layout is; the passing of time ([Elapse]) runs the timers that are due
      and nothing else.  The scroll listener reads the [activeSectionId] of the
      render whose effect attached it ([captured]); after a change of
      [activeSectionId] that is the old value until [Effects].
    - [isManualScrolling] is the [useRef] cell; it is read and written in
      place.
    - A [setTimeout] callback runs at its due time; callbacks due at the
      same time run in the order they were scheduled. *)

From Stdlib Require Import ZArith String Ascii List Bool Lia.
From Stdlib Require Import DecimalString Floats QArith.
From stdpp Require Import gmap strings.
Import ListNotations.

Open Scope string_scope.
Open Scope Z_scope.

(** ** Configuration *)

Inductive ClinicalMode := adult | obgyn | peds.

(** [Object.keys(MODES)], the order of the segmented control. *)
Definition MODES : list ClinicalMode := [adult; obgyn; peds].

(** A section descriptor.  The [icon] is a rendering concern and is left out. *)
Record SectionItem := { id : string; title : string }.

Definition SECTIONS : list SectionItem :=
  [ {| id := "identity";   title := "Patient Context" |};
    {| id := "concern";    title := "Chief Concern" |};
    {| id := "hpi";        title := "History (HPI)" |};
    {| id := "ros";        title := "Review of Systems" |};
    {| id := "background"; title := "Background" |};
    {| id := "exam";       title := "Examination" |};
    {| id := "plan";       title := "Assessment & Plan" |} ].

(** ** The browser side *)

(** What the code reads of an element: [offsetTop], [offsetHeight] and
    [getBoundingClientRect().top]. *)
Record Element := { offsetTop : Z; offsetHeight : Z; rectTop : Z }.

(** The callbacks handed to [setTimeout].
    - [StartScroll id]: the outer, 50 ms callback of [scrollToSection id];
    - [Settle id]: the inner, 800 ms callback created by [StartScroll id]
      (its body does not mention [id]; the tag records which request
      created it);
    - [SaveDone]: the callback of [handleSave];
    - [HideToast]: the 3000 ms callback of the effect of [Toast];
    - [CloseToast]: the 300 ms callback that one schedules, [onClose]. *)
Inductive Callback :=
  | StartScroll (target : string)
  | Settle (target : string)
  | SaveDone
  | HideToast
  | CloseToast.

Record Timer := { due : Z; callback : Callback }.

(** ** State *)

Record State := {
  (* useState cells of App, in declaration order *)
  mode : ClinicalMode;
  isDark : bool;
  expandedSections : gmap string bool;
  activeSectionId : string;
  showToast : bool;
  isSaving : bool;
  height : string;
  weight : string;
  bmi : option string;
  age : string;
  (* useRef cell *)
  isManualScrolling : bool;
  (* useState cell of Toast *)
  toastVisible : bool;
  (* activeSectionId in the closure of the registered scroll listener *)
  captured : string;
  (* browser *)
  document : gmap string Element;   (* document.getElementById *)
  scrollY : Z;                      (* window.scrollY = window.pageYOffset *)
  fullYear : Z;                     (* new Date().getFullYear() *)
  clock : Z;                        (* milliseconds *)
  timers : list Timer;              (* pending setTimeout callbacks, oldest first *)
  scrollRequests : list Z           (* window.scrollTo({top}) calls, oldest first *)
}.

Definition initial (doc : gmap string Element) (year : Z) : State :=
  {| mode := adult;
     isDark := true;
     expandedSections := {[ "concern" := true; "identity" := true ]};
     activeSectionId := "identity";
     showToast := false;
     isSaving := false;
     height := "";
     weight := "";
     bmi := None;
     age := "";
     isManualScrolling := false;
     toastVisible := false;
     captured := "identity";
     document := doc;
     scrollY := 0;
     fullYear := year;
     clock := 0;
     timers := [];
     scrollRequests := [] |}.

(** [!!expandedSections[id]], the [isOpen] prop of a section. *)
Definition isOpen (st : State) (i : string) : bool :=
  default false (expandedSections st !! i).

(** ** Built-ins used by the derived-field calculators

    [parseInt], [parseFloat], [Number.prototype.toString] on integers and
    [Number.prototype.toFixed(1)], on strings of 8-bit characters.  Numbers
    that the code treats as floating point are binary64 values ([float]). *)

Module JS.

(** The white space [parseInt] and [parseFloat] skip (its ASCII part:
    TAB, LF, VT, FF, CR, SP). *)
Definition isWhite (c : ascii) : bool :=
  let n := N_of_ascii c in ((9 <=? n) && (n <=? 13) || (n =? 32))%N.

Definition isDigit (c : ascii) : bool :=
  let n := N_of_ascii c in ((48 <=? n) && (n <=? 57))%N.

Fixpoint trimStart (s : string) : string :=
  match s with
  | String c r => if isWhite c then trimStart r else s
  | EmptyString => s
  end.

(** The longest prefix of decimal digits, and what follows it. *)
Fixpoint digitsPrefix (s : string) : string * string :=
  match s with
  | String c r =>
      if isDigit c then let '(d, t) := digitsPrefix r in (String c d, t)
      else ("", s)
  | EmptyString => ("", "")
  end.

Fixpoint digitsValueFrom (acc : Z) (s : string) : Z :=
  match s with
  | String c r => digitsValueFrom (10 * acc + (Z.of_N (N_of_ascii c) - 48)) r
  | EmptyString => acc
  end.

Definition digitsValue (s : string) : Z := digitsValueFrom 0 s.

Definition takeSign (s : string) : bool * string :=
  match s with
  | String "-" r => (true, r)
  | String "+" r => (false, r)
  | _ => (false, s)
  end.

Definition isEmpty (s : string) : bool :=
  match s with EmptyString => true | _ => false end.

(** [parseInt(s, 10)]; [None] is [NaN].  The result is kept exact: the
    code only compares it with years and subtracts it from one, and on
    digit strings too long for a binary64 both comparisons come out the
    same on the rounded value. *)
Definition parseInt (s : string) : option Z :=
  let '(neg, s1) := takeSign (trimStart s) in
  let '(d, _) := digitsPrefix s1 in
  if isEmpty d then None
  else Some (if neg then - digitsValue d else digitsValue d).

(** [n.toString()] for an integer [n]. *)
Definition toString (n : Z) : string :=
  DecimalString.NilZero.string_of_int (Z.to_int n).

(** The binary64 nearest to [m * 10^e10] (ties to even), for [0 <= m]. *)
Definition decimalToFloat (neg : bool) (m e10 : Z) : float :=
  let sf :=
    match m with
    | Zpos p =>
        if 0 <=? e10
        then binary_normalize prec emax (m * 10 ^ e10) 0 false
        else SFdiv prec emax (S754_finite false p 0)
                   (S754_finite false (Z.to_pos (10 ^ (- e10))) 0)
    | _ => S754_zero false
    end in
  SF2Prim (if neg then SFopp sf else sf).

(** The exponent part [e[+-]ddd] of a decimal literal; it counts only
    when at least one digit follows. *)
Definition exponentPart (s : string) : Z :=
  match s with
  | String c r =>
      if (Ascii.eqb c "e" || Ascii.eqb c "E")%char then
        let '(eneg, r1) := takeSign r in
        let '(d, _) := digitsPrefix r1 in
        if isEmpty d then 0
        else if eneg then - digitsValue d else digitsValue d
      else 0
  | EmptyString => 0
  end.

(** [parseFloat(s)]: the longest prefix of [s], after leading white
    space, that is a decimal literal ([Infinity], digits with an optional
    fraction and exponent); [NaN] when there is none. *)
Definition parseFloat (s : string) : float :=
  let '(neg, s1) := takeSign (trimStart s) in
  if String.prefix "Infinity" s1
  then (if neg then neg_infinity else infinity)
  else
    let '(ip, s2) := digitsPrefix s1 in
    let '(fp, s3) :=
      match s2 with
      | String "." r => digitsPrefix r
      | _ => ("", s2)
      end in
    if isEmpty ip && isEmpty fp then nan
    else decimalToFloat neg (digitsValue (ip ++ fp))
                        (exponentPart s3 - Z.of_nat (String.length fp)).

(** The integer nearest to [10 * m * 2^e], the larger one on a tie. *)
Definition nearestTenths (m : positive) (e : Z) : Z :=
  if 0 <=? e then 10 * Zpos m * 2 ^ e
  else (20 * Zpos m + 2 ^ (- e)) / 2 ^ (- e + 1).

(** [n] tenths written with one fractional digit. *)
Definition showTenths (n : Z) : string :=
  toString (n / 10) ++ "." ++ toString (n mod 10).

(** [x.toFixed(1)] for [x] of magnitude below [1e21] (above it JS
    switches to the exponent form, which the code never reaches). *)
Definition toFixed1 (x : float) : string :=
  match Prim2SF x with
  | S754_zero _ => "0.0"
  | S754_finite s m e =>
      (if s then "-" else "") ++ showTenths (nearestTenths m e)
  | S754_infinity s => if s then "-Infinity" else "Infinity"
  | S754_nan => "NaN"
  end.

End JS.

(** ** Mutations

    What a handler can do to the state, one constructor per kind of
    statement: the [useState] setters, the assignment to the ref cell,
    [setTimeout], [window.scrollTo], and what the effects do after a render:
    [setVisible] and [clearTimeout(timer)] of the toast, and
    [window.addEventListener('scroll', handleScroll)], [handleScroll] being
    the closure over the [activeSectionId] given.  The timer the cleanup of
    the toast clears is the 3000 ms one of the run of its effect before; no
    other timer that hides the toast can be pending then (module [Toast]
    below keeps the handles, and [Toast.cleared] is shown to be the queue
    without those timers), so [ClearToastTimer] takes them off the queue. *)

Inductive Effect :=
  | SetMode (m : ClinicalMode)
  | SetIsDark (b : bool)
  | SetExpandedSections (updater : gmap string bool -> gmap string bool)
  | SetActiveSectionId (i : string)
  | SetShowToast (b : bool)
  | SetIsSaving (b : bool)
  | SetHeight (v : string)
  | SetWeight (v : string)
  | SetBmi (v : option string)
  | SetAge (v : string)
  | SetIsManualScrolling (b : bool)
  | SetTimeout (cb : Callback) (delay : Z)
  | ScrollTo (top : Z)
  | SetVisible (b : bool)
  | ClearToastTimer
  | AddScrollListener (activeSectionId : string).

Definition isHideToast (t : Timer) : bool :=
  match callback t with HideToast => true | _ => false end.

Definition exec (st : State) (e : Effect) : State :=
  {| mode := match e with SetMode m => m | _ => mode st end;
     isDark := match e with SetIsDark b => b | _ => isDark st end;
     expandedSections :=
       match e with
       | SetExpandedSections updater => updater (expandedSections st)
       | _ => expandedSections st
       end;
     activeSectionId :=
       match e with SetActiveSectionId i => i | _ => activeSectionId st end;
     showToast := match e with SetShowToast b => b | _ => showToast st end;
     isSaving := match e with SetIsSaving b => b | _ => isSaving st end;
     height := match e with SetHeight v => v | _ => height st end;
     weight := match e with SetWeight v => v | _ => weight st end;
     bmi := match e with SetBmi v => v | _ => bmi st end;
     age := match e with SetAge v => v | _ => age st end;
     isManualScrolling :=
       match e with SetIsManualScrolling b => b | _ => isManualScrolling st end;
     toastVisible := match e with SetVisible b => b | _ => toastVisible st end;
     captured := match e with AddScrollListener i => i | _ => captured st end;
     document := document st;
     scrollY := scrollY st;
     fullYear := fullYear st;
     clock := clock st;
     timers :=
       match e with
       | SetTimeout cb delay =>
           timers st ++ [ {| due := clock st + delay; callback := cb |} ]
       | ClearToastTimer =>
           List.filter (fun t => negb (isHideToast t)) (timers st)
       | _ => timers st
       end;
     scrollRequests :=
       match e with
       | ScrollTo top => scrollRequests st ++ [top]
       | _ => scrollRequests st
       end |}.

Definition run (effects : list Effect) (st : State) : State :=
  fold_left exec effects st.

(** The states a handler goes through, one after each mutation. *)
Fixpoint states (effects : list Effect) (st : State) : list State :=
  match effects with
  | [] => []
  | e :: rest => exec st e :: states rest (exec st e)
  end.

(** ** Handlers *)

(** *** Derived vitals *)

(** The body of the effect that depends on [height] and [weight]. *)
Definition bmiEffect (st : State) : list Effect :=
  if JS.isEmpty (height st) || JS.isEmpty (weight st) then [SetBmi None]
  else
    let h := JS.parseFloat (height st) in
    let w := JS.parseFloat (weight st) in
    if is_nan h || is_nan w || (h =? 0)%float then [SetBmi None]
    else
      let heightInMeters := (h / 100)%float in
      let bmiValue := (w / (heightInMeters * heightInMeters))%float in
      if (0 <? bmiValue)%float && (bmiValue <? 100)%float
      then [SetBmi (Some (JS.toFixed1 bmiValue))]
      else [SetBmi None].

(** [/^\d+$/.test(s)] is [testDigits s]. *)
Fixpoint allDigits (s : string) : bool :=
  match s with
  | String c r => JS.isDigit c && allDigits r
  | EmptyString => true
  end.

Definition testDigits (s : string) : bool :=
  negb (JS.isEmpty s) && allDigits s.

Definition handleAgeChange (val : string) (st : State) : list Effect :=
  if JS.isEmpty val || testDigits val then [SetAge val] else [].

Definition handleAgeBlur (st : State) : list Effect :=
  if JS.isEmpty (age st) then []
  else
    match JS.parseInt (age st) with
    | Some num =>
        let currentYear := fullYear st in
        if (num >? 1900) && (num <=? currentYear)
        then let calculatedAge := currentYear - num in
             [SetAge (JS.toString calculatedAge)]
        else []
    | None => []
    end.

(** *** Scroll spy *)

(** The test of the loop body of [handleScroll]. *)
Definition inTrigger (triggerPoint : Z) (el : Element) : bool :=
  let adjustedTop := offsetTop el - 140 in
  (triggerPoint >=? adjustedTop)
  && (triggerPoint <? adjustedTop + offsetHeight el + 100).

(** One iteration of [for (const section of SECTIONS)]. *)
Definition spyStep (doc : gmap string Element) (triggerPoint : Z)
    (current : string) (section : SectionItem) : string :=
  match doc !! id section with
  | Some element => if inTrigger triggerPoint element then id section else current
  | None => current
  end.

Definition spy (doc : gmap string Element) (triggerPoint : Z)
    (sections : list SectionItem) (current : string) : string :=
  fold_left (spyStep doc triggerPoint) sections current.

(** The registered listener.  Its [activeSectionId] is the one of its
    closure, [captured st]. *)
Definition handleScroll (st : State) : list Effect :=
  if isManualScrolling st then []
  else
    let scrollPosition := scrollY st in
    let triggerPoint := scrollPosition + 300 in
    let current := spy (document st) triggerPoint SECTIONS (captured st) in
    if negb (String.eqb current (captured st))
    then [SetActiveSectionId current] else [].

(** *** Expansion and navigation *)

Definition toggleSection (i : string) (st : State) : list Effect :=
  [SetExpandedSections
     (fun prev => <[ i := negb (default false (prev !! i)) ]> prev)].

Definition scrollToSection (i : string) (st : State) : list Effect :=
  if String.eqb (activeSectionId st) i then []
  else
    [ SetIsManualScrolling true;
      SetActiveSectionId i;
      SetExpandedSections (fun prev => <[ i := true ]> prev);
      SetTimeout (StartScroll i) 50 ].

Definition handleSave (st : State) : list Effect :=
  [SetIsSaving true; SetTimeout SaveDone 800].

(** The body of a [setTimeout] callback. *)
Definition fire (cb : Callback) (st : State) : list Effect :=
  match cb with
  | StartScroll i =>
      match document st !! i with
      | Some el =>
          let yOffset := -110 in
          let y := rectTop el + scrollY st + yOffset in
          [ScrollTo y; SetTimeout (Settle i) 800]
      | None => [SetIsManualScrolling false]
      end
  | Settle _ => [SetIsManualScrolling false]
  | SaveDone => [SetIsSaving false; SetShowToast true]
  | HideToast => [SetVisible false; SetTimeout CloseToast 300]
  | CloseToast => [SetShowToast false]
  end.

(** *** After a render

    What React runs once it has rendered [App]: the cleanup of the effect of
    [Toast] and that effect again (its dependency [onClose] is an arrow
    function made anew at every render of [App]), and the effect that
    attaches the scroll listener.  That one runs only when [activeSectionId]
    has changed since the render before; attaching a listener over the same
    [activeSectionId] again changes nothing.  The cleanups come first, the
    effect of the child before the one of [App]. *)
Definition toastEffect (st : State) : list Effect :=
  if showToast st then [SetVisible true; SetTimeout HideToast 3000] else [].

Definition passiveEffects (st : State) : list Effect :=
  (ClearToastTimer :: toastEffect st ++ [AddScrollListener (activeSectionId st)])%list.

(** ** The event loop *)

(** Changes made by the browser, not by the program. *)
Definition browserUpdate (doc : gmap string Element) (y now : Z)
    (pending : list Timer) (st : State) : State :=
  {| mode := mode st; isDark := isDark st;
     expandedSections := expandedSections st;
     activeSectionId := activeSectionId st;
     showToast := showToast st; isSaving := isSaving st;
     height := height st; weight := weight st; bmi := bmi st; age := age st;
     isManualScrolling := isManualScrolling st;
     toastVisible := toastVisible st; captured := captured st;
     document := doc; scrollY := y; fullYear := fullYear st;
     clock := now; timers := pending;
     scrollRequests := scrollRequests st |}.

Definition setDocument (doc : gmap string Element) (st : State) : State :=
  browserUpdate doc (scrollY st) (clock st) (timers st) st.

Definition setScrollY (y : Z) (st : State) : State :=
  browserUpdate (document st) y (clock st) (timers st) st.

Definition setClock (now : Z) (st : State) : State :=
  browserUpdate (document st) (scrollY st) now (timers st) st.

(** Take the pending timer that is due first out of the queue (the oldest
    one among equals). *)
Fixpoint pick (pending : list Timer) : option (Timer * list Timer) :=
  match pending with
  | [] => None
  | t :: rest =>
      match pick rest with
      | Some (t', rest') =>
          if due t' <? due t then Some (t', t :: rest') else Some (t, rest)
      | None => Some (t, rest)
      end
  end.

(** Run the callback of timer [t], which has been taken out of the queue. *)
Definition fireTimer (t : Timer) (rest : list Timer) (st : State) : State :=
  let st' :=
    browserUpdate (document st) (scrollY st) (Z.max (clock st) (due t)) rest st in
  run (fire (callback t) st') st'.

(** Fire, in order, the timers due up to [deadline], those included that
    the callbacks schedule on the way. *)
Fixpoint runDue (fuel : nat) (deadline : Z) (st : State) : State :=
  match fuel with
  | O => st
  | S fuel' =>
      match pick (timers st) with
      | Some (t, rest) =>
          if due t <=? deadline
          then runDue fuel' deadline (fireTimer t rest st)
          else st
      | None => st
      end
  end.

(** A [StartScroll] or [HideToast] callback can schedule one more timer,
    the others none: twice the length of the queue is fuel enough (see
    [elapse_quiescent]). *)
Definition elapse (dt : Z) (st : State) : State :=
  let deadline := clock st + dt in
  setClock deadline
    (runDue (2 * List.length (timers st)) deadline st).

Inductive Event :=
  | Click (i : string)              (* a rail button: onSelect(item.id) *)
  | Scroll (y : Z)                  (* a scroll event at window.scrollY = y *)
  | Toggle (i : string)             (* a section header: toggleSection(id) *)
  | ModeClick (m : ClinicalMode)    (* the segmented control: setMode(m) *)
  | HeightInput (v : string)
  | WeightInput (v : string)
  | AgeInput (v : string)
  | AgeBlur
  | Save
  | Layout (doc : gmap string Element)  (* the page is laid out anew *)
  | Elapse (dt : Z)         (* dt milliseconds pass: the timers due run *)
  | Effects.                (* React runs the effects of its latest render *)

Definition step (st : State) (ev : Event) : State :=
  match ev with
  | Click i => run (scrollToSection i st) st
  | Scroll y => let st' := setScrollY y st in run (handleScroll st') st'
  | Toggle i => run (toggleSection i st) st
  | ModeClick m => run [SetMode m] st
  | HeightInput v => let st' := run [SetHeight v] st in run (bmiEffect st') st'
  | WeightInput v => let st' := run [SetWeight v] st in run (bmiEffect st') st'
  | AgeInput v => run (handleAgeChange v st) st
  | AgeBlur => run (handleAgeBlur st) st
  | Save => run (handleSave st) st
  | Layout doc => setDocument doc st
  | Elapse dt => elapse dt st
  | Effects => run (passiveEffects st) st
  end.

Definition steps (evs : list Event) (st : State) : State :=
  fold_left step evs st.

(** ** Vocabulary of the properties *)

(** The margins of the containment rule, as the source has them. *)
Definition lead_margin : Z := 140.
Definition trail_margin : Z := 100.
Definition lookahead_offset : Z := 300.

(** The trigger window of an element contains the point [p]. *)
Definition inWindow (el : Element) (p : Z) : Prop :=
  offsetTop el - lead_margin <= p
  < offsetTop el - lead_margin + offsetHeight el + trail_margin.

(** Section [s] is laid out and its trigger window contains [p]. *)
Definition contains (doc : gmap string Element) (p : Z) (s : SectionItem) : Prop :=
  exists el, doc !! id s = Some el /\ inWindow el p.

(** The index of the first mutation of a handler that satisfies [p]. *)
Fixpoint position (p : Effect -> bool) (effects : list Effect) : option nat :=
  match effects with
  | [] => None
  | e :: rest => if p e then Some O else S <$> position p rest
  end.

Definition isSetActive (i : string) (e : Effect) : bool :=
  match e with SetActiveSectionId j => String.eqb i j | _ => false end.

Definition isSetFlag (b : bool) (e : Effect) : bool :=
  match e with SetIsManualScrolling b' => Bool.eqb b b' | _ => false end.

(** A mutation satisfying [p] comes before one satisfying [q]. *)
Definition happensBefore (p q : Effect -> bool) (effects : list Effect) : Prop :=
  exists a b, position p effects = Some a /\ position q effects = Some b
              /\ (a < b)%nat.

(** The pending timers that clear the suppression flag after a scroll. *)
Definition isSettle (t : Timer) : bool :=
  match callback t with Settle _ => true | _ => false end.

Definition settleTimers (st : State) : list Timer :=
  List.filter isSettle (timers st).

(** How many of the scroll events [ys], arriving one after the other with
    no time in between, make [handleScroll] write the active section.  Each
    of these writes is the outcome of a run of the loop of its own. *)
Fixpoint recomputations (ys : list Z) (st : State) : nat :=
  match ys with
  | [] => O
  | y :: rest =>
      ((match handleScroll (setScrollY y st) with [] => 0 | _ :: _ => 1 end)
       + recomputations rest (step st (Scroll y)))%nat
  end.

(** Events that only scroll or let time pass, and the time they take. *)
Definition passive (ev : Event) : Prop :=
  match ev with
  | Scroll _ => True
  | Elapse dt => 0 <= dt
  | _ => False
  end.

Definition duration (evs : list Event) : Z :=
  fold_right (fun ev acc => match ev with Elapse dt => dt + acc | _ => acc end)
             0 evs.

(** How many callbacks a queue can still run: a [StartScroll] may schedule a
    [Settle], a [HideToast] schedules a [CloseToast]. *)
Definition budget (ts : list Timer) : nat :=
  list_sum (map (fun t => match callback t with
                          | StartScroll _ | HideToast => 2%nat
                          | _ => 1%nat
                          end) ts).

(** A navigation request for [X], issued at time [c0], is in flight: the
    flag is up, [X] is active and laid out, and the only pending timer is the
    request's own, either its 50 ms one or the settle timer that one made. *)
Definition inFlight (c0 : Z) (X : string) (st : State) : Prop :=
  isManualScrolling st = true
  /\ activeSectionId st = X
  /\ is_Some (document st !! X)
  /\ ((timers st = [ {| due := c0 + 50; callback := StartScroll X |} ]
       /\ clock st <= c0 + 50)
      \/ (exists d, timers st = [ {| due := d; callback := Settle X |} ]
                    /\ c0 + 850 <= d)).

(** The exact value [m * 2^e] of a finite binary64 number. *)
Definition ratio (m : positive) (e : Z) : Q :=
  if 0 <=? e then inject_Z (Zpos m * 2 ^ e) else Zpos m # Z.to_pos (2 ^ (- e)).

Definition floatQ (x : float) : Q :=
  match Prim2SF x with
  | S754_finite s m e => if s then (- ratio m e)%Q else ratio m e
  | _ => 0%Q
  end.

(** [n] tenths is [v] rounded to one decimal place: the multiple of a tenth
    nearest to [v], the upper one when [v] is half way between two. *)
Definition nearestTenth (n : Z) (v : Q) : Prop :=
  (10 * v - (1 # 2) < inject_Z n /\ inject_Z n <= 10 * v + (1 # 2))%Q.

(** The BMI on display is the one of the height and weight on display: blank
    unless both are present, both parse as numbers, the height is not zero
    and the quotient [x = w / (h/100)^2], computed in binary64, lies strictly
    between 0 and 100; in that case it is [x] rounded to one decimal place. *)
Definition bmiShown (st : State) : Prop :=
  let h := JS.parseFloat (height st) in
  let w := JS.parseFloat (weight st) in
  let x := (w / (h / 100 * (h / 100)))%float in
  (height st = "" \/ weight st = ""
   \/ is_nan h = true \/ is_nan w = true \/ (h =? 0)%float = true
   \/ (0 <? x)%float = false \/ (x <? 100)%float = false ->
   bmi st = None)
  /\ (height st <> "" -> weight st <> "" ->
      is_nan h = false -> is_nan w = false -> (h =? 0)%float = false ->
      (0 <? x)%float = true -> (x <? 100)%float = true ->
      exists n, bmi st = Some (JS.showTenths n)
                /\ 0 <= n <= 1000
                /\ nearestTenth n (floatQ x)).

(** Printing the integer [k] and parsing it again gives [k] back. *)
Definition roundTrips (k : nat) : bool :=
  match JS.parseInt (JS.toString (Z.of_nat k)) with
  | Some j => (j =? Z.of_nat k) && negb (JS.isEmpty (JS.toString (Z.of_nat k)))
  | None => false
  end.

(** A page with the seven sections stacked, 600 pixels each, from 200 down. *)
Definition block (top : Z) : Element :=
  {| offsetTop := top; offsetHeight := 600; rectTop := top |}.

Definition page : gmap string Element :=
  {[ "identity" := block 200; "concern" := block 800; "hpi" := block 1400;
     "ros" := block 2000; "background" := block 2600; "exam" := block 3200;
     "plan" := block 3800 ]}.

(** ** Vocabulary of the properties of reachable states *)

(** The ids of the registry, in order. *)
Definition sectionIds : list string := map id SECTIONS.

(** The active section and the section in the closure of the scroll listener
    are sections of the registry. *)
Definition registered (st : State) : Prop :=
  In (activeSectionId st) sectionIds /\ In (captured st) sectionIds.

(** The events the page can produce: the rail and the section headers pass
    ids of the registry only, and time does not run backwards. *)
Definition fromUI (ev : Event) : Prop :=
  match ev with
  | Click i | Toggle i => In i sectionIds
  | Elapse dt => 0 <= dt
  | _ => True
  end.

(** The rail: which buttons it draws as active, and what a click on the
    button at [index] dispatches ([onSelect(item.id)]). *)
Module PhaseNavigation.

Definition isActive (activeSectionId : string) (item : SectionItem) : bool :=
  String.eqb activeSectionId (id item).

Definition highlights (sections : list SectionItem) (activeSectionId : string)
    : list bool :=
  map (isActive activeSectionId) sections.

Definition onClick (sections : list SectionItem) (index : nat) : option Event :=
  match nth_error sections index with
  | Some item => Some (Click (id item))
  | None => None
  end.

End PhaseNavigation.

(** The events whose handlers write the expansion map. *)
Definition writesExpansion (ev : Event) : Prop :=
  match ev with
  | Click _ | Toggle _ => True
  | _ => False
  end.

(** The timers of a navigation request: its 50 ms one and its settle timer. *)
Definition isNavTimer (t : Timer) : bool :=
  match callback t with
  | StartScroll _ | Settle _ => true
  | SaveDone | HideToast | CloseToast => false
  end.

(** The navigation request timer [t] belongs to is over by time [b]. *)
Definition settlesBy (b : Z) (t : Timer) : Prop :=
  match callback t with
  | StartScroll _ => due t + 800 <= b
  | Settle _ => due t <= b
  | SaveDone | HideToast | CloseToast => True
  end.

(** No pending timer is overdue, every navigation request under way is over
    within 850 ms, and while the flag is up a timer of a navigation request
    is pending. *)
Definition live (st : State) : Prop :=
  (forall t, In t (timers st) ->
             clock st <= due t /\ settlesBy (clock st + 850) t)
  /\ (isManualScrolling st = true ->
      exists t, In t (timers st) /\ isNavTimer t = true).

(** ** The vitals input *)

Module NumberInput.

(** [handleInput]: the value the input holds after an input event that
    found [val] in it ([val.slice(0, 10)] when [val] is longer than 10). *)
Definition handleInput (val : string) : string :=
  if JS.isEmpty val then val
  else if (10 <? String.length val)%nat then String.substring 0 10 val
  else val.

End NumberInput.

(** ** The mouse-position effect

    The first effect of [App]: a [mousemove] listener that hands the pointer
    position to the next animation frame, cancelling the frame it requested
    before. *)

Module MouseGlow.

(** A callback given to [requestAnimationFrame], with the handle it got
    and the pointer position of the event it closed over. *)
Record Frame := { handle : Z; clientX : Z; clientY : Z }.

Record Mouse := {
  animationFrameId : option Z;  (* [let animationFrameId: number], unset at first *)
  pending : list Frame;         (* callbacks waiting for the next frame, oldest first *)
  nextHandle : Z;               (* the handle requestAnimationFrame returns next *)
  listening : bool;             (* the listener is registered *)
  cssWrites : list (Z * Z)      (* values written to --mouse-x / --mouse-y, oldest first *)
}.

Definition mounted (first : Z) : Mouse :=
  {| animationFrameId := None; pending := []; nextHandle := first;
     listening := true; cssWrites := [] |}.

Definition cancelAnimationFrame (h : Z) (m : Mouse) : Mouse :=
  {| animationFrameId := animationFrameId m;
     pending := List.filter (fun f => negb (handle f =? h)) (pending m);
     nextHandle := nextHandle m;
     listening := listening m;
     cssWrites := cssWrites m |}.

(** [if (animationFrameId) cancelAnimationFrame(animationFrameId)] *)
Definition cancelIfSet (m : Mouse) : Mouse :=
  match animationFrameId m with
  | Some h => if h =? 0 then m else cancelAnimationFrame h m
  | None => m
  end.

Definition handleMouseMove (x y : Z) (m : Mouse) : Mouse :=
  let m1 := cancelIfSet m in
  {| animationFrameId := Some (nextHandle m1);
     pending := pending m1
                ++ [ {| handle := nextHandle m1; clientX := x; clientY := y |} ];
     nextHandle := nextHandle m1 + 1;
     listening := listening m1;
     cssWrites := cssWrites m1 |}.

(** The cleanup of the effect. *)
Definition unmount (m : Mouse) : Mouse :=
  let m1 := cancelIfSet m in
  {| animationFrameId := animationFrameId m1;
     pending := pending m1;
     nextHandle := nextHandle m1;
     listening := false;
     cssWrites := cssWrites m1 |}.

(** The browser paints: every pending callback runs, oldest first. *)
Definition animationFrame (m : Mouse) : Mouse :=
  {| animationFrameId := animationFrameId m;
     pending := [];
     nextHandle := nextHandle m;
     listening := listening m;
     cssWrites := cssWrites m ++ map (fun f => (clientX f, clientY f)) (pending m) |}.

Inductive Event :=
  | Move (x y : Z)
  | AnimationFrame
  | Unmount.

Definition step (m : Mouse) (ev : Event) : Mouse :=
  match ev with
  | Move x y => if listening m then handleMouseMove x y m else m
  | AnimationFrame => animationFrame m
  | Unmount => unmount m
  end.

Definition steps (evs : list Event) (m : Mouse) : Mouse :=
  fold_left step evs m.

(** The frame requested last is the only one pending, if any is. *)
Definition tidy (m : Mouse) : Prop :=
  0 < nextHandle m
  /\ (pending m = []
      \/ exists f, pending m = [f] /\ animationFrameId m = Some (handle f)
                   /\ handle f <> 0).

End MouseGlow.

(** ** The toast

    The [Toast] component as [App] uses it: [show] is [showToast], and
    [onClose] is an arrow function made anew at every render of [App], so
    every render of [App] runs the cleanup of the toast's effect and then the
    effect again.  [onClose] sets [showToast] to false, which renders [App]
    once more when it was true. *)

Module Toast.

(** The 3000 ms callback of the effect, and the 300 ms [onClose] it
    schedules. *)
Inductive Callback := Hide | Close.

Record Timer := { handle : Z; due : Z; callback : Callback }.

Record Toast := {
  show : bool;            (* the prop *)
  visible : bool;         (* the state cell *)
  cleanup : option Z;     (* the timer the cleanup of the last effect run clears *)
  timers : list Timer;    (* pending, oldest first *)
  nextHandle : Z;         (* the handle setTimeout returns next *)
  clock : Z;
  closed : nat            (* how often onClose has been called *)
}.

Definition idle (first now : Z) : Toast :=
  {| show := false; visible := false; cleanup := None; timers := [];
     nextHandle := first; clock := now; closed := 0 |}.

Definition clearTimeout (h : Z) (pending : list Timer) : list Timer :=
  List.filter (fun t => negb (handle t =? h)) pending.

(** [App] renders and passes [show = s]: the cleanup of the previous run of
    the effect, then the effect. *)
Definition render (s : bool) (t : Toast) : Toast :=
  let pending :=
    match cleanup t with
    | Some h => clearTimeout h (timers t)
    | None => timers t
    end in
  if s then
    {| show := true;
       visible := true;
       cleanup := Some (nextHandle t);
       timers := pending ++ [ {| handle := nextHandle t; due := clock t + 3000;
                                 callback := Hide |} ];
       nextHandle := nextHandle t + 1;
       clock := clock t;
       closed := closed t |}
  else
    {| show := false;
       visible := visible t;
       cleanup := None;
       timers := pending;
       nextHandle := nextHandle t;
       clock := clock t;
       closed := closed t |}.

(** The component returns [null]. *)
Definition hidden (t : Toast) : bool := negb (show t) && negb (visible t).

Fixpoint pick (pending : list Timer) : option (Timer * list Timer) :=
  match pending with
  | [] => None
  | t :: rest =>
      match pick rest with
      | Some (t', rest') =>
          if due t' <? due t then Some (t', t :: rest') else Some (t, rest)
      | None => Some (t, rest)
      end
  end.

(** Run the callback of timer [tm], taken out of the queue. *)
Definition fireTimer (tm : Timer) (rest : list Timer) (t : Toast) : Toast :=
  let now := Z.max (clock t) (due tm) in
  match callback tm with
  | Hide =>
      {| show := show t;
         visible := false;
         cleanup := cleanup t;
         timers := rest ++ [ {| handle := nextHandle t; due := now + 300;
                                callback := Close |} ];
         nextHandle := nextHandle t + 1;
         clock := now;
         closed := closed t |}
  | Close =>
      let t' := {| show := show t; visible := visible t; cleanup := cleanup t;
                   timers := rest; nextHandle := nextHandle t; clock := now;
                   closed := S (closed t) |} in
      if show t then render false t' else t'
  end.

Fixpoint runDue (fuel : nat) (deadline : Z) (t : Toast) : Toast :=
  match fuel with
  | O => t
  | S fuel' =>
      match pick (timers t) with
      | Some (tm, rest) =>
          if due tm <=? deadline
          then runDue fuel' deadline (fireTimer tm rest t)
          else t
      | None => t
      end
  end.

Definition setClock (now : Z) (t : Toast) : Toast :=
  {| show := show t; visible := visible t; cleanup := cleanup t;
     timers := timers t; nextHandle := nextHandle t; clock := now;
     closed := closed t |}.

(** A [Hide] schedules one [Close], a [Close] nothing: twice the length of
    the queue is fuel enough. *)
Definition elapse (dt : Z) (t : Toast) : Toast :=
  setClock (clock t + dt)
    (runDue (2 * List.length (timers t)) (clock t + dt) t).

Inductive Event :=
  | Render (s : bool)   (* App renders with showToast = s *)
  | Elapse (dt : Z).

Definition step (t : Toast) (ev : Event) : Toast :=
  match ev with
  | Render s => render s t
  | Elapse dt => elapse dt t
  end.

Definition steps (evs : list Event) (t : Toast) : Toast :=
  fold_left step evs t.

Definition isHide (tm : Timer) : bool :=
  match callback tm with Hide => true | Close => false end.

(** The queue as the cleanup of the last run of the effect leaves it. *)
Definition cleared (t : Toast) : list Timer :=
  match cleanup t with
  | Some h => clearTimeout h (timers t)
  | None => timers t
  end.

(** Handles are handed out in increasing order, and the pending timers that
    hide the toast are those with the handle the cleanup holds. *)
Definition wellKept (t : Toast) : Prop :=
  (forall tm, In tm (timers t) -> handle tm < nextHandle t)
  /\ (forall h, cleanup t = Some h -> h < nextHandle t)
  /\ (forall tm, In tm (timers t) ->
        (isHide tm = true <-> cleanup t = Some (handle tm))).

End Toast.


(** * Properties *)

(** ** Initial state *)

(** C10: at initialization [expandedSections] holds exactly the entries
    [concern] and [identity], both true, so of the registry exactly those two
    sections are open; [activeSectionId] is ["identity"], the id of the first
    section of [SECTIONS]. *)
Theorem initial_state (doc : gmap string Element) (year : Z) :
  let st := initial doc year in
  (forall k v, expandedSections st !! k = Some v
               <-> (k = "concern" \/ k = "identity") /\ v = true)
  /\ (forall s, In s SECTIONS ->
        (isOpen st (id s) = true <-> id s = "concern" \/ id s = "identity"))
  /\ activeSectionId st = "identity"
  /\ id <$> head SECTIONS = Some (activeSectionId st).
Proof.
  cbn zeta. split; [| split; [| split; reflexivity]].
  - intros k v. cbn [initial expandedSections]. split.
    + intros H.
      destruct (decide (k = "concern")) as [->|Hc].
      { rewrite lookup_insert_eq in H. split; [now left | congruence]. }
      rewrite lookup_insert_ne in H by congruence.
      destruct (decide (k = "identity")) as [->|Hi].
      { rewrite lookup_singleton_eq in H. split; [now right | congruence]. }
      rewrite lookup_singleton_ne in H by congruence. discriminate.
    + intros [[-> | ->] ->]; reflexivity.
  - intros s Hs. cbn in Hs.
    repeat (destruct Hs as [<- | Hs]; [vm_compute; intuition congruence |]).
    contradiction.
Qed.

(** ** Navigation requests *)

Lemma run_nil (st : State) : run [] st = st.
Proof. reflexivity. Qed.

Lemma eqb_neq_false (a b : string) : a <> b -> String.eqb a b = false.
Proof. intros H. now apply String.eqb_neq. Qed.

(** What a rail click on another section does, mutation by mutation. *)
Lemma scrollToSection_other (st : State) (X : string) :
  activeSectionId st <> X ->
  scrollToSection X st =
    [ SetIsManualScrolling true;
      SetActiveSectionId X;
      SetExpandedSections (fun prev => <[ X := true ]> prev);
      SetTimeout (StartScroll X) 50 ].
Proof.
  intros H. unfold scrollToSection. now rewrite (eqb_neq_false _ _ H).
Qed.

Lemma click_active_noop_aux (st : State) (X : string) :
  activeSectionId st = X ->
  scrollToSection X st = [] /\ step st (Click X) = st.
Proof.
  intros <-. cbn [step]. unfold scrollToSection.
  rewrite String.eqb_refl. split; reflexivity.
Qed.

(** C8: clicking the rail item of the section that is already active does
    nothing: [scrollToSection] performs no mutation, so the whole state
    (active section, expansion map, suppression flag, pending timers, scroll
    requests) is the one before. *)
Theorem click_active_is_noop (st : State) (X : string) :
  activeSectionId st = X ->
  scrollToSection X st = [] /\ step st (Click X) = st.
Proof. exact (click_active_noop_aux st X). Qed.

Lemma click_active_is_noop_witness :
  let st := initial page 2024 in
  scrollToSection "identity" st = [] /\ step st (Click "identity") = st.
Proof. exact (click_active_is_noop (initial page 2024) "identity" eq_refl). Defined.

(** ** Clinical mode *)

(** C9: a click on the mode control replaces [mode] and nothing else; in
    particular [activeSectionId] and [expandedSections] are the ones before. *)
Theorem mode_change_frame (st : State) (m : ClinicalMode) :
  let st' := step st (ModeClick m) in
  mode st' = m
  /\ activeSectionId st' = activeSectionId st
  /\ expandedSections st' = expandedSections st
  /\ st' = {| mode := m; isDark := isDark st;
              expandedSections := expandedSections st;
              activeSectionId := activeSectionId st;
              showToast := showToast st; isSaving := isSaving st;
              height := height st; weight := weight st; bmi := bmi st;
              age := age st; isManualScrolling := isManualScrolling st;
              toastVisible := toastVisible st; captured := captured st;
              document := document st; scrollY := scrollY st;
              fullYear := fullYear st; clock := clock st;
              timers := timers st; scrollRequests := scrollRequests st |}.
Proof. repeat split. Qed.

(** ** Order of the mutations of a navigation request *)

(** C4, as the code has it: in a navigation request the suppression flag is
    set first and the optimistic update of [activeSectionId] second; after the
    first mutation the flag is already up and the active section still the old
    one. *)
Theorem flag_set_before_active (st : State) (X : string) :
  activeSectionId st <> X ->
  position (isSetFlag true) (scrollToSection X st) = Some 0%nat
  /\ position (isSetActive X) (scrollToSection X st) = Some 1%nat
  /\ happensBefore (isSetFlag true) (isSetActive X) (scrollToSection X st)
  /\ ~ happensBefore (isSetActive X) (isSetFlag true) (scrollToSection X st)
  /\ (exists s1 rest, states (scrollToSection X st) st = s1 :: rest
        /\ isManualScrolling s1 = true
        /\ activeSectionId s1 = activeSectionId st).
Proof.
  intros H. rewrite (scrollToSection_other _ _ H).
  assert (Hf : position (isSetFlag true)
                 [SetIsManualScrolling true; SetActiveSectionId X;
                  SetExpandedSections (fun prev => <[ X := true ]> prev);
                  SetTimeout (StartScroll X) 50] = Some 0%nat) by reflexivity.
  assert (Ha : position (isSetActive X)
                 [SetIsManualScrolling true; SetActiveSectionId X;
                  SetExpandedSections (fun prev => <[ X := true ]> prev);
                  SetTimeout (StartScroll X) 50] = Some 1%nat).
  { cbn. now rewrite String.eqb_refl. }
  split; [exact Hf |]. split; [exact Ha |]. split; [| split].
  - exists 0%nat, 1%nat. split; [exact Hf |]. split; [exact Ha | lia].
  - intros (a & b & Pa & Pb & Hab). rewrite Ha in Pa. rewrite Hf in Pb.
    injection Pa as <-. injection Pb as <-. lia.
  - eexists _, _. split; [reflexivity |]. split; reflexivity.
Qed.

Lemma flag_set_before_active_witness :
  position (isSetFlag true) (scrollToSection "hpi" (initial page 2024)) = Some 0%nat
  /\ position (isSetActive "hpi") (scrollToSection "hpi" (initial page 2024))
     = Some 1%nat.
Proof.
  pose proof (flag_set_before_active (initial page 2024) "hpi") as H.
  destruct H as (H0 & H1 & _); [discriminate |]. exact (conj H0 H1).
Defined.

(** C4, as stated, fails: on the first click on ["hpi"] the update of
    [activeSectionId] does not come before the setting of the flag. *)
Lemma active_not_set_before_flag :
  ~ happensBefore (isSetActive "hpi") (isSetFlag true)
      (scrollToSection "hpi" (initial page 2024)).
Proof.
  intros (a & b & Pa & Pb & Hab).
  vm_compute in Pa. vm_compute in Pb.
  injection Pa as <-. injection Pb as <-. lia.
Qed.

(** ** The containment rule of the scroll spy *)

Lemma inTrigger_spec (p : Z) (el : Element) :
  inTrigger p el = true <-> inWindow el p.
Proof.
  unfold inTrigger, inWindow, lead_margin, trail_margin.
  rewrite andb_true_iff, Z.geb_le, Z.ltb_lt. tauto.
Qed.

Lemma spyStep_hit doc p cur s :
  contains doc p s -> spyStep doc p cur s = id s.
Proof.
  intros (el & Hel & Hin). unfold spyStep. rewrite Hel.
  apply inTrigger_spec in Hin. now rewrite Hin.
Qed.

Lemma spyStep_miss doc p cur s :
  ~ contains doc p s -> spyStep doc p cur s = cur.
Proof.
  intros Hn. unfold spyStep.
  destruct (doc !! id s) as [el|] eqn:Hel; [| reflexivity].
  destruct (inTrigger p el) eqn:Hin; [| reflexivity].
  exfalso. apply Hn. exists el. split; [exact Hel |].
  now apply inTrigger_spec.
Qed.

(** Sections that do not contain the probe point leave [current] alone. *)
Lemma spy_none doc p sections cur :
  (forall s, In s sections -> ~ contains doc p s) ->
  spy doc p sections cur = cur.
Proof.
  unfold spy. revert cur.
  induction sections as [| s rest IH]; intros cur H; [reflexivity |].
  cbn [fold_left]. rewrite spyStep_miss by (apply H; now left).
  apply IH. intros s' Hs'. apply H. now right.
Qed.

(** The loop ends on the last section that contains the probe point. *)
Lemma spy_last doc p (before : list SectionItem) s after cur :
  contains doc p s ->
  (forall s', In s' after -> ~ contains doc p s') ->
  spy doc p (before ++ s :: after)%list cur = id s.
Proof.
  intros Hs Hafter. unfold spy.
  rewrite fold_left_app. cbn [fold_left].
  rewrite (spyStep_hit _ _ _ _ Hs).
  now apply (spy_none doc p after (id s)).
Qed.

(** What a scroll event does to the state when the spy is observing: the
    loop starts from the section of the closure of the listener, and its
    result is written when it is another section than that one. *)
Lemma scroll_observing (st : State) (y : Z) :
  isManualScrolling st = false ->
  let current := spy (document st) (y + 300) SECTIONS (captured st) in
  handleScroll (setScrollY y st)
  = (if String.eqb current (captured st) then []
     else [SetActiveSectionId current])
  /\ step st (Scroll y)
     = (if String.eqb current (captured st) then setScrollY y st
        else exec (setScrollY y st) (SetActiveSectionId current)).
Proof.
  intros Hf. cbn zeta. cbn [step]. unfold handleScroll.
  cbn [setScrollY browserUpdate isManualScrolling scrollY document captured].
  rewrite Hf.
  destruct (String.eqb
              (spy (document st) (y + 300) SECTIONS (captured st))
              (captured st)); cbn [negb]; split; reflexivity.
Qed.

(** With a listener attached since the active section last changed, the
    result of the loop is the active section after the event. *)
Lemma scroll_fresh (st : State) (y : Z) :
  isManualScrolling st = false -> captured st = activeSectionId st ->
  step st (Scroll y)
  = exec (setScrollY y st)
      (SetActiveSectionId
         (spy (document st) (y + 300) SECTIONS (activeSectionId st))).
Proof.
  intros Hf Hc. rewrite (proj2 (scroll_observing st y Hf)). rewrite Hc.
  destruct (String.eqb_spec
              (spy (document st) (y + 300) SECTIONS (activeSectionId st))
              (activeSectionId st)) as [He | Hne]; [| reflexivity].
  rewrite He. reflexivity.
Qed.

(** What it does while a programmatic scroll is in flight: nothing but
    record the scroll offset. *)
Lemma scroll_suppressed (st : State) (y : Z) :
  isManualScrolling st = true ->
  handleScroll (setScrollY y st) = [] /\ step st (Scroll y) = setScrollY y st.
Proof.
  intros Hf. cbn [step]. unfold handleScroll.
  cbn [setScrollY browserUpdate isManualScrolling]. rewrite Hf.
  split; reflexivity.
Qed.




(** ** Scroll events are handled one by one *)

(** A scroll event touches nothing but the scroll offset and, when
    observing, the active section. *)
Lemma scroll_frame (st : State) (y : Z) :
  let st' := step st (Scroll y) in
  isManualScrolling st' = isManualScrolling st
  /\ timers st' = timers st
  /\ clock st' = clock st
  /\ document st' = document st
  /\ expandedSections st' = expandedSections st.
Proof.
  cbn zeta. destruct (isManualScrolling st) eqn:Hf.
  - rewrite (proj2 (scroll_suppressed st y Hf)).
    cbn. now rewrite Hf.
  - rewrite (proj2 (scroll_observing st y Hf)).
    destruct (String.eqb _ _); cbn; now rewrite Hf.
Qed.

(** Nor does it attach a listener. *)
Lemma scroll_captured (st : State) (y : Z) :
  captured (step st (Scroll y)) = captured st.
Proof.
  destruct (isManualScrolling st) eqn:Hf.
  - now rewrite (proj2 (scroll_suppressed st y Hf)).
  - rewrite (proj2 (scroll_observing st y Hf)).
    now destruct (String.eqb _ _).
Qed.

Lemma scroll_burst_frame (ys : list Z) :
  forall st,
    let s := steps (map Scroll ys) st in
    isManualScrolling s = isManualScrolling st
    /\ captured s = captured st
    /\ document s = document st
    /\ timers s = timers st
    /\ clock s = clock st.
Proof.
  induction ys as [| y rest IH]; intros st; [repeat split |].
  cbn zeta. cbn [map steps fold_left].
  fold (steps (map Scroll rest) (step st (Scroll y))).
  destruct (IH (step st (Scroll y))) as (Hf & Hl & Hd & Ht & Hc).
  destruct (scroll_frame st y) as (Hf' & Ht' & Hc' & Hd' & _).
  pose proof (scroll_captured st y) as Hl'.
  cbn zeta in *. repeat split; congruence.
Qed.

(** In a burst every event that finds another section than the one of the
    closure counts. *)
Lemma recomputations_observing (ys : list Z) :
  forall st,
    isManualScrolling st = false ->
    recomputations ys st
    = List.length
        (List.filter
           (fun y => negb (String.eqb
                             (spy (document st) (y + 300) SECTIONS (captured st))
                             (captured st)))
           ys).
Proof.
  induction ys as [| y rest IH]; intros st Hf; [reflexivity |].
  cbn [recomputations List.filter].
  destruct (scroll_frame st y) as (Hf' & _ & _ & Hd' & _). cbn zeta in *.
  rewrite (IH (step st (Scroll y))) by congruence.
  rewrite Hd', (scroll_captured st y).
  rewrite (proj1 (scroll_observing st y Hf)).
  destruct (String.eqb _ _); reflexivity.
Qed.

(** C5, as the code has it: [handleScroll] has no pending-callback guard.
    It runs on every scroll event and schedules nothing: the timer queue and
    the clock are the ones before the burst.  While the suppression flag is
    down every event of a burst runs the loop for itself, however many came
    before it: when the last section whose window contains its probe point
    ([result y]) is another one than the section the listener was attached
    with, the event writes it, and it is the active section as soon as the
    event is handled; a burst of [n] such events makes [n] writes. *)
Theorem scroll_not_rate_limited (st : State) (ys : list Z) :
  isManualScrolling st = false ->
  let result y := spy (document st) (y + 300) SECTIONS (captured st) in
  let writes y := negb (String.eqb (result y) (captured st)) in
  (forall before y after,
      ys = (before ++ y :: after)%list -> writes y = true ->
      let s := steps (map Scroll before) st in
      handleScroll (setScrollY y s) = [SetActiveSectionId (result y)]
      /\ activeSectionId (step s (Scroll y)) = result y)
  /\ recomputations ys st = List.length (List.filter writes ys)
  /\ (Forall (fun y => writes y = true) ys ->
      recomputations ys st = List.length ys)
  /\ timers (steps (map Scroll ys) st) = timers st
  /\ clock (steps (map Scroll ys) st) = clock st.
Proof.
  intros Hf. cbn zeta. split; [| split; [| split]].
  - intros before y after _ Hw.
    destruct (scroll_burst_frame before st) as (Hf' & Hl' & Hd' & _).
    cbn zeta in *. rewrite Hf in Hf'.
    destruct (scroll_observing (steps (map Scroll before) st) y Hf') as [Hh Hs].
    cbn zeta in *. rewrite Hd', Hl' in Hh, Hs.
    apply negb_true_iff in Hw. rewrite Hw in Hh, Hs.
    split; [exact Hh |]. rewrite Hs. reflexivity.
  - now apply recomputations_observing.
  - intros Hall. rewrite (recomputations_observing ys st Hf).
    clear Hf. induction Hall as [| y rest Hy _ IH]; [reflexivity |].
    cbn [List.filter]. rewrite Hy. cbn [List.length]. now rewrite IH.
  - destruct (scroll_burst_frame ys st) as (_ & _ & _ & Ht & Hc).
    split; [exact Ht | exact Hc].
Qed.

Lemma scroll_not_rate_limited_witness :
  recomputations [1500; 4000; 1500] (initial page 2024) = 3%nat
  /\ timers (steps (map Scroll [1500; 4000; 1500]) (initial page 2024)) = [].
Proof.
  destruct (scroll_not_rate_limited (initial page 2024) [1500; 4000; 1500] eq_refl)
    as (_ & _ & H1 & H2 & _).
  split; [| exact H2]. apply H1.
  repeat (apply List.Forall_cons; [vm_compute; reflexivity |]).
  apply List.Forall_nil.
Defined.

(** C5, as stated, fails: two scroll events with no time between them are
    both recomputed, and each changes the active section. *)
Lemma burst_recomputed_twice :
  let st := initial page 2024 in
  ~ (recomputations [1500; 4000]%Z st <= 1)%nat
  /\ clock (steps [Scroll 1500; Scroll 4000] st) = clock st
  /\ handleScroll (setScrollY 1500 st) = [SetActiveSectionId "hpi"]
  /\ handleScroll (setScrollY 4000 (step st (Scroll 1500)))
     = [SetActiveSectionId "plan"]
  /\ activeSectionId (steps [Scroll 1500; Scroll 4000] st) = "plan".
Proof.
  cbn zeta. split; [vm_compute; lia |]. repeat split; vm_compute; reflexivity.
Qed.

(** ** The timer queue *)

Lemma pick_In (ts : list Timer) :
  forall t rest, pick ts = Some (t, rest) -> In t ts.
Proof.
  induction ts as [| t0 ts IH]; intros t rest H; [discriminate |].
  cbn [pick] in H. destruct (pick ts) as [[t' rest'] |].
  - destruct (due t' <? due t0); injection H as <- <-.
    + right. now apply (IH t' rest').
    + now left.
  - injection H as <- <-. now left.
Qed.

(** The timer taken is due no later than any pending one. *)
Lemma pick_min (ts : list Timer) :
  forall t rest, pick ts = Some (t, rest) ->
                 forall t', In t' ts -> due t <= due t'.
Proof.
  induction ts as [| t0 ts IH]; intros t rest H t' Hin; [discriminate |].
  cbn [pick] in H. destruct (pick ts) as [[t1 rest1] |] eqn:Hp.
  - specialize (IH t1 rest1 eq_refl).
    destruct (Z.ltb_spec (due t1) (due t0)); injection H as <- <-;
      destruct Hin as [<- | Hin]; try lia.
    + now apply IH.
    + specialize (IH t' Hin). lia.
  - injection H as <- <-. destruct Hin as [<- | Hin]; [lia |].
    destruct ts; [contradiction | cbn [pick] in Hp].
    destruct (pick ts) as [[? ?]|]; [destruct (_ <? _) |]; discriminate.
Qed.

Lemma pick_None (ts : list Timer) : pick ts = None -> ts = [].
Proof.
  destruct ts as [| t ts]; [reflexivity |]. cbn [pick].
  destruct (pick ts) as [[? ?]|]; [destruct (_ <? _) |]; discriminate.
Qed.

Lemma budget_app (ts us : list Timer) :
  budget (ts ++ us) = (budget ts + budget us)%nat.
Proof. unfold budget. now rewrite map_app, list_sum_app. Qed.

Lemma budget_cons (t : Timer) (ts : list Timer) :
  budget (t :: ts) = (budget [t] + budget ts)%nat.
Proof. unfold budget, list_sum. cbn [map fold_right]. lia. Qed.

Lemma budget_single (t : Timer) : (1 <= budget [t] <= 2)%nat.
Proof. unfold budget, list_sum. cbn [map fold_right]. destruct (callback t); lia. Qed.

Lemma budget_le (ts : list Timer) : (budget ts <= 2 * List.length ts)%nat.
Proof.
  induction ts as [| t ts IH]; [cbn; lia |].
  rewrite budget_cons. cbn [List.length].
  pose proof (budget_single t). lia.
Qed.

Lemma pick_budget (ts : list Timer) :
  forall t rest, pick ts = Some (t, rest) ->
                 budget ts = (budget [t] + budget rest)%nat.
Proof.
  induction ts as [| t0 ts IH]; intros t rest H; [discriminate |].
  cbn [pick] in H. rewrite budget_cons.
  destruct (pick ts) as [[t' rest'] |].
  - destruct (due t' <? due t0); injection H as <- <-; [| reflexivity].
    rewrite (IH t' rest' eq_refl), (budget_cons t0 rest'). lia.
  - now injection H as <- <-.
Qed.

Lemma run_timers_frame (effects : list Effect) :
  forall st, (forall e, In e effects ->
                match e with
                | SetTimeout _ _ | ClearToastTimer => False
                | _ => True
                end) ->
             timers (run effects st) = timers st.
Proof.
  induction effects as [| e rest IH]; intros st H; [reflexivity |].
  cbn [run fold_left]. fold (run rest (exec st e)).
  rewrite IH by (intros e' He'; apply H; now right).
  specialize (H e (or_introl eq_refl)). destruct e; try reflexivity;
    contradiction.
Qed.

(** Running a callback takes it off the queue and appends what it
    schedules; nothing else leaves the queue. *)
Lemma fireTimer_timers (t : Timer) (rest : list Timer) (st : State) :
  exists new, timers (fireTimer t rest st) = (rest ++ new)%list
              /\ (budget new < budget [t])%nat
              /\ (forall t', In t' new -> Z.max (clock st) (due t) <= due t').
Proof.
  unfold fireTimer. destruct t as [d cb]. cbn [callback due].
  destruct cb as [i | i | | |]; cbn [fire].
  - cbn [browserUpdate document].
    destruct (document st !! i) as [el |].
    + eexists [ _ ]. split; [reflexivity |]. split; [cbn; lia |].
      intros t' [<- | []]. cbn. lia.
    + exists []. split; [cbn; now rewrite app_nil_r |]. split; [cbn; lia |].
      intros t' [].
  - exists []. split; [cbn; now rewrite app_nil_r |]. split; [cbn; lia |].
    intros t' [].
  - exists []. split; [cbn; now rewrite app_nil_r |]. split; [cbn; lia |].
    intros t' [].
  - eexists [ _ ]. split; [reflexivity |]. split; [cbn; lia |].
    intros t' [<- | []]. cbn. lia.
  - exists []. split; [cbn; now rewrite app_nil_r |]. split; [cbn; lia |].
    intros t' [].
Qed.

(** With fuel for every callback the queue can run, [runDue] stops only
    when no pending timer is due by the deadline. *)
Lemma runDue_complete (fuel : nat) (deadline : Z) :
  forall st, (budget (timers st) <= fuel)%nat ->
             forall t, In t (timers (runDue fuel deadline st)) ->
                       deadline < due t.
Proof.
  induction fuel as [| fuel IH]; intros st Hw t Hin.
  - cbn [runDue] in Hin. destruct (timers st) as [| t0 ts]; [contradiction |].
    exfalso. rewrite budget_cons in Hw. pose proof (budget_single t0). lia.
  - cbn [runDue] in Hin.
    destruct (pick (timers st)) as [[t0 rest] |] eqn:Hp.
    + destruct (Z.leb_spec (due t0) deadline) as [Hdue | Hdue].
      * apply (IH (fireTimer t0 rest st)); [| exact Hin].
        destruct (fireTimer_timers t0 rest st) as (new & -> & Hnew & _).
        rewrite budget_app. rewrite (pick_budget _ _ _ Hp) in Hw. lia.
      * pose proof (pick_min _ _ _ Hp t Hin). lia.
    + apply pick_None in Hp. rewrite Hp in Hin. contradiction.
Qed.

(** The fuel of [elapse] is enough: after [elapse dt] every pending timer is
    due later than the new time. *)
Lemma elapse_quiescent (dt : Z) (st : State) :
  forall t, In t (timers (elapse dt st)) -> clock (elapse dt st) < due t.
Proof.
  intros t Hin. unfold elapse in *.
  cbn [setClock browserUpdate timers clock] in *.
  apply (runDue_complete _ _ st (budget_le _) t Hin).
Qed.

Lemma runDue_idle (fuel : nat) (deadline : Z) (st : State) :
  (forall t, In t (timers st) -> deadline < due t) ->
  runDue fuel deadline st = st.
Proof.
  intros H. destruct fuel as [| fuel]; [reflexivity |]. cbn [runDue].
  destruct (pick (timers st)) as [[t rest] |] eqn:Hp; [| reflexivity].
  specialize (H t (pick_In _ _ _ Hp)).
  destruct (Z.leb_spec (due t) deadline); [lia | reflexivity].
Qed.

(** Time passing before any timer is due only moves the clock. *)
Lemma elapse_idle (dt : Z) (st : State) :
  (forall t, In t (timers st) -> clock st + dt < due t) ->
  elapse dt st = setClock (clock st + dt) st.
Proof. intros H. unfold elapse. now rewrite runDue_idle. Qed.

Lemma runDue_fire (fuel : nat) (deadline : Z) (st : State) t rest :
  pick (timers st) = Some (t, rest) -> due t <= deadline ->
  runDue (S fuel) deadline st = runDue fuel deadline (fireTimer t rest st).
Proof.
  intros Hp Hd. cbn [runDue]. rewrite Hp.
  destruct (Z.leb_spec (due t) deadline); [reflexivity | lia].
Qed.

Lemma runDue_stop (fuel : nat) (deadline : Z) (st : State) t rest :
  pick (timers st) = Some (t, rest) -> deadline < due t ->
  runDue fuel deadline st = st.
Proof.
  intros Hp Hd. destruct fuel; [reflexivity |]. cbn [runDue]. rewrite Hp.
  destruct (Z.leb_spec (due t) deadline); [lia | reflexivity].
Qed.

Lemma pick_pair (a b : Timer) :
  pick [a; b] = if due b <? due a then Some (b, [a]) else Some (a, [b]).
Proof. reflexivity. Qed.

(** ** What a navigation request and its callbacks do *)

Lemma click_other (st : State) (X : string) :
  activeSectionId st <> X ->
  let s := step st (Click X) in
  activeSectionId s = X
  /\ isManualScrolling s = true
  /\ expandedSections s = <[ X := true ]> (expandedSections st)
  /\ timers s
     = (timers st ++ [ {| due := clock st + 50; callback := StartScroll X |} ])%list
  /\ clock s = clock st
  /\ document s = document st
  /\ scrollRequests s = scrollRequests st.
Proof.
  intros H. cbn zeta. cbn [step]. rewrite (scrollToSection_other _ _ H).
  repeat split.
Qed.

Lemma fire_start (st : State) (X : string) (el : Element) (d : Z)
    (rest : list Timer) :
  document st !! X = Some el ->
  let s := fireTimer {| due := d; callback := StartScroll X |} rest st in
  timers s
  = (rest ++ [ {| due := Z.max (clock st) d + 800; callback := Settle X |} ])%list
  /\ isManualScrolling s = isManualScrolling st
  /\ activeSectionId s = activeSectionId st
  /\ document s = document st
  /\ clock s = Z.max (clock st) d
  /\ scrollRequests s
     = (scrollRequests st ++ [rectTop el + scrollY st + -110])%list.
Proof.
  intros Hel. cbn zeta. unfold fireTimer.
  cbn [callback due fire browserUpdate document]. rewrite Hel.
  repeat split.
Qed.

Lemma fire_settle (st : State) (X : string) (d : Z) (rest : list Timer) :
  let s := fireTimer {| due := d; callback := Settle X |} rest st in
  timers s = rest
  /\ isManualScrolling s = false
  /\ activeSectionId s = activeSectionId st
  /\ document s = document st
  /\ clock s = Z.max (clock st) d.
Proof. repeat split. Qed.

Lemma elapse_projections (dt : Z) (st : State) :
  let r := runDue (2 * List.length (timers st)) (clock st + dt) st in
  clock (elapse dt st) = clock st + dt
  /\ timers (elapse dt st) = timers r
  /\ isManualScrolling (elapse dt st) = isManualScrolling r
  /\ activeSectionId (elapse dt st) = activeSectionId r
  /\ document (elapse dt st) = document r
  /\ expandedSections (elapse dt st) = expandedSections r.
Proof. repeat split. Qed.

(** ** Suppression while a request is in flight *)

Lemma inFlight_scroll (c0 : Z) (X : string) (st : State) (y : Z) :
  inFlight c0 X st -> inFlight c0 X (step st (Scroll y)).
Proof.
  intros (Hf & Ha & Hd & Ht).
  rewrite (proj2 (scroll_suppressed st y Hf)). exact (conj Hf (conj Ha (conj Hd Ht))).
Qed.

Lemma inFlight_elapse (c0 : Z) (X : string) (st : State) (dt : Z) :
  inFlight c0 X st -> 0 <= dt -> clock st + dt < c0 + 850 ->
  inFlight c0 X (elapse dt st).
Proof.
  intros (Hf & Ha & [el Hel] & Ht) Hdt Hlt.
  destruct (elapse_projections dt st) as (Ec & Et & Ef & Ea & Ed & _).
  cbn zeta in *.
  destruct Ht as [[Ht Hc] | (d & Ht & Hd)].
  - destruct (Z.lt_ge_cases (clock st + dt) (c0 + 50)) as [Hearly | Hlate].
    + (* the 50 ms timer is not due yet *)
      rewrite elapse_idle.
      * refine (conj Hf (conj Ha (conj (ex_intro _ el Hel) _))).
        left. split; [exact Ht |]. cbn. lia.
      * intros t. rewrite Ht. intros [<- | []]. cbn. lia.
    + (* it fires, and schedules the settle timer *)
      rewrite Ht in Et, Ef, Ea, Ed. cbn [List.length Nat.mul Nat.add] in *.
      assert (Hp : pick (timers st)
                   = Some ({| due := c0 + 50; callback := StartScroll X |}, []))
        by now rewrite Ht.
      rewrite (runDue_fire _ _ _ _ _ Hp) in Et, Ef, Ea, Ed by (cbn; lia).
      destruct (fire_start st X el (c0 + 50) [] Hel)
        as (Ft & Ff & Fa & Fd & Fc & _). cbn zeta in *.
      assert (Hp' : pick (timers (fireTimer
                       {| due := c0 + 50; callback := StartScroll X |} [] st))
                    = Some ({| due := Z.max (clock st) (c0 + 50) + 800;
                               callback := Settle X |}, []))
        by now rewrite Ft.
      rewrite (runDue_stop _ _ _ _ _ Hp') in Et, Ef, Ea, Ed by (cbn; lia).
      unfold inFlight. rewrite Et, Ef, Ea, Ed, Ft, Ff, Fa, Fd.
      refine (conj Hf (conj Ha (conj (ex_intro _ el Hel) _))).
      right. eexists. split; [reflexivity | lia].
  - (* the settle timer is due only after the window *)
    rewrite elapse_idle.
    + refine (conj Hf (conj Ha (conj (ex_intro _ el Hel) _))).
      right. exists d. split; [exact Ht | exact Hd].
    + intros t. rewrite Ht. intros [<- | []]. cbn. lia.
Qed.

Lemma inFlight_steps (c0 : Z) (X : string) (evs : list Event) :
  forall st, inFlight c0 X st -> Forall passive evs ->
             clock st + duration evs < c0 + 850 ->
             inFlight c0 X (steps evs st).
Proof.
  induction evs as [| ev evs IH]; intros st Hin Hp Hlt; [exact Hin |].
  inversion Hp as [| ? ? Hev Hrest]; subst.
  cbn [steps fold_left]. fold (steps evs (step st ev)).
  assert (Hdur : 0 <= duration evs).
  { clear - Hrest. induction Hrest as [| e l He _ IHl]; [cbn; lia |].
    cbn [duration fold_right]. fold (duration l).
    destruct e; cbn in He; try contradiction; lia. }
  destruct ev; cbn in Hev; try contradiction.
  - (* Scroll *)
    apply IH; [now apply inFlight_scroll | exact Hrest |].
    destruct (scroll_frame st y) as (_ & _ & Hc & _). cbn zeta in Hc.
    rewrite Hc. cbn [duration fold_right] in Hlt. exact Hlt.
  - (* Elapse *)
    cbn [duration fold_right] in Hlt. fold (duration evs) in Hlt.
    cbn [step]. apply IH; [| exact Hrest |].
    + apply inFlight_elapse; [exact Hin | exact Hev | lia].
    + destruct (elapse_projections dt st) as (Ec & _). rewrite Ec. lia.
Qed.

(** C3, as the code has it: a rail click on a section [X] other than the
    active one at once makes [X] active, opens it and raises the suppression
    flag; a scroll event that arrives while the flag is up leaves the active
    section alone; and when no timer was pending at the click and [X] is laid
    out, the flag stays up, and [X] active, through every scroll event of the
    following 850 ms (the 50 ms before the scroll starts and the 800 ms settle
    timeout). *)
Theorem click_suppresses_spy (st : State) (X : string) :
  activeSectionId st <> X ->
  let st1 := step st (Click X) in
  activeSectionId st1 = X
  /\ expandedSections st1 !! X = Some true
  /\ isManualScrolling st1 = true
  /\ (forall st' y, isManualScrolling st' = true ->
        activeSectionId (step st' (Scroll y)) = activeSectionId st')
  /\ (timers st = [] -> is_Some (document st !! X) ->
      forall evs, Forall passive evs -> duration evs < 850 ->
        activeSectionId (steps evs st1) = X
        /\ isManualScrolling (steps evs st1) = true).
Proof.
  intros Hne. cbn zeta.
  destruct (click_other st X Hne) as (Ha & Hf & He & Ht & Hc & Hd & _).
  cbn zeta in *.
  split; [exact Ha |]. split; [rewrite He; apply lookup_insert_eq |].
  split; [exact Hf |]. split.
  - intros st' y Hf'. now rewrite (proj2 (scroll_suppressed st' y Hf')).
  - intros Hq Hel evs Hp Hdur.
    assert (Hin : inFlight (clock st) X (step st (Click X))).
    { refine (conj Hf (conj Ha (conj _ _))).
      - now rewrite Hd.
      - left. rewrite Ht, Hq, Hc. split; [reflexivity | lia]. }
    destruct (inFlight_steps (clock st) X evs _ Hin Hp) as (Hf' & Ha' & _).
    + rewrite Hc. lia.
    + split; assumption.
Qed.

Lemma click_suppresses_spy_witness :
  let st1 := step (initial page 2024) (Click "hpi") in
  activeSectionId st1 = "hpi"
  /\ expandedSections st1 !! "hpi" = Some true
  /\ activeSectionId
       (steps [Scroll 0; Elapse 400; Scroll 4000; Elapse 449; Scroll 0] st1)
     = "hpi".
Proof.
  destruct (click_suppresses_spy (initial page 2024) "hpi")
    as (Ha & He & _ & _ & Hw); [discriminate |].
  split; [exact Ha |]. split; [exact He |].
  refine (proj1 (Hw eq_refl _
                    [Scroll 0; Elapse 400; Scroll 4000; Elapse 449; Scroll 0]
                    _ _)).
  - exists (block 1400). reflexivity.
  - repeat constructor; cbn; lia.
  - cbn. lia.
Defined.

(** C3, as stated, fails: ["plan"] is clicked 100 ms after ["hpi"] (after
    each click React renders and runs the effects); 760 ms later the settle timer of the click on
    ["plan"] is still pending (due at 950), yet the flag is down, cleared by
    the timer of the click on ["hpi"], and a scroll event changes the active
    section. *)
Lemma scroll_before_settle_changes_active :
  let s1 := steps [Click "hpi"; Effects; Elapse 100; Click "plan"; Effects]
                  (initial page 2024) in
  let s2 := step s1 (Elapse 760) in
  (activeSectionId s1 = "plan" /\ clock s1 = 100)
  /\ (clock s2 = 860
      /\ timers s2 = [ {| due := 950; callback := Settle "plan" |} ]
      /\ activeSectionId s2 = "plan")
  /\ activeSectionId (step s2 (Scroll 0)) = "identity"
  /\ activeSectionId (step s2 (Scroll 0)) <> activeSectionId s2.
Proof.
  cbn zeta. repeat split; try (vm_compute; reflexivity).
  vm_compute. discriminate.
Qed.

(** ** Two navigation requests in a row *)

(** Time passes and exactly one timer fires. *)
Lemma elapse_fire_one (dt : Z) (st : State) (t : Timer) (rest : list Timer) :
  pick (timers st) = Some (t, rest) ->
  due t <= clock st + dt ->
  (forall t', In t' (timers (fireTimer t rest st)) -> clock st + dt < due t') ->
  elapse dt st = setClock (clock st + dt) (fireTimer t rest st).
Proof.
  intros Hp Hd Hafter. unfold elapse.
  destruct (timers st) as [| t0 ts] eqn:Ht; [discriminate |].
  cbn [List.length]. replace (2 * S (List.length ts))%nat
    with (S (S (2 * List.length ts))) by lia.
  rewrite <- Ht in Hp.
  rewrite (runDue_fire _ _ _ _ _ Hp Hd).
  now rewrite runDue_idle.
Qed.

(** A click never takes a timer off the queue. *)
Lemma click_keeps_timers (st : State) (i : string) :
  exists new, timers (step st (Click i)) = (timers st ++ new)%list.
Proof.
  destruct (String.eqb_spec (activeSectionId st) i) as [He | Hne].
  - exists []. rewrite (proj2 (click_active_noop_aux st i He)).
    now rewrite app_nil_r.
  - destruct (click_other st i Hne) as (_ & _ & _ & Ht & _).
    eexists. exact Ht.
Qed.

(** C1, as the code has it: a navigation request never cancels or replaces
    a timer; each request adds its own 50 ms timer, which, firing, adds that
    request's own 800 ms settle timer.  After a click on [X] and, [dt]
    milliseconds later ([50 <= dt < 800]), a click on [Y], the settle timer of
    [X] is still pending; once the 50 ms timer of [Y] has fired two settle
    timers are pending, [Y] is active and the flag is up; and at 850 ms after
    the first click the timer of [X] fires and clears the flag while the one
    of [Y] is still pending. *)
Theorem rapid_clicks_keep_both_timers
    (st : State) (X Y : string) (ex ey : Element) (dt : Z) :
  timers st = [] -> activeSectionId st <> X -> X <> Y ->
  document st !! X = Some ex -> document st !! Y = Some ey ->
  50 <= dt < 800 ->
  let c := clock st in
  let settleX := {| due := c + 850; callback := Settle X |} in
  let settleY := {| due := c + dt + 850; callback := Settle Y |} in
  let s3 := steps [Click X; Elapse dt; Click Y] st in
  let s4 := step s3 (Elapse 50) in
  let s5 := step s4 (Elapse (800 - dt)) in
  (timers s3 = [settleX; {| due := c + dt + 50; callback := StartScroll Y |}]
   /\ activeSectionId s3 = Y /\ isManualScrolling s3 = true)
  /\ (settleTimers s4 = [settleX; settleY]
      /\ activeSectionId s4 = Y /\ isManualScrolling s4 = true)
  /\ (clock s5 = c + 850 /\ timers s5 = [settleY]
      /\ isManualScrolling s5 = false /\ activeSectionId s5 = Y)
  /\ (forall st' i,
        exists new, timers (step st' (Click i)) = (timers st' ++ new)%list).
Proof.
  intros Hq Hax Hxy Hx Hy Hdt. cbn zeta.
  unfold steps. cbn [fold_left].
  (* the click on X *)
  destruct (click_other st X Hax) as (A1 & F1 & _ & T1 & C1 & D1 & _).
  cbn zeta in *. rewrite Hq in T1. cbn [app] in T1.
  set (s1 := step st (Click X)) in *.
  (* dt later its 50 ms timer has fired *)
  assert (P1 : pick (timers s1)
               = Some ({| due := clock st + 50; callback := StartScroll X |}, []))
    by now rewrite T1.
  assert (Hx1 : document s1 !! X = Some ex) by now rewrite D1.
  destruct (fire_start s1 X ex (clock st + 50) [] Hx1)
    as (T2 & F2 & A2 & D2 & C2 & _). cbn zeta in *.
  rewrite C1, Z.max_r in T2, C2 by lia. cbn [app] in T2.
  assert (E2 : step s1 (Elapse dt)
               = setClock (clock s1 + dt)
                   (fireTimer {| due := clock st + 50;
                                 callback := StartScroll X |} [] s1)).
  { cbn [step]. apply elapse_fire_one; [exact P1 | cbn [due]; lia |].
    intros t'. rewrite T2. intros [<- | []]. cbn [due]. lia. }
  set (s2 := step s1 (Elapse dt)) in *.
  assert (T2' : timers s2 = [ {| due := clock st + 850; callback := Settle X |} ]).
  { rewrite E2. cbn [setClock browserUpdate timers]. rewrite T2.
    do 2 f_equal. lia. }
  assert (F2' : isManualScrolling s2 = true).
  { rewrite E2. cbn [setClock browserUpdate isManualScrolling]. congruence. }
  assert (A2' : activeSectionId s2 = X).
  { rewrite E2. cbn [setClock browserUpdate activeSectionId]. congruence. }
  assert (D2' : document s2 = document st).
  { rewrite E2. cbn [setClock browserUpdate document]. congruence. }
  assert (C2' : clock s2 = clock st + dt).
  { rewrite E2. cbn [setClock browserUpdate clock]. lia. }
  (* the click on Y *)
  assert (Hay : activeSectionId s2 <> Y) by (rewrite A2'; exact Hxy).
  destruct (click_other s2 Y Hay) as (A3 & F3 & _ & T3 & C3 & D3 & _).
  cbn zeta in *. rewrite T2', C2' in T3. cbn [app] in T3.
  set (s3 := step s2 (Click Y)) in *.
  split; [split; [exact T3 | split; [exact A3 | exact F3]] |].
  (* 50 ms later the timer of Y has fired *)
  assert (P3 : pick (timers s3)
               = Some ({| due := clock st + dt + 50; callback := StartScroll Y |},
                       [ {| due := clock st + 850; callback := Settle X |} ])).
  { rewrite T3, pick_pair. cbn [due].
    now rewrite (proj2 (Z.ltb_lt _ _)) by lia. }
  assert (Hy3 : document s3 !! Y = Some ey) by now rewrite D3, D2'.
  destruct (fire_start s3 Y ey (clock st + dt + 50)
              [ {| due := clock st + 850; callback := Settle X |} ] Hy3)
    as (T4 & F4 & A4 & D4 & C4 & _). cbn zeta in *.
  rewrite C3, C2', Z.max_r in T4, C4 by lia. cbn [app] in T4.
  assert (E4 : step s3 (Elapse 50)
               = setClock (clock s3 + 50)
                   (fireTimer {| due := clock st + dt + 50;
                                 callback := StartScroll Y |}
                              [ {| due := clock st + 850; callback := Settle X |} ]
                              s3)).
  { cbn [step]. apply elapse_fire_one; [exact P3 | cbn [due]; lia |].
    intros t'. rewrite T4, C3, C2'. intros [<- | [<- | []]]; cbn [due]; lia. }
  set (s4 := step s3 (Elapse 50)) in *.
  assert (T4' : timers s4 = [ {| due := clock st + 850; callback := Settle X |};
                              {| due := clock st + dt + 850; callback := Settle Y |} ]).
  { rewrite E4. cbn [setClock browserUpdate timers]. rewrite T4.
    do 3 f_equal. lia. }
  assert (F4' : isManualScrolling s4 = true).
  { rewrite E4. cbn [setClock browserUpdate isManualScrolling]. congruence. }
  assert (A4' : activeSectionId s4 = Y).
  { rewrite E4. cbn [setClock browserUpdate activeSectionId]. congruence. }
  assert (C4' : clock s4 = clock st + dt + 50).
  { rewrite E4. cbn [setClock browserUpdate clock]. lia. }
  split; [split; [| split; [exact A4' | exact F4']] |].
  { unfold settleTimers. rewrite T4'. reflexivity. }
  (* 850 ms after the first click the settle timer of X fires *)
  assert (P4 : pick (timers s4)
               = Some ({| due := clock st + 850; callback := Settle X |},
                       [ {| due := clock st + dt + 850; callback := Settle Y |} ])).
  { rewrite T4', pick_pair. cbn [due].
    now rewrite (proj2 (Z.ltb_ge _ _)) by lia. }
  destruct (fire_settle s4 X (clock st + 850)
              [ {| due := clock st + dt + 850; callback := Settle Y |} ])
    as (T5 & F5 & A5 & _ & _). cbn zeta in *.
  assert (E5 : step s4 (Elapse (800 - dt))
               = setClock (clock s4 + (800 - dt))
                   (fireTimer {| due := clock st + 850; callback := Settle X |}
                              [ {| due := clock st + dt + 850;
                                   callback := Settle Y |} ] s4)).
  { cbn [step]. apply elapse_fire_one; [exact P4 | cbn [due]; lia |].
    intros t'. rewrite T5, C4'. intros [<- | []]; cbn [due]; lia. }
  split; [| exact click_keeps_timers].
  rewrite E5. cbn [setClock browserUpdate clock timers isManualScrolling
                     activeSectionId].
  rewrite T5, F5, A5, C4', A4'. repeat split. lia.
Qed.

Lemma rapid_clicks_keep_both_timers_witness :
  settleTimers
    (step (steps [Click "hpi"; Elapse 100; Click "plan"] (initial page 2024))
          (Elapse 50))
  = [ {| due := 850; callback := Settle "hpi" |};
      {| due := 950; callback := Settle "plan" |} ].
Proof.
  assert (H50 : 50 <= 100 < 800) by lia.
  assert (Ha : activeSectionId (initial page 2024) <> "hpi") by discriminate.
  assert (Hxy : "hpi" <> "plan") by discriminate.
  exact (proj1 (proj1 (proj2
           (rapid_clicks_keep_both_timers (initial page 2024) "hpi" "plan"
              (block 1400) (block 3800) 100
              eq_refl Ha Hxy eq_refl eq_refl H50)))).
Defined.

(** C1, as stated, fails: after a click on ["hpi"] and, 100 ms later, one on
    ["plan"], two settle timers are pending, and the older one is left to
    fire: at 850 ms it clears the flag, 100 ms before the timer of the
    second click is due. *)
Lemma two_settle_timers_pending :
  let s :=
    steps [Click "hpi"; Elapse 100; Click "plan"; Elapse 50] (initial page 2024) in
  let s' := step s (Elapse 700) in
  settleTimers s = [ {| due := 850; callback := Settle "hpi" |};
                     {| due := 950; callback := Settle "plan" |} ]
  /\ ~ (List.length (settleTimers s) <= 1)%nat
  /\ (clock s' = 850
      /\ isManualScrolling s' = false
      /\ timers s' = [ {| due := 950; callback := Settle "plan" |} ]).
Proof.
  cbn zeta. split; [vm_compute; reflexivity |].
  split; [vm_compute; lia |]. repeat split; vm_compute; reflexivity.
Qed.

(** ** Age normalization *)

Lemma isEmpty_spec (s : string) : JS.isEmpty s = true <-> s = "".
Proof. destruct s; cbn; split; congruence. Qed.

Lemma isEmpty_false (s : string) : s <> "" -> JS.isEmpty s = false.
Proof. destruct s; cbn; congruence. Qed.

Lemma blur_converts (st : State) (n : Z) :
  age st <> "" -> JS.parseInt (age st) = Some n ->
  1900 < n <= fullYear st ->
  step st AgeBlur = exec st (SetAge (JS.toString (fullYear st - n))).
Proof.
  intros Hne Hp Hr. cbn [step]. unfold handleAgeBlur.
  rewrite (isEmpty_false _ Hne), Hp.
  rewrite (proj2 (Z.gtb_lt _ _)) by lia.
  rewrite (proj2 (Z.leb_le _ _)) by lia.
  reflexivity.
Qed.

Lemma blur_keeps (st : State) :
  (age st = "" \/ JS.parseInt (age st) = None
   \/ exists n, JS.parseInt (age st) = Some n
                /\ (n <= 1900 \/ fullYear st < n)) ->
  step st AgeBlur = st.
Proof.
  intros H. cbn [step]. unfold handleAgeBlur.
  destruct (JS.isEmpty (age st)) eqn:He; [reflexivity |].
  destruct H as [H | [H | (n & Hp & Hr)]].
  - apply isEmpty_spec in H. congruence.
  - now rewrite H.
  - rewrite Hp. destruct Hr as [Hr | Hr].
    + destruct (Z.gtb_spec n 1900); [lia | reflexivity].
    + destruct (Z.leb_spec n (fullYear st)); [lia |].
      now rewrite andb_false_r.
Qed.

Lemma roundTrips_small : forallb roundTrips (seq 0 1901) = true.
Proof. vm_compute. reflexivity. Qed.

(** An age up to 1900 is printed as a non-empty string that parses back. *)
Lemma parseInt_toString (k : Z) :
  0 <= k <= 1900 ->
  JS.toString k <> "" /\ JS.parseInt (JS.toString k) = Some k.
Proof.
  intros Hk.
  assert (Hin : In (Z.to_nat k) (seq 0 1901)) by (apply in_seq; lia).
  pose proof (proj1 (forallb_forall _ _) roundTrips_small _ Hin) as Hr.
  unfold roundTrips in Hr. rewrite Z2Nat.id in Hr by lia.
  destruct (JS.parseInt (JS.toString k)) as [j |]; [| discriminate].
  apply andb_true_iff in Hr. destruct Hr as [Hj Hne].
  apply Z.eqb_eq in Hj. subst j. split; [| reflexivity].
  intros E. rewrite E in Hne. discriminate.
Qed.

(** C7: the age field is normalized at blur and only there.  Typing stores
    the value as typed (when it is empty or all digits).  At blur a non-empty
    value that parses as [n] with [1900 < n <= currentYear] is replaced, in
    place, by [currentYear - n]; every other value (empty, not a number, at
    most 1900, beyond the current year) leaves the state as it is.  So
    ["1990"] blurred in 2024 becomes ["34"], and ["34"], ["1899"] and
    ["1900"] stay.  Up to the year 3801 an age so obtained is itself at most
    1900, and a second blur changes nothing. *)
Theorem age_normalized_at_blur (st : State) :
  let st' := step st AgeBlur in
  (forall n, age st <> "" -> JS.parseInt (age st) = Some n ->
             1900 < n <= fullYear st ->
             st' = exec st (SetAge (JS.toString (fullYear st - n)))
             /\ age st' = JS.toString (fullYear st - n))
  /\ ((age st = "" \/ JS.parseInt (age st) = None
       \/ exists n, JS.parseInt (age st) = Some n
                    /\ (n <= 1900 \/ fullYear st < n)) ->
      st' = st)
  /\ (fullYear st <= 3801 -> step st' AgeBlur = st')
  /\ (forall v, (v = "" \/ testDigits v = true) ->
                age (step st (AgeInput v)) = v)
  /\ (forall v, v <> "" -> testDigits v = false ->
                step st (AgeInput v) = st)
  /\ (let typed v := steps [AgeInput v; AgeBlur] (initial page 2024) in
      age (typed "1990") = "34"
      /\ age (typed "34") = "34"
      /\ age (typed "1899") = "1899"
      /\ age (typed "1900") = "1900"
      /\ age (typed "2024") = "0"
      /\ age (typed "2025") = "2025"
      /\ age (typed "") = ""
      /\ age (steps [AgeInput "1"; AgeInput "19"; AgeInput "199"; AgeInput "1990"]
                (initial page 2024)) = "1990").
Proof.
  cbn zeta. split; [| split; [| split; [| split; [| split]]]].
  - intros n Hne Hp Hr. rewrite (blur_converts st n Hne Hp Hr).
    split; reflexivity.
  - apply blur_keeps.
  - intros Hy.
    destruct (JS.isEmpty (age st)) eqn:He.
    { apply isEmpty_spec in He.
      rewrite (blur_keeps st (or_introl He)). apply blur_keeps. now left. }
    assert (Hne : age st <> "").
    { intros E. apply isEmpty_spec in E. congruence. }
    destruct (JS.parseInt (age st)) as [n |] eqn:Hp.
    2: { rewrite (blur_keeps st (or_intror (or_introl Hp))).
         apply blur_keeps. right. now left. }
    destruct (Z_le_gt_dec n 1900) as [Hlow | Hhigh].
    { assert (Hk : step st AgeBlur = st).
      { apply blur_keeps. right. right. exists n. split; [exact Hp | now left]. }
      now rewrite !Hk. }
    destruct (Z_lt_ge_dec (fullYear st) n) as [Hbig | Hfit].
    { assert (Hk : step st AgeBlur = st).
      { apply blur_keeps. right. right. exists n. split; [exact Hp | now right]. }
      now rewrite !Hk. }
    rewrite (blur_converts st n Hne Hp) by lia.
    destruct (parseInt_toString (fullYear st - n)) as [_ Hparse]; [lia |].
    apply blur_keeps. right. right. exists (fullYear st - n).
    split; [exact Hparse | left; lia].
  - intros v Hv. cbn [step]. unfold handleAgeChange.
    destruct Hv as [-> | Hv]; [reflexivity |].
    rewrite Hv, orb_true_r. reflexivity.
  - intros v Hne Hv. cbn [step]. unfold handleAgeChange.
    now rewrite (isEmpty_false _ Hne), Hv.
  - repeat split; vm_compute; reflexivity.
Qed.

(** ** Body-mass index *)

Lemma nearestTenths_spec (m : positive) (e : Z) :
  nearestTenth (JS.nearestTenths m e) (ratio m e) /\ 0 <= JS.nearestTenths m e.
Proof.
  unfold nearestTenth, JS.nearestTenths, ratio.
  destruct (Z.leb_spec 0 e) as [He | He].
  - assert (0 < 2 ^ e) by (apply Z.pow_pos_nonneg; lia).
    replace (10 * Z.pos m * 2 ^ e) with (10 * (Z.pos m * 2 ^ e)) by ring.
    assert (Hv : 0 < Z.pos m * 2 ^ e) by lia.
    revert Hv. generalize (Z.pos m * 2 ^ e). intros v Hv.
    split; [| lia].
    unfold Qlt, Qle, Qminus, Qplus, Qmult, Qopp, inject_Z. cbn. lia.
  - set (k := - e). assert (Hk : 0 < k) by lia.
    assert (Hd : 0 < 2 ^ k) by (apply Z.pow_pos_nonneg; lia).
    replace (2 ^ (k + 1)) with (2 * 2 ^ k) by (rewrite Z.pow_add_r; lia).
    revert Hd. generalize (2 ^ k). intros d Hd.
    pose proof (Z.div_mod (20 * Z.pos m + d) (2 * d) ltac:(lia)) as Hdm.
    pose proof (Z.mod_pos_bound (20 * Z.pos m + d) (2 * d) ltac:(lia)) as Hmd.
    revert Hdm Hmd.
    generalize ((20 * Z.pos m + d) mod (2 * d)).
    generalize ((20 * Z.pos m + d) / (2 * d)). intros n r Hdm Hmd.
    assert (Hn : 0 <= n).
    { destruct (Z.lt_ge_cases n 0) as [Hneg | Hpos]; [| exact Hpos].
      exfalso. assert (2 * d * n <= - (2 * d)) by nia. lia. }
    split; [| exact Hn].
    unfold Qlt, Qle, Qminus, Qplus, Qmult, Qopp, inject_Z. cbn [Qnum Qden].
    rewrite !Pos2Z.inj_mul, !Z2Pos.id by lia.
    assert (Hprod : 2 * d * n = 20 * Z.pos m + d - r) by lia.
    split; nia.
Qed.

Lemma Prim2SF_0 : Prim2SF 0 = S754_zero false.
Proof. reflexivity. Qed.

Lemma Prim2SF_100 : Prim2SF 100 = S754_finite false 7036874417766400 (-46).
Proof. reflexivity. Qed.

(** A binary64 strictly between 0 and 100 is finite and positive. *)
Lemma positive_below_100 (x : float) :
  (0 <? x)%float = true -> (x <? 100)%float = true ->
  exists m e, Prim2SF x = S754_finite false m e.
Proof.
  rewrite !ltb_spec, Prim2SF_0, Prim2SF_100. intros H0 H100.
  destruct (Prim2SF x) as [s | s | | s m e].
  - cbv [SFltb SFcompare] in H0. discriminate.
  - destruct s; [cbv [SFltb SFcompare] in H0 | cbv [SFltb SFcompare] in H100];
      discriminate.
  - cbv [SFltb SFcompare] in H0. discriminate.
  - destruct s; [cbv [SFltb SFcompare] in H0; discriminate |]. eauto.
Qed.

Lemma digits2_pos_bound (m : positive) : Z.pos m < 2 ^ Z.pos (digits2_pos m).
Proof.
  induction m as [m IH | m IH |]; cbn [digits2_pos].
  - rewrite Pos2Z.inj_succ, Z.pow_succ_r by lia. lia.
  - rewrite Pos2Z.inj_succ, Z.pow_succ_r by lia. lia.
  - reflexivity.
Qed.

(** The mantissa of a binary64 has at most 53 bits. *)
Lemma mantissa_bound (x : float) (s : bool) (m : positive) (e : Z) :
  Prim2SF x = S754_finite s m e -> Z.pos m < 2 ^ 53.
Proof.
  intros Hx. pose proof (Prim2SF_valid x) as Hv. rewrite Hx in Hv.
  unfold valid_binary, bounded, canonical_mantissa, fexp in Hv.
  apply andb_true_iff in Hv. destruct Hv as [Hc _].
  apply Z.eqb_eq in Hc.
  assert (Hd : Z.pos (digits2_pos m) <= 53).
  { change prec with 53 in Hc. lia. }
  pose proof (digits2_pos_bound m).
  assert (2 ^ Z.pos (digits2_pos m) <= 2 ^ 53) by (apply Z.pow_le_mono_r; lia).
  lia.
Qed.

(** Below 100 the rounded value is at most 100.0. *)
Lemma below_100_tenths (x : float) (m : positive) (e : Z) :
  Prim2SF x = S754_finite false m e -> (x <? 100)%float = true ->
  JS.nearestTenths m e <= 1000.
Proof.
  intros Hx H100. pose proof (mantissa_bound x _ _ _ Hx) as Hm.
  rewrite ltb_spec, Hx, Prim2SF_100 in H100.
  cbv [SFltb SFcompare] in H100.
  assert (Hk : 0 < - e /\ Z.pos m < 100 * 2 ^ (- e)).
  { destruct (Z.compare_spec e (-46)) as [He | He | He]; try discriminate.
    - subst e. split; [reflexivity |].
      assert (Hlt : (m < 7036874417766400)%positive).
      { unfold Pos.lt, Pos.compare.
        destruct (Pos.compare_cont Eq m 7036874417766400); congruence. }
      exact Hlt.
    - split; [lia |].
      assert (Hd : 2 ^ 47 <= 2 ^ (- e)) by (apply Z.pow_le_mono_r; lia).
      change (2 ^ 53) with (64 * 2 ^ 47) in Hm.
      revert Hd Hm. generalize (2 ^ (- e)) (2 ^ 47). intros; lia. }
  clear Hx H100 Hm. destruct Hk as [Hk Hm].
  unfold JS.nearestTenths. destruct (Z.leb_spec 0 e); [lia |].
  replace (2 ^ (- e + 1)) with (2 * 2 ^ (- e)) by (rewrite Z.pow_add_r; lia).
  assert (Hd : 0 < 2 ^ (- e)) by (apply Z.pow_pos_nonneg; lia).
  revert Hd Hm. generalize (2 ^ (- e)). intros d Hd Hm.
  apply Z.lt_succ_r. apply Z.div_lt_upper_bound; lia.
Qed.

(** What [toFixed(1)] yields on a binary64 strictly between 0 and 100. *)
Lemma toFixed1_rounds (x : float) :
  (0 <? x)%float = true -> (x <? 100)%float = true ->
  exists n, JS.toFixed1 x = JS.showTenths n
            /\ 0 <= n <= 1000
            /\ nearestTenth n (floatQ x).
Proof.
  intros H0 H100.
  destruct (positive_below_100 x H0 H100) as (m & e & Hx).
  exists (JS.nearestTenths m e).
  destruct (nearestTenths_spec m e) as [Hn Hpos].
  unfold JS.toFixed1, floatQ. rewrite Hx. split; [reflexivity |].
  split; [| exact Hn].
  split; [exact Hpos | now apply (below_100_tenths x)].
Qed.

(** The effect leaves the BMI that belongs to the inputs. *)
Lemma bmiEffect_shown (st : State) : bmiShown (run (bmiEffect st) st).
Proof.
  unfold bmiShown, bmiEffect. cbn zeta.
  set (h := JS.parseFloat (height st)).
  set (w := JS.parseFloat (weight st)).
  set (x := (w / (h / 100 * (h / 100)))%float).
  assert (Hh : forall v, height (run [SetBmi v] st) = height st) by reflexivity.
  assert (Hw : forall v, weight (run [SetBmi v] st) = weight st) by reflexivity.
  assert (Hb : forall v, bmi (run [SetBmi v] st) = v) by reflexivity.
  destruct (JS.isEmpty (height st)) eqn:Eh; cbn [orb].
  { rewrite Hh, Hw, Hb. apply isEmpty_spec in Eh.
    split; [reflexivity | intros Hne; contradiction]. }
  destruct (JS.isEmpty (weight st)) eqn:Ew; cbn [orb].
  { rewrite Hh, Hw, Hb. apply isEmpty_spec in Ew.
    split; [reflexivity | intros _ Hne; contradiction]. }
  fold h w.
  destruct (is_nan h) eqn:Nh; cbn [orb].
  { rewrite Hh, Hw, Hb. fold h w. rewrite Nh.
    split; [reflexivity | intros _ _ ?; discriminate]. }
  destruct (is_nan w) eqn:Nw; cbn [orb].
  { rewrite Hh, Hw, Hb. fold h w. rewrite Nw.
    split; [reflexivity | intros _ _ _ ?; discriminate]. }
  destruct (h =? 0)%float eqn:Zh.
  { rewrite Hh, Hw, Hb. fold h w. rewrite Zh.
    split; [reflexivity | intros _ _ _ _ ?; discriminate]. }
  fold x.
  destruct (0 <? x)%float eqn:Px; cbn [andb].
  2: { rewrite Hh, Hw, Hb. fold h w x. rewrite Px.
       split; [reflexivity | intros _ _ _ _ _ ?; discriminate]. }
  destruct (x <? 100)%float eqn:Bx.
  2: { rewrite Hh, Hw, Hb. fold h w x. rewrite Bx.
       split; [reflexivity | intros _ _ _ _ _ _ ?; discriminate]. }
  rewrite Hh, Hw, Hb. fold h w x. rewrite Nh, Nw, Zh, Px, Bx.
  assert (Hne_h : height st <> "").
  { intros E. apply isEmpty_spec in E. congruence. }
  assert (Hne_w : weight st <> "").
  { intros E. apply isEmpty_spec in E. congruence. }
  split.
  - intros [E | [E | [E | [E | [E | [E | E]]]]]];
      try discriminate; contradiction.
  - intros _ _ _ _ _ _ _.
    destruct (toFixed1_rounds x Px Bx) as (n & Hs & Hr & Hn).
    exists n. rewrite Hs. split; [reflexivity | split; [exact Hr | exact Hn]].
Qed.

Lemma bmiEffect_form (st : State) : exists b, bmiEffect st = [SetBmi b].
Proof.
  unfold bmiEffect.
  repeat match goal with
         | |- context [if ?c then _ else _] => destruct c
         end; eexists; reflexivity.
Qed.

(** C6: after every change of the height or of the weight field the BMI on
    display is the one of the two fields as they now are: blank unless both
    are present and parse as numbers with a nonzero height and
    [0 < weight / (height/100)^2 < 100], and then that quotient rounded to one
    decimal place.  Height 180 with weight 70 shows ["21.6"]; an empty height,
    or height 0, with weight 70 shows nothing. *)
Theorem bmi_follows_inputs (st : State) (v : string) :
  (let st' := step st (HeightInput v) in
   height st' = v /\ weight st' = weight st /\ bmiShown st')
  /\ (let st' := step st (WeightInput v) in
      weight st' = v /\ height st' = height st /\ bmiShown st')
  /\ (let shown evs := bmi (steps evs (initial page 2024)) in
      shown [HeightInput "180"; WeightInput "70"] = Some "21.6"
      /\ shown [WeightInput "70"; HeightInput "180"] = Some "21.6"
      /\ shown [WeightInput "70"] = None
      /\ shown [HeightInput "180"; WeightInput "70"; HeightInput ""] = None
      /\ shown [HeightInput "0"; WeightInput "70"] = None).
Proof.
  cbn zeta. split; [| split].
  - cbn [step].
    destruct (bmiEffect_form (run [SetHeight v] st)) as [b Hb].
    pose proof (bmiEffect_shown (run [SetHeight v] st)) as Hs.
    rewrite Hb in *. repeat split; apply Hs.
  - cbn [step].
    destruct (bmiEffect_form (run [SetWeight v] st)) as [b Hb].
    pose proof (bmiEffect_shown (run [SetWeight v] st)) as Hs.
    rewrite Hb in *. repeat split; apply Hs.
  - repeat split; vm_compute; reflexivity.
Qed.

(** The quotient is the binary64 one: for height 200 and weight 4.6 it is
    just below 1.15, and the display is ["1.1"]. *)
Example bmi_binary64_rounding :
  bmi (steps [HeightInput "200"; WeightInput "4.6"] (initial page 2024))
  = Some "1.1".
Proof. vm_compute. reflexivity. Qed.

(** * Further properties of the handlers *)

(** ** What the timer callbacks leave alone *)

Lemma fireTimer_frame (t : Timer) (rest : list Timer) (st : State) :
  let s := fireTimer t rest st in
  mode s = mode st
  /\ expandedSections s = expandedSections st
  /\ activeSectionId s = activeSectionId st
  /\ height s = height st
  /\ weight s = weight st
  /\ bmi s = bmi st
  /\ age s = age st
  /\ document s = document st
  /\ scrollY s = scrollY st
  /\ fullYear s = fullYear st.
Proof.
  cbn zeta. unfold fireTimer. destruct t as [d cb].
  destruct cb as [i | i | | |]; cbn [callback fire browserUpdate document];
    [destruct (document st !! i) | ..]; repeat split.
Qed.

(** No timer callback attaches a scroll listener. *)
Lemma fireTimer_captured (t : Timer) (rest : list Timer) (st : State) :
  captured (fireTimer t rest st) = captured st.
Proof.
  unfold fireTimer. destruct t as [d cb].
  destruct cb as [i | i | | |]; cbn [callback fire browserUpdate document];
    [destruct (document st !! i) | ..]; reflexivity.
Qed.

Lemma runDue_captured (fuel : nat) (deadline : Z) :
  forall st, captured (runDue fuel deadline st) = captured st.
Proof.
  induction fuel as [| fuel IH]; intros st; [reflexivity |].
  cbn [runDue]. destruct (pick (timers st)) as [[t rest] |]; [| reflexivity].
  destruct (due t <=? deadline); [| reflexivity].
  rewrite IH. apply fireTimer_captured.
Qed.

Lemma elapse_captured (dt : Z) (st : State) :
  captured (elapse dt st) = captured st.
Proof.
  unfold elapse. cbn [setClock browserUpdate captured]. apply runDue_captured.
Qed.

Lemma runDue_frame (fuel : nat) (deadline : Z) :
  forall st,
    let s := runDue fuel deadline st in
    mode s = mode st
    /\ expandedSections s = expandedSections st
    /\ activeSectionId s = activeSectionId st
    /\ height s = height st
    /\ weight s = weight st
    /\ bmi s = bmi st
    /\ age s = age st
    /\ document s = document st
    /\ scrollY s = scrollY st
    /\ fullYear s = fullYear st.
Proof.
  induction fuel as [| fuel IH]; intros st; cbn zeta; [repeat split |].
  cbn [runDue]. destruct (pick (timers st)) as [[t rest] |]; [| repeat split].
  destruct (due t <=? deadline); [| repeat split].
  specialize (IH (fireTimer t rest st)). cbn zeta in IH.
  destruct IH as (H1 & H2 & H3 & H4 & H5 & H6 & H7 & H8 & H9 & H10).
  destruct (fireTimer_frame t rest st)
    as (G1 & G2 & G3 & G4 & G5 & G6 & G7 & G8 & G9 & G10).
  cbn zeta in *.
  repeat split; congruence.
Qed.

(** Time passing changes neither the form nor the navigation state proper:
    only the clock, the queue, the flag, the save indicators and the scroll
    requests can differ. *)
Lemma elapse_frame (dt : Z) (st : State) :
  let s := elapse dt st in
  mode s = mode st
  /\ expandedSections s = expandedSections st
  /\ activeSectionId s = activeSectionId st
  /\ height s = height st
  /\ weight s = weight st
  /\ bmi s = bmi st
  /\ age s = age st
  /\ document s = document st
  /\ scrollY s = scrollY st
  /\ fullYear s = fullYear st.
Proof.
  cbn zeta. unfold elapse.
  cbn [setClock browserUpdate mode expandedSections activeSectionId height
       weight bmi age document scrollY fullYear].
  apply runDue_frame.
Qed.

(** A property kept by every step is kept by every run. *)
Lemma steps_invariant (I : State -> Prop) (ok : Event -> Prop) :
  (forall st ev, I st -> ok ev -> I (step st ev)) ->
  forall evs st, I st -> Forall ok evs -> I (steps evs st).
Proof.
  intros Hstep evs. induction evs as [| ev evs IH]; intros st Hst Hok.
  - exact Hst.
  - inversion Hok as [| ? ? Hev Hrest]; subst.
    cbn [steps fold_left]. fold (steps evs (step st ev)).
    apply IH; [now apply Hstep | exact Hrest].
Qed.

(** ** The active section and the expansion map stay within the registry *)

Lemma spy_in (doc : gmap string Element) (p : Z) (sections : list SectionItem) :
  forall cur, spy doc p sections cur = cur
              \/ In (spy doc p sections cur) (map id sections).
Proof.
  unfold spy. induction sections as [| s rest IH]; intros cur; [now left |].
  cbn [fold_left map]. destruct (IH (spyStep doc p cur s)) as [He | Hin].
  - rewrite He. unfold spyStep.
    destruct (doc !! id s) as [el |]; [| now left].
    destruct (inTrigger p el); [right; now left | now left].
  - right. now right.
Qed.

(** What the effects of a render change: the listener is attached over the
    current active section, a pending hide timer of the toast is cleared,
    and when [showToast] is set the toast is made visible and a new hide
    timer scheduled. *)
Lemma effects_frame (st : State) :
  let s := step st Effects in
  captured s = activeSectionId st
  /\ activeSectionId s = activeSectionId st
  /\ expandedSections s = expandedSections st
  /\ isManualScrolling s = isManualScrolling st
  /\ clock s = clock st
  /\ document s = document st
  /\ timers s
     = (List.filter (fun t => negb (isHideToast t)) (timers st)
        ++ (if showToast st
            then [ {| due := clock st + 3000; callback := HideToast |} ]
            else []))%list
  /\ (height s = height st /\ weight s = weight st /\ bmi s = bmi st
      /\ age s = age st)
  /\ (showToast s = showToast st /\ isSaving s = isSaving st
      /\ scrollRequests s = scrollRequests st /\ mode s = mode st
      /\ toastVisible s = (showToast st || toastVisible st)).
Proof.
  cbn zeta. cbn [step]. unfold passiveEffects, toastEffect.
  destruct (showToast st) eqn:Hs; cbn; rewrite ?Hs, ?app_nil_r; repeat split.
Qed.

(** While the toast is neither asked for nor counting down, the effects do
    nothing but attach the listener: in a run of such states it makes no
    difference to anything but [captured] where they fall. *)
Lemma effects_only_attach (st : State) :
  showToast st = false ->
  (forall t, In t (timers st) -> isHideToast t = false) ->
  step st Effects = exec st (AddScrollListener (activeSectionId st)).
Proof.
  intros Hs Hq. cbn [step]. unfold passiveEffects, toastEffect. rewrite Hs.
  cbn [app run fold_left].
  assert (Hk : exec st ClearToastTimer = st).
  { assert (Hf : List.filter (fun t => negb (isHideToast t)) (timers st)
                 = timers st).
    { apply List.forallb_filter_id, List.forallb_forall.
      intros t Ht. now rewrite (Hq t Ht). }
    destruct st. unfold exec. cbn [timers] in *. rewrite Hf. reflexivity. }
  now rewrite Hk.
Qed.

Lemma step_active_registered (st : State) (ev : Event) :
  registered st -> fromUI ev -> registered (step st ev).
Proof.
  unfold registered. intros [Hin Hcap] Hev.
  destruct ev as [i | y | i | m | v | v | v | | | doc | dt |];
    try cbn [step].
  - unfold scrollToSection. destruct (String.eqb (activeSectionId st) i);
      [exact (conj Hin Hcap) | exact (conj Hev Hcap)].
  - change (In (activeSectionId (step st (Scroll y))) sectionIds
            /\ In (captured (step st (Scroll y))) sectionIds).
    rewrite scroll_captured. split; [| exact Hcap].
    destruct (isManualScrolling st) eqn:Hf.
    + now rewrite (proj2 (scroll_suppressed st y Hf)).
    + rewrite (proj2 (scroll_observing st y Hf)).
      destruct (String.eqb _ _); [exact Hin |]. cbn [exec activeSectionId].
      destruct (spy_in (document st) (y + 300) SECTIONS (captured st))
        as [-> | H]; [exact Hcap | exact H].
  - exact (conj Hin Hcap).
  - exact (conj Hin Hcap).
  - destruct (bmiEffect_form (run [SetHeight v] st)) as [b ->].
    exact (conj Hin Hcap).
  - destruct (bmiEffect_form (run [SetWeight v] st)) as [b ->].
    exact (conj Hin Hcap).
  - unfold handleAgeChange. destruct (_ || _); exact (conj Hin Hcap).
  - unfold handleAgeBlur. destruct (JS.isEmpty _); [exact (conj Hin Hcap) |].
    destruct (JS.parseInt _); [| exact (conj Hin Hcap)].
    destruct (_ && _); exact (conj Hin Hcap).
  - exact (conj Hin Hcap).
  - exact (conj Hin Hcap).
  - rewrite elapse_captured.
    destruct (elapse_frame dt st) as (_ & _ & -> & _). exact (conj Hin Hcap).
  - destruct (effects_frame st) as (Hc & Ha & _). cbn zeta in Hc, Ha.
    cbn [step] in Hc, Ha. rewrite Hc, Ha. exact (conj Hin Hin).
Qed.

Lemma initial_registered (doc : gmap string Element) (year : Z) :
  registered (initial doc year).
Proof. split; cbn; now left. Qed.

Lemma step_keys_registered (st : State) (ev : Event) :
  (forall k, is_Some (expandedSections st !! k) -> In k sectionIds) ->
  fromUI ev ->
  forall k, is_Some (expandedSections (step st ev) !! k) -> In k sectionIds.
Proof.
  intros Hin Hev. destruct ev as [i | y | i | m | v | v | v | | | doc | dt |];
    try cbn [step].
  - unfold scrollToSection. destruct (String.eqb (activeSectionId st) i);
      [exact Hin |].
    cbn. intros k. destruct (decide (i = k)) as [<- | Hne]; [intros _; exact Hev |].
    rewrite lookup_insert_ne by exact Hne. apply Hin.
  - change (forall k, is_Some (expandedSections (step st (Scroll y)) !! k)
                      -> In k sectionIds).
    destruct (scroll_frame st y) as (_ & _ & _ & _ & He). cbn zeta in He.
    rewrite He. exact Hin.
  - cbn. intros k. destruct (decide (i = k)) as [<- | Hne]; [intros _; exact Hev |].
    rewrite lookup_insert_ne by exact Hne. apply Hin.
  - exact Hin.
  - destruct (bmiEffect_form (run [SetHeight v] st)) as [b ->]. exact Hin.
  - destruct (bmiEffect_form (run [SetWeight v] st)) as [b ->]. exact Hin.
  - unfold handleAgeChange. destruct (_ || _); exact Hin.
  - unfold handleAgeBlur. destruct (JS.isEmpty _); [exact Hin |].
    destruct (JS.parseInt _); [| exact Hin]. destruct (_ && _); exact Hin.
  - exact Hin.
  - exact Hin.
  - destruct (elapse_frame dt st) as (_ & -> & _). exact Hin.
  - destruct (effects_frame st) as (_ & _ & He & _). cbn zeta in He.
    cbn [step] in He. rewrite He. exact Hin.
Qed.

(** X1: whatever the user does (rail clicks and header toggles on registry
    sections, scrolling, typing, saving, relayout, time passing), the active
    section is the id of a section of the registry. *)
Theorem active_section_registered
    (doc : gmap string Element) (year : Z) (evs : list Event) :
  Forall fromUI evs ->
  In (activeSectionId (steps evs (initial doc year))) sectionIds.
Proof.
  intros Hok.
  apply (steps_invariant registered fromUI);
    [exact step_active_registered | apply initial_registered | exact Hok].
Qed.

Lemma active_section_registered_witness :
  In (activeSectionId
        (steps [Click "plan"; Scroll 1500; Elapse 900; Scroll 1500]
               (initial page 2024)))
     sectionIds.
Proof.
  apply (active_section_registered page 2024
           [Click "plan"; Scroll 1500; Elapse 900; Scroll 1500]).
  repeat (apply List.Forall_cons; [cbn; first [lia | exact I | auto 10] |]).
  apply List.Forall_nil.
Defined.

Lemma initial_keys (doc : gmap string Element) (year : Z) (k : string) (v : bool) :
  expandedSections (initial doc year) !! k = Some v ->
  k = "concern" \/ k = "identity".
Proof.
  cbn [initial expandedSections]. intros H.
  destruct (decide (k = "concern")) as [-> | Hc]; [now left |].
  rewrite lookup_insert_ne in H by congruence.
  destruct (decide (k = "identity")) as [-> | Hi]; [now right |].
  rewrite lookup_singleton_ne in H by congruence. discriminate.
Qed.

(** X2: the expansion map never gets a key outside the registry. *)
Theorem expansion_keys_registered
    (doc : gmap string Element) (year : Z) (evs : list Event) :
  Forall fromUI evs ->
  forall k, is_Some (expandedSections (steps evs (initial doc year)) !! k) ->
            In k sectionIds.
Proof.
  intros Hok.
  apply (steps_invariant
           (fun st => forall k, is_Some (expandedSections st !! k)
                                -> In k sectionIds) fromUI);
    [exact step_keys_registered | | exact Hok].
  intros k [v Hk]. destruct (initial_keys doc year k v Hk) as [-> | ->];
    cbn; auto 10.
Qed.

Lemma expansion_keys_registered_witness :
  is_Some (expandedSections (steps [Toggle "hpi"] (initial page 2024)) !! "hpi")
  /\ In "hpi" sectionIds.
Proof.
  assert (Hk : is_Some (expandedSections (steps [Toggle "hpi"] (initial page 2024))
                          !! "hpi")) by (exists true; reflexivity).
  split; [exact Hk |].
  refine (expansion_keys_registered page 2024 [Toggle "hpi"] _ "hpi" Hk).
  apply List.Forall_cons; [cbn; auto 10 | apply List.Forall_nil].
Defined.

(** ** The rail *)

Lemma sectionIds_NoDup : List.NoDup sectionIds.
Proof.
  unfold sectionIds. cbn [map SECTIONS id].
  repeat (apply List.NoDup_cons;
          [cbn [In]; intros H;
           repeat (destruct H as [H | H]; [discriminate |]); exact H |]).
  apply List.NoDup_nil.
Qed.

(** In a list of sections with distinct ids exactly one button is drawn
    active when the active id is one of them, none otherwise. *)
Lemma highlights_count (sections : list SectionItem) (a : string) :
  List.NoDup (map id sections) ->
  List.length (List.filter (PhaseNavigation.isActive a) sections)
  = if in_dec string_dec a (map id sections) then 1%nat else 0%nat.
Proof.
  induction sections as [| s rest IH]; intros Hnd; [reflexivity |].
  cbn [map] in Hnd. inversion Hnd as [| ? ? Hnotin Hnd']; subst.
  cbn [List.filter]. unfold PhaseNavigation.isActive at 1.
  specialize (IH Hnd').
  destruct (String.eqb_spec a (id s)) as [-> | Hne].
  - cbn [List.length]. rewrite IH.
    destruct (in_dec string_dec (id s) (map id rest)); [contradiction |].
    destruct (in_dec string_dec (id s) (map id (s :: rest))) as [_ | Hn];
      [reflexivity |].
    exfalso. apply Hn. now left.
  - rewrite IH.
    destruct (in_dec string_dec a (map id rest)) as [Hin | Hnin];
      destruct (in_dec string_dec a (map id (s :: rest))) as [Hin' | Hnin'];
      try reflexivity.
    + exfalso. apply Hnin'. now right.
    + exfalso. destruct Hin' as [He | Hin']; [congruence | contradiction].
Qed.

(** X3: in every state the user can reach the rail draws exactly one button
    as active, and every rail button dispatches a click on a registry id. *)
Theorem rail_highlights_one
    (doc : gmap string Element) (year : Z) (evs : list Event) :
  Forall fromUI evs ->
  List.length
    (List.filter (fun b : bool => b)
       (PhaseNavigation.highlights SECTIONS
          (activeSectionId (steps evs (initial doc year)))))
  = 1%nat
  /\ (forall index ev,
        PhaseNavigation.onClick SECTIONS index = Some ev -> fromUI ev).
Proof.
  intros Hok. split.
  - assert (Hin : In (activeSectionId (steps evs (initial doc year))) sectionIds).
    { apply (steps_invariant registered fromUI);
        [exact step_active_registered | apply initial_registered | exact Hok]. }
    unfold PhaseNavigation.highlights.
    assert (Hf : forall (f : SectionItem -> bool) l,
               List.length (List.filter (fun b : bool => b) (map f l))
               = List.length (List.filter f l)).
    { intros f l. induction l as [| x l IHl]; [reflexivity |].
      cbn [map List.filter]. destruct (f x); cbn [List.length]; now rewrite IHl. }
    rewrite Hf, (highlights_count SECTIONS _ sectionIds_NoDup).
    fold sectionIds.
    destruct (in_dec string_dec _ sectionIds); [reflexivity | contradiction].
  - intros index ev. unfold PhaseNavigation.onClick.
    destruct (nth_error SECTIONS index) as [item |] eqn:Hn; [| discriminate].
    intros [= <-]. cbn [fromUI]. unfold sectionIds.
    apply in_map. now apply nth_error_In with index.
Qed.

Lemma rail_highlights_one_witness :
  List.length
    (List.filter (fun b : bool => b)
       (PhaseNavigation.highlights SECTIONS
          (activeSectionId (steps [Click "plan"; Scroll 1500] (initial page 2024)))))
  = 1%nat.
Proof.
  refine (proj1 (rail_highlights_one page 2024 [Click "plan"; Scroll 1500] _)).
  repeat (apply List.Forall_cons; [cbn; first [lia | exact I | auto 10] |]).
  apply List.Forall_nil.
Defined.

(** ** Opening and closing sections *)

(** X4: a header toggle flips the open state of its own section (a section
    never touched counts as closed and opens), leaves every other entry of
    the map and the navigation state alone, and a second toggle brings every
    section back to the open state it had. *)
Theorem toggle_flips_one (st : State) (i : string) :
  let st' := step st (Toggle i) in
  isOpen st' i = negb (isOpen st i)
  /\ (forall j, j <> i ->
        expandedSections st' !! j = expandedSections st !! j
        /\ isOpen st' j = isOpen st j)
  /\ (activeSectionId st' = activeSectionId st
      /\ isManualScrolling st' = isManualScrolling st
      /\ timers st' = timers st
      /\ scrollRequests st' = scrollRequests st)
  /\ (forall j, isOpen (step st' (Toggle i)) j = isOpen st j).
Proof.
  cbn zeta.
  assert (Hself : forall s, isOpen (step s (Toggle i)) i = negb (isOpen s i)).
  { intros s. unfold isOpen. cbn. now rewrite lookup_insert_eq. }
  assert (Hother : forall s j, j <> i ->
             expandedSections (step s (Toggle i)) !! j = expandedSections s !! j).
  { intros s j Hne. cbn. now rewrite lookup_insert_ne by congruence. }
  split; [apply Hself |]. split; [| split].
  - intros j Hne. split; [now apply Hother |].
    unfold isOpen. now rewrite Hother.
  - repeat split.
  - intros j. destruct (decide (j = i)) as [-> | Hne].
    + rewrite !Hself. apply negb_involutive.
    + unfold isOpen. now rewrite !Hother.
Qed.

Lemma step_keeps_expansion (st : State) (ev : Event) :
  ~ writesExpansion ev -> expandedSections (step st ev) = expandedSections st.
Proof.
  intros Hev. destruct ev as [i | y | i | m | v | v | v | | | doc | dt |];
    try (exfalso; apply Hev; exact I); try cbn [step].
  - change (expandedSections (step st (Scroll y)) = expandedSections st).
    now destruct (scroll_frame st y) as (_ & _ & _ & _ & He).
  - reflexivity.
  - now destruct (bmiEffect_form (run [SetHeight v] st)) as [b ->].
  - now destruct (bmiEffect_form (run [SetWeight v] st)) as [b ->].
  - unfold handleAgeChange. now destruct (_ || _).
  - unfold handleAgeBlur. destruct (JS.isEmpty _); [reflexivity |].
    destruct (JS.parseInt _); [| reflexivity]. now destruct (_ && _).
  - reflexivity.
  - reflexivity.
  - now destruct (elapse_frame dt st) as (_ & He & _).
  - now destruct (effects_frame st) as (_ & _ & He & _).
Qed.

(** X5: only header toggles and rail clicks change which sections are open.
    Scrolling (observed or suppressed), the timer callbacks, typing, mode
    changes, saving and relayout leave the expansion map as it is. *)
Theorem expansion_kept_without_toggle_or_click (evs : list Event) (st : State) :
  Forall (fun ev => ~ writesExpansion ev) evs ->
  expandedSections (steps evs st) = expandedSections st.
Proof.
  revert st. induction evs as [| ev evs IH]; intros st Hok; [reflexivity |].
  inversion Hok as [| ? ? Hev Hrest]; subst.
  cbn [steps fold_left]. fold (steps evs (step st ev)).
  rewrite (IH _ Hrest). now apply step_keeps_expansion.
Qed.

Lemma expansion_kept_without_toggle_or_click_witness :
  expandedSections
    (steps [Scroll 1500; ModeClick peds; Elapse 100; Scroll 4000; Save; Elapse 900]
           (step (initial page 2024) (Click "plan")))
  = expandedSections (step (initial page 2024) (Click "plan")).
Proof.
  apply (expansion_kept_without_toggle_or_click
           [Scroll 1500; ModeClick peds; Elapse 100; Scroll 4000; Save; Elapse 900]).
  repeat (apply List.Forall_cons; [cbn; tauto |]). apply List.Forall_nil.
Defined.

(** X6: a rail click never closes a section: the target is open afterwards
    (opening an open section changes nothing) and every other section keeps
    its open state. *)
Theorem click_never_closes (st : State) (i : string) :
  let st' := step st (Click i) in
  (activeSectionId st <> i -> isOpen st' i = true)
  /\ (forall j, j <> i -> isOpen st' j = isOpen st j)
  /\ (forall j, isOpen st j = true -> isOpen st' j = true)
  /\ (isOpen st i = true -> forall j, isOpen st' j = isOpen st j).
Proof.
  cbn zeta.
  assert (Hcases : step st (Click i) = st
                   \/ expandedSections (step st (Click i))
                      = <[ i := true ]> (expandedSections st)).
  { destruct (String.eqb_spec (activeSectionId st) i) as [He | Hne].
    - left. apply (click_active_noop_aux st i He).
    - right. now destruct (click_other st i Hne) as (_ & _ & He & _). }
  assert (Hother : forall j, j <> i -> isOpen (step st (Click i)) j = isOpen st j).
  { intros j Hne. destruct Hcases as [-> | He]; [reflexivity |].
    unfold isOpen. rewrite He. now rewrite lookup_insert_ne by congruence. }
  assert (Hself : isOpen st i = true -> isOpen (step st (Click i)) i = true).
  { intros Ho. destruct Hcases as [-> | He]; [exact Ho |].
    unfold isOpen. rewrite He. now rewrite lookup_insert_eq. }
  split; [| split; [exact Hother | split]].
  - intros Hne. destruct (click_other st i Hne) as (_ & _ & He & _).
    cbn zeta in He. unfold isOpen. rewrite He. now rewrite lookup_insert_eq.
  - intros j Ho. destruct (decide (j = i)) as [-> | Hne];
      [now apply Hself | now rewrite Hother].
  - intros Ho j. destruct (decide (j = i)) as [-> | Hne];
      [now rewrite Hself | now apply Hother].
Qed.

(** ** The suppression flag always comes down *)

Lemma pick_spec (ts : list Timer) :
  forall t rest, pick ts = Some (t, rest) ->
                 forall x, In x ts <-> x = t \/ In x rest.
Proof.
  induction ts as [| t0 ts IH]; intros t rest H x; [discriminate |].
  cbn [pick] in H. destruct (pick ts) as [[t' rest'] |] eqn:Hp.
  - specialize (IH t' rest' eq_refl x).
    destruct (due t' <? due t0); injection H as <- <-; cbn [In];
      intuition congruence.
  - injection H as <- <-. cbn [In]. intuition congruence.
Qed.

Lemma settlesBy_mono (b b' : Z) (t : Timer) :
  b <= b' -> settlesBy b t -> settlesBy b' t.
Proof. unfold settlesBy. destruct (callback t); lia. Qed.

Lemma fireTimer_live (b : Z) (t : Timer) (rest : list Timer) (st : State) :
  (forall x, In x (timers st) <-> x = t \/ In x rest) ->
  (forall x, In x (timers st) -> due t <= due x) ->
  (forall x, In x (timers st) -> clock st <= due x /\ settlesBy b x) ->
  (isManualScrolling st = true ->
   exists x, In x (timers st) /\ isNavTimer x = true) ->
  let s := fireTimer t rest st in
  (forall x, In x (timers s) -> clock s <= due x /\ settlesBy b x)
  /\ (isManualScrolling s = true ->
      exists x, In x (timers s) /\ isNavTimer x = true)
  /\ clock s = due t.
Proof.
  intros Hsplit Hmin Hk Hf. cbn zeta.
  assert (Ht : clock st <= due t /\ settlesBy b t)
    by (apply Hk, Hsplit; now left).
  assert (Hrest : forall x, In x rest -> due t <= due x /\ settlesBy b x).
  { intros x Hx. assert (In x (timers st)) by (apply Hsplit; now right).
    split; [now apply Hmin | now apply Hk]. }
  destruct t as [d cb]. cbn [due] in *. destruct Ht as [Hc Hs].
  destruct cb as [i | i | | |].
  - destruct (document st !! i) as [el |] eqn:Hel.
    + destruct (fire_start st i el d rest Hel) as (Et & Ef & _ & _ & Ec & _).
      cbn zeta in *. rewrite Et, Ef, Ec, Z.max_r by lia.
      unfold settlesBy in Hs. cbn [callback due] in Hs.
      split; [| split; [| reflexivity]].
      * intros x Hx. apply in_app_or in Hx. destruct Hx as [Hx | [<- | []]].
        -- now apply Hrest.
        -- unfold settlesBy. cbn [callback due]. lia.
      * intros _. eexists. split; [apply in_or_app; right; now left |].
        reflexivity.
    + unfold fireTimer. cbn [callback due fire browserUpdate document].
      rewrite Hel. cbn. rewrite Z.max_r by lia.
      split; [| split; [discriminate | reflexivity]].
      intros x Hx. now apply Hrest.
  - destruct (fire_settle st i d rest) as (Et & Ef & _ & _ & Ec).
    cbn zeta in *. rewrite Et, Ef, Ec, Z.max_r by lia.
    split; [| split; [discriminate | reflexivity]].
    intros x Hx. now apply Hrest.
  - unfold fireTimer. cbn. rewrite Z.max_r by lia.
    split; [| split; [| reflexivity]].
    + intros x Hx. now apply Hrest.
    + intros Hup. destruct (Hf Hup) as (x & Hx & Hnav).
      apply Hsplit in Hx. destruct Hx as [-> | Hx]; [discriminate |].
      now exists x.
  - unfold fireTimer. cbn. rewrite Z.max_r by lia.
    split; [| split; [| reflexivity]].
    + intros x Hx. apply in_app_or in Hx. destruct Hx as [Hx | [<- | []]].
      * now apply Hrest.
      * unfold settlesBy. cbn [callback due]. split; [lia | exact I].
    + intros Hup. destruct (Hf Hup) as (x & Hx & Hnav).
      apply Hsplit in Hx. destruct Hx as [-> | Hx]; [discriminate |].
      exists x. split; [apply in_or_app; now left | exact Hnav].
  - unfold fireTimer. cbn. rewrite Z.max_r by lia.
    split; [| split; [| reflexivity]].
    + intros x Hx. now apply Hrest.
    + intros Hup. destruct (Hf Hup) as (x & Hx & Hnav).
      apply Hsplit in Hx. destruct Hx as [-> | Hx]; [discriminate |].
      now exists x.
Qed.

Lemma runDue_live (b : Z) (fuel : nat) (deadline : Z) :
  forall st,
    (forall x, In x (timers st) -> clock st <= due x /\ settlesBy b x) ->
    (isManualScrolling st = true ->
     exists x, In x (timers st) /\ isNavTimer x = true) ->
    let s := runDue fuel deadline st in
    (forall x, In x (timers s) -> clock s <= due x /\ settlesBy b x)
    /\ (isManualScrolling s = true ->
        exists x, In x (timers s) /\ isNavTimer x = true).
Proof.
  induction fuel as [| fuel IH]; intros st Hk Hf; cbn zeta; [now split |].
  cbn [runDue]. destruct (pick (timers st)) as [[t rest] |] eqn:Hp; [| now split].
  destruct (due t <=? deadline); [| now split].
  destruct (fireTimer_live b t rest st (pick_spec _ _ _ Hp) (pick_min _ _ _ Hp)
              Hk Hf) as (Hk' & Hf' & _).
  exact (IH _ Hk' Hf').
Qed.

Lemma step_keeps_queue (st : State) (ev : Event) :
  match ev with Click _ | Save | Elapse _ | Effects => False | _ => True end ->
  timers (step st ev) = timers st
  /\ clock (step st ev) = clock st
  /\ isManualScrolling (step st ev) = isManualScrolling st.
Proof.
  intros Hev. destruct ev as [i | y | i | m | v | v | v | | | doc | dt |];
    try contradiction; try cbn [step].
  - change (timers (step st (Scroll y)) = timers st
            /\ clock (step st (Scroll y)) = clock st
            /\ isManualScrolling (step st (Scroll y)) = isManualScrolling st).
    destruct (scroll_frame st y) as (Hf & Ht & Hc & _). now repeat split.
  - repeat split.
  - repeat split.
  - destruct (bmiEffect_form (run [SetHeight v] st)) as [b ->]. repeat split.
  - destruct (bmiEffect_form (run [SetWeight v] st)) as [b ->]. repeat split.
  - unfold handleAgeChange. destruct (_ || _); repeat split.
  - unfold handleAgeBlur. destruct (JS.isEmpty _); [repeat split |].
    destruct (JS.parseInt _); [| repeat split]. destruct (_ && _); repeat split.
  - repeat split.
Qed.

Lemma live_ext (st st' : State) :
  timers st' = timers st -> clock st' = clock st ->
  isManualScrolling st' = isManualScrolling st ->
  live st -> live st'.
Proof. unfold live. intros -> -> ->. tauto. Qed.

Lemma step_live (st : State) (ev : Event) :
  live st -> fromUI ev -> live (step st ev).
Proof.
  intros Hl Hev.
  destruct ev as [i | y | i | m | v | v | v | | | doc | dt |];
    try (match goal with
         | |- live (step st ?e) =>
             destruct (step_keeps_queue st e I) as (Ht & Hc & Hf);
             exact (live_ext _ _ Ht Hc Hf Hl)
         end).
  - (* Click *)
    destruct (String.eqb_spec (activeSectionId st) i) as [He | Hne].
    { now rewrite (proj2 (click_active_noop_aux st i He)). }
    destruct (click_other st i Hne) as (_ & Hf & _ & Ht & Hc & _).
    cbn zeta in *. destruct Hl as [Hk _]. unfold live. rewrite Ht, Hc, Hf.
    split.
    + intros x Hx. apply in_app_or in Hx. destruct Hx as [Hx | [<- | []]].
      * now apply Hk.
      * unfold settlesBy. cbn [callback due]. lia.
    + intros _. eexists. split; [apply in_or_app; right; now left | reflexivity].
  - (* Save *)
    destruct Hl as [Hk Hf]. unfold live. cbn. split.
    + intros x Hx. apply in_app_or in Hx. destruct Hx as [Hx | [<- | []]].
      * now apply Hk.
      * unfold settlesBy. cbn [callback due]. lia.
    + intros Hup. destruct (Hf Hup) as (x & Hx & Hnav). exists x.
      split; [apply in_or_app; now left | exact Hnav].
  - (* Elapse *)
    cbn [fromUI] in Hev. cbn [step]. destruct Hl as [Hk Hf].
    destruct (runDue_live (clock st + 850) (2 * List.length (timers st))
                (clock st + dt) st Hk Hf) as [Hk' Hf'].
    cbn zeta in *. unfold live, elapse.
    cbn [setClock browserUpdate timers clock isManualScrolling].
    split; [| exact Hf'].
    intros x Hx. split.
    + pose proof (runDue_complete _ _ st (budget_le _) x Hx). lia.
    + apply (settlesBy_mono (clock st + 850)); [lia | now apply Hk'].
  - (* Effects *)
    destruct (effects_frame st) as (_ & _ & _ & Hf' & Hc' & _ & Ht' & _).
    cbn zeta in *. destruct Hl as [Hk Hf]. unfold live.
    rewrite Ht', Hc', Hf'. split.
    + intros x Hx. apply in_app_or in Hx. destruct Hx as [Hx | Hx].
      * apply List.filter_In in Hx. now apply Hk.
      * destruct (showToast st); [| contradiction].
        destruct Hx as [<- | []]. unfold settlesBy. cbn [callback due].
        split; [lia | exact I].
    + intros Hup. destruct (Hf Hup) as (x & Hx & Hnav). exists x.
      split; [| exact Hnav]. apply in_or_app. left.
      apply List.filter_In. split; [exact Hx |].
      unfold isNavTimer in Hnav. unfold isHideToast.
      now destruct (callback x).
Qed.

Lemma initial_live (doc : gmap string Element) (year : Z) : live (initial doc year).
Proof. split; [intros t [] | discriminate]. Qed.

(** From a state that is [live] the flag is down once 850 ms have passed. *)
Lemma live_flag_down (st : State) (dt : Z) :
  live st -> 850 <= dt -> isManualScrolling (elapse dt st) = false.
Proof.
  intros [Hk Hf] Hdt.
  destruct (runDue_live (clock st + 850) (2 * List.length (timers st))
              (clock st + dt) st Hk Hf) as [Hk' Hf'].
  cbn zeta in *. unfold elapse.
  cbn [setClock browserUpdate isManualScrolling].
  destruct (isManualScrolling (runDue _ _ st)) eqn:Hup; [| reflexivity].
  exfalso. destruct (Hf' eq_refl) as (t & Ht & Hnav).
  pose proof (runDue_complete _ _ st (budget_le _) t Ht) as Hlate.
  destruct (Hk' t Ht) as [_ Hs]. unfold settlesBy, isNavTimer in *.
  destruct (callback t); first [lia | discriminate].
Qed.

(** X7: the scroll spy is never stuck suppressed.  In every state the user
    can reach, while the flag is up a timer of a navigation request is
    pending and due within 850 ms; and once 850 ms or more pass without
    another event the flag is down. *)
Theorem never_stuck_suppressed
    (doc : gmap string Element) (year : Z) (evs : list Event) :
  Forall fromUI evs ->
  let st := steps evs (initial doc year) in
  (isManualScrolling st = true ->
   exists t, In t (timers st) /\ isNavTimer t = true
             /\ clock st <= due t <= clock st + 850)
  /\ (forall dt, 850 <= dt -> isManualScrolling (step st (Elapse dt)) = false).
Proof.
  intros Hok. cbn zeta.
  assert (Hl : live (steps evs (initial doc year))).
  { apply (steps_invariant live fromUI);
      [exact step_live | apply initial_live | exact Hok]. }
  set (st := steps evs (initial doc year)) in *. split.
  - destruct Hl as [Hk Hf].
    intros Hup. destruct (Hf Hup) as (t & Ht & Hnav). exists t.
    destruct (Hk t Ht) as [Hc Hs]. split; [exact Ht |]. split; [exact Hnav |].
    split; [exact Hc |]. unfold settlesBy, isNavTimer in *.
    destruct (callback t); first [lia | discriminate].
  - intros dt Hdt. cbn [step]. now apply live_flag_down.
Qed.

Lemma never_stuck_suppressed_witness :
  isManualScrolling
    (step (steps [Click "hpi"; Elapse 100; Click "plan"; Scroll 0]
                 (initial page 2024))
          (Elapse 850))
  = false.
Proof.
  refine (proj2 (never_stuck_suppressed page 2024
                   [Click "hpi"; Elapse 100; Click "plan"; Scroll 0] _)
                850 _); [| lia].
  repeat (apply List.Forall_cons; [cbn; first [lia | exact I | auto 10] |]).
  apply List.Forall_nil.
Defined.

(** ** One navigation request from click to settle *)

Lemma fire_start_missing (st : State) (X : string) (d : Z) (rest : list Timer) :
  document st !! X = None ->
  let s := fireTimer {| due := d; callback := StartScroll X |} rest st in
  timers s = rest
  /\ isManualScrolling s = false
  /\ activeSectionId s = activeSectionId st
  /\ expandedSections s = expandedSections st
  /\ scrollRequests s = scrollRequests st.
Proof.
  intros Hel. cbn zeta. unfold fireTimer.
  cbn [callback due fire browserUpdate document]. rewrite Hel.
  repeat split.
Qed.

Lemma navigation_course
    (st : State) (X : string) (el : Element) (dt : Z) :
  timers st = [] -> activeSectionId st <> X -> document st !! X = Some el ->
  0 <= dt ->
  let s := steps [Click X; Elapse dt] st in
  scrollRequests s
  = (if dt <? 50 then scrollRequests st
     else scrollRequests st ++ [rectTop el + scrollY st + -110])%list
  /\ isManualScrolling s = (dt <? 850)
  /\ activeSectionId s = X
  /\ (850 <= dt -> timers s = []).
Proof.
  intros Hq Hne Hel Hdt. cbn zeta. unfold steps. cbn [fold_left].
  destruct (click_other st X Hne) as (A1 & F1 & _ & T1 & C1 & D1 & R1).
  cbn zeta in *. rewrite Hq in T1. cbn [app] in T1.
  assert (Y1 : scrollY (step st (Click X)) = scrollY st).
  { cbn [step]. now rewrite (scrollToSection_other _ _ Hne). }
  set (s1 := step st (Click X)) in *.
  assert (Hel1 : document s1 !! X = Some el) by now rewrite D1.
  assert (P1 : pick (timers s1)
               = Some ({| due := clock st + 50; callback := StartScroll X |}, []))
    by now rewrite T1.
  destruct (fire_start s1 X el (clock st + 50) [] Hel1)
    as (T2 & F2 & A2 & D2 & C2 & R2). cbn zeta in *.
  rewrite C1, Z.max_r in T2, C2 by lia. rewrite Y1, R1 in R2. cbn [app] in T2.
  set (s2 := fireTimer {| due := clock st + 50; callback := StartScroll X |} [] s1)
    in *.
  destruct (Z.ltb_spec dt 50) as [Hearly | Hlate].
  - (* before the scroll starts *)
    cbn [step]. rewrite elapse_idle.
    + cbn [setClock browserUpdate scrollRequests isManualScrolling
             activeSectionId timers].
      rewrite R1, F1, A1. rewrite (proj2 (Z.ltb_lt dt 850)) by lia.
      repeat split. intros; lia.
    + intros t. rewrite T1, C1. intros [<- | []]. cbn [due]. lia.
  - destruct (Z.ltb_spec dt 850) as [Hmid | Hend].
    + (* scrolling, suppressed *)
      cbn [step]. rewrite (elapse_fire_one dt s1 _ [] P1).
      * fold s2. cbn [setClock browserUpdate scrollRequests isManualScrolling
                        activeSectionId timers].
        rewrite R2, F2, F1, A2, A1. repeat split. intros; lia.
      * cbn [due]. lia.
      * fold s2. intros t. rewrite T2, C1. intros [<- | []]. cbn [due]. lia.
    + (* settled *)
      cbn [step]. unfold elapse. rewrite T1. cbn [List.length Nat.mul Nat.add].
      rewrite (runDue_fire _ _ _ _ _ P1) by (cbn [due]; lia). fold s2.
      assert (P2 : pick (timers s2)
                   = Some ({| due := clock st + 50 + 800; callback := Settle X |},
                           [])) by now rewrite T2.
      rewrite (runDue_fire _ _ _ _ _ P2) by (cbn [due]; lia).
      cbn [runDue].
      destruct (fire_settle s2 X (clock st + 50 + 800) [])
        as (T3 & F3 & A3 & _ & _). cbn zeta in *.
      assert (R3 : scrollRequests
                     (fireTimer {| due := clock st + 50 + 800;
                                   callback := Settle X |} [] s2)
                   = scrollRequests s2) by reflexivity.
      cbn [setClock browserUpdate scrollRequests isManualScrolling
             activeSectionId timers].
      rewrite R3, R2, F3, A3, A2, A1, T3. repeat split.
Qed.

(** X8: a rail click on a laid-out section [X], with no timer pending.
    Nothing is scrolled for 50 ms; then exactly one scroll is requested, to
    110 pixels above the top of the section; the flag is up until 850 ms
    after the click and down from then on, with no timer left; [X] is active
    throughout. *)
Theorem navigation_runs_its_course
    (st : State) (X : string) (el : Element) (dt : Z) :
  timers st = [] -> activeSectionId st <> X -> document st !! X = Some el ->
  0 <= dt ->
  let s := steps [Click X; Elapse dt] st in
  scrollRequests s
  = (if dt <? 50 then scrollRequests st
     else scrollRequests st ++ [rectTop el + scrollY st + -110])%list
  /\ isManualScrolling s = (dt <? 850)
  /\ activeSectionId s = X
  /\ (850 <= dt -> timers s = []).
Proof. exact (navigation_course st X el dt). Qed.

Lemma navigation_runs_its_course_witness :
  scrollRequests (steps [Click "hpi"; Elapse 400] (initial page 2024))
  = (if 400 <? 50 then scrollRequests (initial page 2024)
     else scrollRequests (initial page 2024)
          ++ [rectTop (block 1400) + scrollY (initial page 2024) + -110])%list.
Proof.
  assert (Ha : activeSectionId (initial page 2024) <> "hpi") by discriminate.
  assert (H0 : 0 <= 400) by lia.
  exact (proj1 (navigation_runs_its_course (initial page 2024) "hpi" (block 1400)
                  400 eq_refl Ha eq_refl H0)).
Defined.

(** X9: a rail click on a section that is not laid out
    ([getElementById] finds nothing).  The section becomes active and open
    all the same, but nothing is ever scrolled, and the flag comes down
    already after 50 ms, with no timer left. *)
Theorem navigation_without_element (st : State) (X : string) (dt : Z) :
  timers st = [] -> activeSectionId st <> X -> document st !! X = None ->
  0 <= dt ->
  let s := steps [Click X; Elapse dt] st in
  scrollRequests s = scrollRequests st
  /\ isManualScrolling s = (dt <? 50)
  /\ activeSectionId s = X
  /\ isOpen s X = true
  /\ (50 <= dt -> timers s = []).
Proof.
  intros Hq Hne Hel Hdt. cbn zeta. unfold steps. cbn [fold_left].
  destruct (click_other st X Hne) as (A1 & F1 & E1 & T1 & C1 & D1 & R1).
  cbn zeta in *. rewrite Hq in T1. cbn [app] in T1.
  set (s1 := step st (Click X)) in *.
  assert (O1 : isOpen s1 X = true).
  { unfold isOpen. rewrite E1. now rewrite lookup_insert_eq. }
  assert (Hel1 : document s1 !! X = None) by now rewrite D1.
  assert (P1 : pick (timers s1)
               = Some ({| due := clock st + 50; callback := StartScroll X |}, []))
    by now rewrite T1.
  destruct (fire_start_missing s1 X (clock st + 50) [] Hel1)
    as (T2 & F2 & A2 & E2 & R2). cbn zeta in *.
  destruct (Z.ltb_spec dt 50) as [Hearly | Hlate].
  - cbn [step]. rewrite elapse_idle.
    + unfold isOpen.
      cbn [setClock browserUpdate scrollRequests isManualScrolling
             activeSectionId timers expandedSections].
      fold (isOpen s1 X). rewrite R1, F1, A1, O1. repeat split. intros; lia.
    + intros t. rewrite T1, C1. intros [<- | []]. cbn [due]. lia.
  - cbn [step]. rewrite (elapse_fire_one dt s1 _ [] P1).
    + unfold isOpen.
      cbn [setClock browserUpdate scrollRequests isManualScrolling
             activeSectionId timers expandedSections].
      rewrite R2, R1, F2, A2, A1, E2, T2. fold (isOpen s1 X). rewrite O1.
      repeat split.
    + cbn [due]. lia.
    + intros t. rewrite T2. intros [].
Qed.

Lemma navigation_without_element_witness :
  isManualScrolling (steps [Click "hpi"; Elapse 50] (initial ∅ 2024))
  = (50 <? 50).
Proof.
  assert (Ha : activeSectionId (initial ∅ 2024) <> "hpi") by discriminate.
  assert (H0 : 0 <= 50) by lia.
  exact (proj1 (proj2 (navigation_without_element (initial ∅ 2024) "hpi" 50
                         eq_refl Ha eq_refl H0))).
Defined.

(** ** Saving *)

Lemma fire_saveDone (st : State) (d : Z) (rest : list Timer) :
  let s := fireTimer {| due := d; callback := SaveDone |} rest st in
  timers s = rest
  /\ isSaving s = false
  /\ showToast s = true
  /\ isManualScrolling s = isManualScrolling st
  /\ clock s = Z.max (clock st) d.
Proof. repeat split. Qed.

Lemma fire_hideToast (st : State) (d : Z) (rest : list Timer) :
  let s := fireTimer {| due := d; callback := HideToast |} rest st in
  timers s
  = (rest ++ [ {| due := Z.max (clock st) d + 300; callback := CloseToast |} ])%list
  /\ toastVisible s = false
  /\ showToast s = showToast st
  /\ isSaving s = isSaving st
  /\ isManualScrolling s = isManualScrolling st
  /\ clock s = Z.max (clock st) d.
Proof. repeat split. Qed.

Lemma fire_closeToast (st : State) (d : Z) (rest : list Timer) :
  let s := fireTimer {| due := d; callback := CloseToast |} rest st in
  timers s = rest
  /\ toastVisible s = toastVisible st
  /\ showToast s = false
  /\ isSaving s = isSaving st
  /\ isManualScrolling s = isManualScrolling st
  /\ clock s = Z.max (clock st) d.
Proof. repeat split. Qed.

(** The toast from the render that shows it: visible for 3000 ms, and
    [showToast] set back to false 300 ms later. *)
Lemma toast_course (st : State) (e : Z) :
  timers st = [] -> showToast st = true -> 0 <= e ->
  let s := steps [Effects; Elapse e] st in
  toastVisible s = (e <? 3000)
  /\ showToast s = (e <? 3300)
  /\ isSaving s = isSaving st
  /\ isManualScrolling s = isManualScrolling st
  /\ (3300 <= e -> timers s = []).
Proof.
  intros Hq Hs He. cbn zeta. unfold steps. cbn [fold_left].
  destruct (effects_frame st)
    as (_ & _ & _ & F1 & C1 & _ & T1 & _ & (S1 & I1 & _ & _ & V1)).
  cbn zeta in *. rewrite Hq, Hs in T1. cbn [List.filter app] in T1.
  rewrite Hs in V1, S1. cbn [orb] in V1.
  set (s1 := step st Effects) in *.
  assert (P1 : pick (timers s1)
               = Some ({| due := clock st + 3000; callback := HideToast |}, []))
    by now rewrite T1.
  destruct (fire_hideToast s1 (clock st + 3000) [])
    as (T2 & V2 & S2 & I2 & F2 & C2). cbn zeta in *.
  rewrite C1, Z.max_r in T2, C2 by lia. cbn [app] in T2.
  set (s2 := fireTimer {| due := clock st + 3000; callback := HideToast |} [] s1)
    in *.
  destruct (Z.ltb_spec e 3000) as [Hearly | Hlate].
  - (* on show *)
    cbn [step]. rewrite elapse_idle.
    + cbn [setClock browserUpdate toastVisible showToast isSaving
             isManualScrolling timers].
      rewrite V1, S1, I1, F1. rewrite (proj2 (Z.ltb_lt e 3300)) by lia.
      repeat split. intros; lia.
    + intros t. rewrite T1, C1. intros [<- | []]. cbn [due]. lia.
  - destruct (Z.ltb_spec e 3300) as [Hmid | Hend].
    + (* hidden, onClose pending *)
      cbn [step]. rewrite (elapse_fire_one e s1 _ [] P1).
      * fold s2. cbn [setClock browserUpdate toastVisible showToast isSaving
                        isManualScrolling timers].
        rewrite V2, S2, S1, I2, I1, F2, F1. repeat split. intros; lia.
      * cbn [due]. lia.
      * fold s2. intros t. rewrite T2, C1. intros [<- | []]. cbn [due]. lia.
    + (* closed *)
      cbn [step]. unfold elapse. rewrite T1. cbn [List.length Nat.mul Nat.add].
      rewrite (runDue_fire _ _ _ _ _ P1) by (cbn [due]; lia). fold s2.
      assert (P2 : pick (timers s2)
                   = Some ({| due := clock st + 3000 + 300;
                              callback := CloseToast |}, []))
        by now rewrite T2.
      rewrite (runDue_fire _ _ _ _ _ P2) by (cbn [due]; lia).
      cbn [runDue].
      destruct (fire_closeToast s2 (clock st + 3000 + 300) [])
        as (T3 & V3 & S3 & I3 & F3 & _). cbn zeta in *.
      cbn [setClock browserUpdate toastVisible showToast isSaving
             isManualScrolling timers].
      rewrite V3, V2, S3, I3, I2, I1, F3, F2, F1, T3. repeat split.
Qed.

(** X10: the save button, with no timer pending and the toast not up; React
    renders and runs the effects after the click and again once the 800 ms
    callback has set its state.  The saving indicator is on for the 800 ms after the click and off
    from then on, when [showToast] is set; with the render that follows the
    toast is visible, for 3000 ms; 300 ms later [onClose] sets [showToast]
    back to false, and no timer is left.  The form, the navigation state and
    the suppression flag are not touched. *)
Theorem save_acknowledged_after_800 (st : State) (dt e : Z) :
  timers st = [] -> showToast st = false -> 0 <= dt <= 800 -> 0 <= e ->
  let s := steps [Save; Effects; Elapse dt] st in
  let s' := steps [Save; Effects; Elapse 800; Effects; Elapse e] st in
  (isSaving s = (dt <? 800) /\ showToast s = negb (dt <? 800))
  /\ (isSaving s' = false
      /\ toastVisible s' = (e <? 3000)
      /\ showToast s' = (e <? 3300)
      /\ (3300 <= e -> timers s' = []))
  /\ (activeSectionId s' = activeSectionId st
      /\ expandedSections s' = expandedSections st
      /\ isManualScrolling s' = isManualScrolling st
      /\ height s' = height st /\ weight s' = weight st /\ bmi s' = bmi st
      /\ age s' = age st).
Proof.
  intros Hq Hs Hdt He. cbn zeta.
  (* the click and the effects of the render after it *)
  set (s1 := step st Save).
  assert (T1 : timers s1 = [ {| due := clock st + 800; callback := SaveDone |} ])
    by (subst s1; cbn; now rewrite Hq).
  assert (C1 : clock s1 = clock st) by reflexivity.
  assert (S1 : showToast s1 = false) by exact Hs.
  assert (I1 : isSaving s1 = true) by reflexivity.
  assert (F1 : isManualScrolling s1 = isManualScrolling st) by reflexivity.
  destruct (effects_frame s1)
    as (_ & A2 & X2 & F2 & C2 & _ & T2 & (H2 & W2 & B2 & G2) & (S2 & I2 & _)).
  cbn zeta in *. rewrite T1, S1 in T2. cbn [List.filter isHideToast callback negb app] in T2.
  set (s2 := step s1 Effects) in *.
  assert (P2 : pick (timers s2)
               = Some ({| due := clock st + 800; callback := SaveDone |}, []))
    by now rewrite T2.
  destruct (fire_saveDone s2 (clock st + 800) [])
    as (T3 & I3 & S3 & F3 & C3). cbn zeta in *.
  rewrite C2, C1, Z.max_r in C3 by lia.
  assert (E3 : step s2 (Elapse 800)
               = setClock (clock s2 + 800)
                   (fireTimer {| due := clock st + 800; callback := SaveDone |}
                              [] s2)).
  { cbn [step]. apply elapse_fire_one; [exact P2 | cbn [due]; lia |].
    intros t. rewrite T3. intros []. }
  split; [| split].
  - (* the saving indicator *)
    change (steps [Save; Effects; Elapse dt] st) with (step s2 (Elapse dt)).
    destruct (Z.ltb_spec dt 800) as [Hearly | Hlate].
    + cbn [step]. rewrite elapse_idle.
      * cbn [setClock browserUpdate isSaving showToast].
        rewrite I2, I1, S2, S1. split; reflexivity.
      * intros t. rewrite T2, C2, C1. intros [<- | []]. cbn [due]. lia.
    + replace dt with 800 by lia. rewrite E3.
      cbn [setClock browserUpdate isSaving showToast].
      rewrite I3, S3. split; reflexivity.
  - (* the toast *)
    change (steps [Save; Effects; Elapse 800; Effects; Elapse e] st)
      with (steps [Effects; Elapse e] (step s2 (Elapse 800))).
    destruct (toast_course (step s2 (Elapse 800)) e) as (V & S & I5 & _ & Q);
      [ rewrite E3; exact T3 | rewrite E3; exact S3 | exact He |].
    cbn zeta in *. rewrite V, S, I5.
    split; [| split; [reflexivity | split; [reflexivity | exact Q]]].
    rewrite E3. cbn [setClock browserUpdate isSaving]. exact I3.
  - (* what is left alone *)
    change (steps [Save; Effects; Elapse 800; Effects; Elapse e] st)
      with (steps [Effects; Elapse e] (step s2 (Elapse 800))).
    destruct (toast_course (step s2 (Elapse 800)) e) as (_ & _ & _ & F5 & _);
      [ rewrite E3; exact T3 | rewrite E3; exact S3 | exact He |].
    cbn zeta in F5. rewrite F5. clear F5.
    assert (F3' : isManualScrolling (step s2 (Elapse 800)) = isManualScrolling st).
    { rewrite E3. cbn [setClock browserUpdate isManualScrolling].
      now rewrite F3, F2. }
    rewrite F3'. clear F3' E3.
    destruct (elapse_frame 800 s2) as (_ & X3 & A3 & H3 & W3 & B3 & G3 & _).
    cbn zeta in *. change (elapse 800 s2) with (step s2 (Elapse 800)) in *.
    unfold steps. cbn [fold_left].
    set (s3 := step s2 (Elapse 800)) in *.
    destruct (effects_frame s3)
      as (_ & A4 & X4 & _ & _ & _ & _ & (H4 & W4 & B4 & G4) & _).
    cbn zeta in *.
    destruct (elapse_frame e (step s3 Effects))
      as (_ & X5 & A5 & H5 & W5 & B5 & G5 & _). cbn zeta in *.
    change (step (step s3 Effects) (Elapse e)) with (elapse e (step s3 Effects)).
    rewrite A5, X5, H5, W5, B5, G5, A4, X4, H4, W4, B4, G4.
    rewrite A3, X3, H3, W3, B3, G3, A2, X2, H2, W2, B2, G2.
    repeat split.
Qed.

Lemma save_acknowledged_after_800_witness :
  isSaving (steps [Save; Effects; Elapse 800] (initial page 2024)) = (800 <? 800).
Proof.
  assert (H0 : 0 <= 800 <= 800) by lia.
  assert (H1 : 0 <= 0) by lia.
  exact (proj1 (proj1 (save_acknowledged_after_800 (initial page 2024) 800 0
                         eq_refl eq_refl H0 H1))).
Defined.

(** ** The derived fields in every reachable state *)

Lemma bmiShown_ext (st st' : State) :
  height st' = height st -> weight st' = weight st -> bmi st' = bmi st ->
  bmiShown st -> bmiShown st'.
Proof. unfold bmiShown. intros -> -> ->. tauto. Qed.

Lemma step_keeps_vitals (st : State) (ev : Event) :
  match ev with HeightInput _ | WeightInput _ => False | _ => True end ->
  height (step st ev) = height st
  /\ weight (step st ev) = weight st
  /\ bmi (step st ev) = bmi st.
Proof.
  intros Hev. destruct ev as [i | y | i | m | v | v | v | | | doc | dt |];
    try contradiction; try cbn [step].
  - unfold scrollToSection. destruct (String.eqb _ _); repeat split.
  - unfold handleScroll. cbn [setScrollY browserUpdate isManualScrolling].
    destruct (isManualScrolling st); [repeat split |].
    destruct (negb _); repeat split.
  - repeat split.
  - repeat split.
  - unfold handleAgeChange. destruct (_ || _); repeat split.
  - unfold handleAgeBlur. destruct (JS.isEmpty _); [repeat split |].
    destruct (JS.parseInt _); [| repeat split]. destruct (_ && _); repeat split.
  - repeat split.
  - repeat split.
  - destruct (elapse_frame dt st) as (_ & _ & _ & H1 & H2 & H3 & _).
    now repeat split.
  - destruct (effects_frame st) as (_ & _ & _ & _ & _ & _ & _ & (H1 & H2 & H3 & _) & _).
    now repeat split.
Qed.

Lemma step_bmiShown (st : State) (ev : Event) :
  bmiShown st -> True -> bmiShown (step st ev).
Proof.
  intros Hb _.
  destruct ev as [i | y | i | m | v | v | v | | | doc | dt |];
    try (match goal with
         | |- bmiShown (step st ?e) =>
             destruct (step_keeps_vitals st e I) as (H1 & H2 & H3);
             exact (bmiShown_ext _ _ H1 H2 H3 Hb)
         end).
  - cbn [step]. apply bmiEffect_shown.
  - cbn [step]. apply bmiEffect_shown.
Qed.

Lemma initial_bmiShown (doc : gmap string Element) (year : Z) :
  bmiShown (initial doc year).
Proof.
  unfold bmiShown. cbn [initial height weight bmi]. split; [reflexivity |].
  intros H. now contradiction H.
Qed.

(** X11: the BMI on display is never stale.  After any sequence of events
    whatever, it is the BMI of the height and weight fields as they are at
    that moment (blank or the rounded quotient, as [bmiShown] says). *)
Theorem bmi_never_stale
    (doc : gmap string Element) (year : Z) (evs : list Event) :
  bmiShown (steps evs (initial doc year)).
Proof.
  apply (steps_invariant bmiShown (fun _ => True));
    [exact step_bmiShown | apply initial_bmiShown |].
  induction evs; constructor; [exact I | assumption].
Qed.

Lemma string_of_uint_digits (d : Decimal.uint) :
  allDigits (NilEmpty.string_of_uint d) = true.
Proof. induction d; cbn [NilEmpty.string_of_uint allDigits]; auto. Qed.

(** The decimal numeral of a natural number is a non-empty string of digits. *)
Lemma toString_digits (k : Z) : 0 <= k -> testDigits (JS.toString k) = true.
Proof.
  intros Hk. unfold JS.toString.
  assert (Hu : forall d, testDigits (NilZero.string_of_uint d) = true).
  { intros d. pose proof (string_of_uint_digits d) as Hd.
    destruct d; [reflexivity | ..]; unfold testDigits;
      cbn [NilZero.string_of_uint NilEmpty.string_of_uint JS.isEmpty negb andb];
      exact Hd. }
  destruct k as [| p | p]; [reflexivity | apply Hu | lia].
Qed.

Lemma step_age_digits (st : State) (ev : Event) :
  (age st = "" \/ testDigits (age st) = true) -> True ->
  age (step st ev) = "" \/ testDigits (age (step st ev)) = true.
Proof.
  intros Ha _. destruct ev as [i | y | i | m | v | v | v | | | doc | dt |];
    try cbn [step].
  - unfold scrollToSection. destruct (String.eqb _ _); exact Ha.
  - unfold handleScroll. cbn [setScrollY browserUpdate isManualScrolling].
    destruct (isManualScrolling st); [exact Ha |]. destruct (negb _); exact Ha.
  - exact Ha.
  - exact Ha.
  - destruct (bmiEffect_form (run [SetHeight v] st)) as [b ->]. exact Ha.
  - destruct (bmiEffect_form (run [SetWeight v] st)) as [b ->]. exact Ha.
  - unfold handleAgeChange.
    destruct (JS.isEmpty v) eqn:Ee; cbn [orb].
    + left. cbn. now apply isEmpty_spec.
    + destruct (testDigits v) eqn:Ed; [right; exact Ed | exact Ha].
  - unfold handleAgeBlur. destruct (JS.isEmpty _); [exact Ha |].
    destruct (JS.parseInt _) as [n |]; [| exact Ha].
    destruct (Z.gtb_spec n 1900); cbn [andb]; [| exact Ha].
    destruct (Z.leb_spec n (fullYear st)); [| exact Ha].
    right. cbn. apply toString_digits. lia.
  - exact Ha.
  - exact Ha.
  - destruct (elapse_frame dt st) as (_ & _ & _ & _ & _ & _ & -> & _). exact Ha.
  - destruct (effects_frame st) as (_ & _ & _ & _ & _ & _ & _ & (_ & _ & _ & He) & _).
    cbn zeta in He. cbn [step] in He. rewrite He. exact Ha.
Qed.

Lemma digitsPrefix_all (s : string) :
  allDigits s = true -> JS.digitsPrefix s = (s, "").
Proof.
  induction s as [| c s IH]; [reflexivity |]. cbn [allDigits JS.digitsPrefix].
  intros H. apply andb_true_iff in H. destruct H as [Hc Hs].
  now rewrite Hc, (IH Hs).
Qed.

Lemma digitsValueFrom_nonneg (s : string) :
  forall acc, 0 <= acc -> allDigits s = true -> 0 <= JS.digitsValueFrom acc s.
Proof.
  induction s as [| c s IH]; intros acc Hacc H; [exact Hacc |].
  cbn [allDigits] in H. apply andb_true_iff in H. destruct H as [Hc Hs].
  cbn [JS.digitsValueFrom]. apply IH; [| exact Hs].
  unfold JS.isDigit in Hc. apply andb_true_iff in Hc. destruct Hc as [Hlo _].
  apply N.leb_le in Hlo. lia.
Qed.

Lemma digit_is_no_prefix (c : ascii) :
  JS.isDigit c = true ->
  JS.isWhite c = false /\ c <> "-"%char /\ c <> "+"%char.
Proof.
  destruct c as [[] [] [] [] [] [] [] []]; intros H;
    try discriminate H; repeat split; discriminate.
Qed.

(** On a non-empty string of digits [parseInt] gives its value. *)
Lemma parseInt_digits (s : string) :
  testDigits s = true -> exists n, JS.parseInt s = Some n /\ 0 <= n.
Proof.
  unfold testDigits. intros H. apply andb_true_iff in H. destruct H as [Hne Hd].
  destruct s as [| c s]; [discriminate |].
  pose proof Hd as Hd'. cbn [allDigits] in Hd'.
  apply andb_true_iff in Hd'. destruct Hd' as [Hc _].
  destruct (digit_is_no_prefix c Hc) as (Hw & Hm & Hp).
  exists (JS.digitsValue (String c s)). unfold JS.parseInt.
  cbn [JS.trimStart]. rewrite Hw.
  assert (Hsign : JS.takeSign (String c s) = (false, String c s)).
  { unfold JS.takeSign.
    destruct c as [[] [] [] [] [] [] [] []]; try reflexivity; congruence. }
  rewrite Hsign, (digitsPrefix_all _ Hd). cbn [JS.isEmpty].
  split; [reflexivity |].
  now apply digitsValueFrom_nonneg.
Qed.

(** X12: the age field only ever holds the empty string or a non-empty
    string of decimal digits, whatever is typed and whenever it is blurred;
    so at blur [parseInt] never meets anything but a natural number. *)
Theorem age_field_is_digits
    (doc : gmap string Element) (year : Z) (evs : list Event) :
  let st := steps evs (initial doc year) in
  (age st = "" \/ testDigits (age st) = true)
  /\ (age st <> "" -> exists n, JS.parseInt (age st) = Some n /\ 0 <= n).
Proof.
  cbn zeta.
  assert (Hd : age (steps evs (initial doc year)) = ""
               \/ testDigits (age (steps evs (initial doc year))) = true).
  { apply (steps_invariant
             (fun st => age st = "" \/ testDigits (age st) = true)
             (fun _ => True));
      [exact step_age_digits | now left |].
    induction evs; constructor; [exact I | assumption]. }
  split; [exact Hd |]. intros Hne. destruct Hd as [He | Hd]; [contradiction |].
  now apply parseInt_digits.
Qed.

(** ** The vitals input *)

Lemma substring_prefix (n : nat) :
  forall s, String.length (String.substring 0 n s) = Nat.min n (String.length s)
            /\ String.prefix (String.substring 0 n s) s = true.
Proof.
  induction n as [| n IH]; intros s.
  - destruct s; split; reflexivity.
  - destruct s as [| c s]; [split; reflexivity |].
    cbn [String.substring String.length String.prefix Nat.min].
    destruct (IH s) as [Hl Hp]. rewrite Hl.
    destruct (ascii_dec c c) as [_ | Hn]; [| contradiction].
    split; [reflexivity | exact Hp].
Qed.

Lemma string_prefix_refl (s : string) : String.prefix s s = true.
Proof.
  induction s as [| c s IH]; [reflexivity |]. cbn [String.prefix].
  destruct (ascii_dec c c) as [_ | Hn]; [exact IH | contradiction].
Qed.

(** X13: an input event leaves at most 10 characters in a vitals input: a
    value of up to 10 characters (the empty one included) is left as it is, a
    longer one is cut down to its first 10 characters; handling the result
    again changes nothing. *)
Theorem number_input_keeps_ten (val : string) :
  let out := NumberInput.handleInput val in
  String.length out = Nat.min 10 (String.length val)
  /\ String.prefix out val = true
  /\ ((String.length val <= 10)%nat -> out = val)
  /\ NumberInput.handleInput out = out.
Proof.
  cbn zeta.
  assert (Hshort : forall v, (String.length v <= 10)%nat ->
                             NumberInput.handleInput v = v).
  { intros v Hv. unfold NumberInput.handleInput.
    destruct (JS.isEmpty v); [reflexivity |].
    destruct (Nat.ltb_spec 10 (String.length v)); [lia | reflexivity]. }
  assert (Hlen : String.length (NumberInput.handleInput val)
                 = Nat.min 10 (String.length val)).
  { unfold NumberInput.handleInput.
    destruct (JS.isEmpty val) eqn:He.
    - apply isEmpty_spec in He. subst val. reflexivity.
    - destruct (Nat.ltb_spec 10 (String.length val)).
      + apply substring_prefix.
      + lia. }
  split; [exact Hlen |]. split; [| split; [apply Hshort |]].
  - unfold NumberInput.handleInput.
    destruct (JS.isEmpty val); [apply string_prefix_refl |].
    destruct (10 <? String.length val)%nat;
      [apply substring_prefix | apply string_prefix_refl].
  - apply Hshort. rewrite Hlen. lia.
Qed.

(** ** The mouse-position effect *)

Lemma mouse_step_tidy (m : MouseGlow.Mouse) (ev : MouseGlow.Event) :
  MouseGlow.tidy m -> True -> MouseGlow.tidy (MouseGlow.step m ev).
Proof.
  intros [Hn Hp] _.
  assert (Hcancel : MouseGlow.pending (MouseGlow.cancelIfSet m) = []
                    /\ MouseGlow.nextHandle (MouseGlow.cancelIfSet m)
                       = MouseGlow.nextHandle m
                    /\ MouseGlow.listening (MouseGlow.cancelIfSet m)
                       = MouseGlow.listening m).
  { unfold MouseGlow.cancelIfSet.
    destruct Hp as [He | (f & He & Hid & Hz)].
    - destruct (MouseGlow.animationFrameId m) as [h |]; [| now rewrite He].
      destruct (h =? 0); [now rewrite He |]. cbn. now rewrite He.
    - rewrite Hid. rewrite (proj2 (Z.eqb_neq _ _) Hz). cbn. rewrite He. cbn.
      now rewrite Z.eqb_refl. }
  destruct Hcancel as (Hc & Hh & Hl).
  destruct ev as [x y | |]; cbn [MouseGlow.step].
  - destruct (MouseGlow.listening m); [| now split].
    unfold MouseGlow.tidy, MouseGlow.handleMouseMove. cbn. rewrite Hc, Hh. cbn.
    split; [lia |]. right. eexists. split; [reflexivity |].
    split; [reflexivity |]. cbn. lia.
  - split; [exact Hn | now left].
  - unfold MouseGlow.tidy, MouseGlow.unmount. cbn. rewrite Hc, Hh.
    split; [exact Hn | now left].
Qed.

Lemma mouse_steps_tidy (evs : list MouseGlow.Event) :
  forall m, MouseGlow.tidy m -> MouseGlow.tidy (MouseGlow.steps evs m).
Proof.
  induction evs as [| ev evs IH]; intros m Hm; [exact Hm |].
  cbn [MouseGlow.steps fold_left]. fold (MouseGlow.steps evs (MouseGlow.step m ev)).
  apply IH. now apply mouse_step_tidy.
Qed.

Lemma mouse_moves (moves : list (Z * Z)) :
  forall m, MouseGlow.tidy m -> MouseGlow.listening m = true ->
    let m' := MouseGlow.steps (map (fun p => MouseGlow.Move (fst p) (snd p)) moves) m in
    MouseGlow.cssWrites m' = MouseGlow.cssWrites m
    /\ MouseGlow.listening m' = true
    /\ (moves <> [] ->
        exists h, MouseGlow.pending m'
                  = [ {| MouseGlow.handle := h;
                         MouseGlow.clientX := fst (List.last moves (0, 0));
                         MouseGlow.clientY := snd (List.last moves (0, 0)) |} ]).
Proof.
  induction moves as [| [x y] moves IH]; intros m Ht Hl; cbn zeta.
  - repeat split; [exact Hl | intros H; now contradiction H].
  - cbn [map MouseGlow.steps fold_left fst snd].
    fold (MouseGlow.steps (map (fun p => MouseGlow.Move (fst p) (snd p)) moves)
            (MouseGlow.step m (MouseGlow.Move x y))).
    pose proof (mouse_step_tidy m (MouseGlow.Move x y) Ht I) as Ht1.
    set (m1 := MouseGlow.step m (MouseGlow.Move x y)) in *.
    assert (Hm1 : MouseGlow.cssWrites m1 = MouseGlow.cssWrites m
                  /\ MouseGlow.listening m1 = true
                  /\ exists h, MouseGlow.pending m1
                               = [ {| MouseGlow.handle := h; MouseGlow.clientX := x;
                                      MouseGlow.clientY := y |} ]).
    { subst m1. cbn [MouseGlow.step]. rewrite Hl.
      unfold MouseGlow.handleMouseMove, MouseGlow.cancelIfSet.
      destruct Ht as [_ [He | (f & He & Hid & Hz)]].
      - destruct (MouseGlow.animationFrameId m) as [h |];
          [destruct (h =? 0) |]; cbn; rewrite ?He, ?Hl; cbn;
          (split; [reflexivity | split; [reflexivity | eexists; reflexivity]]).
      - rewrite Hid, (proj2 (Z.eqb_neq _ _) Hz). cbn. rewrite He, Hl. cbn.
        rewrite Z.eqb_refl. cbn.
        split; [reflexivity | split; [reflexivity | eexists; reflexivity]]. }
    destruct Hm1 as (Hw1 & Hl1 & h1 & Hp1).
    destruct (IH m1 Ht1 Hl1) as (Hw & Hl' & Hp). cbn zeta in *.
    split; [congruence |]. split; [exact Hl' |]. intros _.
    destruct moves as [| p moves'].
    + exists h1. exact Hp1.
    + apply Hp. discriminate.
Qed.

(** X14: mouse moves are coalesced per animation frame.  At any moment at
    most one frame callback is pending; and however many moves arrive between
    two frames, the next frame writes the pointer position exactly once, that
    of the last move. *)
Theorem mouse_moves_coalesce
    (m : MouseGlow.Mouse) (evs : list MouseGlow.Event)
    (moves : list (Z * Z)) (x y : Z) :
  MouseGlow.tidy m -> MouseGlow.listening m = true ->
  (List.length (MouseGlow.pending (MouseGlow.steps evs m)) <= 1)%nat
  /\ (let burst := map (fun p => MouseGlow.Move (fst p) (snd p))
                       (moves ++ [(x, y)]) in
      let m' := MouseGlow.steps (burst ++ [MouseGlow.AnimationFrame]) m in
      MouseGlow.cssWrites m' = (MouseGlow.cssWrites m ++ [(x, y)])%list
      /\ MouseGlow.pending m' = []).
Proof.
  intros Ht Hl. split.
  - destruct (mouse_steps_tidy evs m Ht) as [_ [-> | (f & -> & _)]]; cbn; lia.
  - cbn zeta. unfold MouseGlow.steps. rewrite fold_left_app.
    fold (MouseGlow.steps
            (map (fun p => MouseGlow.Move (fst p) (snd p)) (moves ++ [(x, y)])) m).
    destruct (mouse_moves (moves ++ [(x, y)]) m Ht Hl) as (Hw & _ & Hp).
    cbn zeta in *. destruct Hp as [h Hp]; [now destruct moves |].
    rewrite last_last in Hp. cbn [fst snd] in Hp.
    cbn [fold_left MouseGlow.step MouseGlow.animationFrame
         MouseGlow.cssWrites MouseGlow.pending].
    rewrite Hp, Hw. split; reflexivity.
Qed.

Lemma mouse_moves_coalesce_witness :
  let burst := map (fun p => MouseGlow.Move (fst p) (snd p))
                   ([(1, 1); (5, 8)] ++ [(20, 30)]) in
  MouseGlow.cssWrites
    (MouseGlow.steps (burst ++ [MouseGlow.AnimationFrame]) (MouseGlow.mounted 1))
  = (MouseGlow.cssWrites (MouseGlow.mounted 1) ++ [(20, 30)])%list.
Proof.
  assert (Ht : MouseGlow.tidy (MouseGlow.mounted 1)).
  { split; [reflexivity | now left]. }
  exact (proj1 (proj2 (mouse_moves_coalesce (MouseGlow.mounted 1) []
                         [(1, 1); (5, 8)] 20 30 Ht eq_refl))).
Defined.

(** X15: after the effect is cleaned up no frame callback is pending, and
    neither mouse moves nor animation frames write the pointer position any
    more. *)
Theorem mouse_unmount_silences
    (m : MouseGlow.Mouse) (evs : list MouseGlow.Event) :
  MouseGlow.tidy m ->
  let m1 := MouseGlow.step m MouseGlow.Unmount in
  MouseGlow.pending m1 = []
  /\ MouseGlow.cssWrites (MouseGlow.steps evs m1) = MouseGlow.cssWrites m
  /\ MouseGlow.pending (MouseGlow.steps evs m1) = [].
Proof.
  intros Ht. cbn zeta.
  assert (H1 : MouseGlow.pending (MouseGlow.step m MouseGlow.Unmount) = []
               /\ MouseGlow.listening (MouseGlow.step m MouseGlow.Unmount) = false
               /\ MouseGlow.cssWrites (MouseGlow.step m MouseGlow.Unmount)
                  = MouseGlow.cssWrites m).
  { cbn [MouseGlow.step]. unfold MouseGlow.unmount, MouseGlow.cancelIfSet.
    destruct Ht as [_ [He | (f & He & Hid & Hz)]].
    - destruct (MouseGlow.animationFrameId m) as [h |];
        [destruct (h =? 0) |]; cbn; rewrite ?He; repeat split.
    - rewrite Hid, (proj2 (Z.eqb_neq _ _) Hz). cbn. rewrite He. cbn.
      rewrite Z.eqb_refl. repeat split. }
  set (m1 := MouseGlow.step m MouseGlow.Unmount) in *.
  destruct H1 as (Hp & Hl & Hw). split; [exact Hp |]. rewrite <- Hw.
  clearbody m1. clear Hw Ht. revert m1 Hp Hl.
  induction evs as [| ev evs IH]; intros m1 Hp Hl; [now split |].
  cbn [MouseGlow.steps fold_left]. fold (MouseGlow.steps evs (MouseGlow.step m1 ev)).
  assert (Hq : MouseGlow.pending (MouseGlow.step m1 ev) = []
               /\ MouseGlow.listening (MouseGlow.step m1 ev) = false
               /\ MouseGlow.cssWrites (MouseGlow.step m1 ev) = MouseGlow.cssWrites m1).
  { destruct ev as [x y | |]; cbn [MouseGlow.step].
    - rewrite Hl. now repeat split.
    - cbn. rewrite Hp. cbn. rewrite app_nil_r. now repeat split.
    - unfold MouseGlow.unmount, MouseGlow.cancelIfSet.
      destruct (MouseGlow.animationFrameId m1) as [h |];
        [destruct (h =? 0) |]; cbn; rewrite ?Hp; repeat split. }
  destruct Hq as (Hp' & Hl' & Hw'). rewrite <- Hw'. now apply IH.
Qed.

Lemma mouse_unmount_silences_witness :
  MouseGlow.pending
    (MouseGlow.step (MouseGlow.step (MouseGlow.mounted 1) (MouseGlow.Move 3 4))
                    MouseGlow.Unmount)
  = [].
Proof.
  refine (proj1 (mouse_unmount_silences
                   (MouseGlow.step (MouseGlow.mounted 1) (MouseGlow.Move 3 4)) [] _)).
  apply mouse_step_tidy; [| exact I]. split; [reflexivity | now left].
Defined.

(** ** The toast *)

Lemma toast_pick_In (ts : list Toast.Timer) :
  forall t rest, Toast.pick ts = Some (t, rest) -> In t ts.
Proof.
  induction ts as [| t0 ts IH]; intros t rest H; [discriminate |].
  cbn [Toast.pick] in H. destruct (Toast.pick ts) as [[t' rest'] |].
  - destruct (Toast.due t' <? Toast.due t0); injection H as <- <-.
    + right. now apply (IH t' rest').
    + now left.
  - injection H as <- <-. now left.
Qed.

Lemma toast_runDue_idle (fuel : nat) (deadline : Z) (t : Toast.Toast) :
  (forall tm, In tm (Toast.timers t) -> deadline < Toast.due tm) ->
  Toast.runDue fuel deadline t = t.
Proof.
  intros H. destruct fuel as [| fuel]; [reflexivity |]. cbn [Toast.runDue].
  destruct (Toast.pick (Toast.timers t)) as [[tm rest] |] eqn:Hp; [| reflexivity].
  specialize (H tm (toast_pick_In _ _ _ Hp)).
  destruct (Z.leb_spec (Toast.due tm) deadline); [lia | reflexivity].
Qed.

Lemma toast_elapse_idle (dt : Z) (t : Toast.Toast) :
  (forall tm, In tm (Toast.timers t) -> Toast.clock t + dt < Toast.due tm) ->
  Toast.elapse dt t = Toast.setClock (Toast.clock t + dt) t.
Proof. intros H. unfold Toast.elapse. now rewrite toast_runDue_idle. Qed.

Lemma toast_runDue_fire (fuel : nat) (deadline : Z) (t : Toast.Toast) tm rest :
  Toast.pick (Toast.timers t) = Some (tm, rest) -> Toast.due tm <= deadline ->
  Toast.runDue (S fuel) deadline t
  = Toast.runDue fuel deadline (Toast.fireTimer tm rest t).
Proof.
  intros Hp Hd. cbn [Toast.runDue]. rewrite Hp.
  destruct (Z.leb_spec (Toast.due tm) deadline); [reflexivity | lia].
Qed.

Lemma toast_elapse_fire_one (dt : Z) (t : Toast.Toast) tm rest :
  Toast.pick (Toast.timers t) = Some (tm, rest) ->
  Toast.due tm <= Toast.clock t + dt ->
  (forall x, In x (Toast.timers (Toast.fireTimer tm rest t)) ->
             Toast.clock t + dt < Toast.due x) ->
  Toast.elapse dt t
  = Toast.setClock (Toast.clock t + dt) (Toast.fireTimer tm rest t).
Proof.
  intros Hp Hd Hafter. unfold Toast.elapse.
  destruct (Toast.timers t) as [| t0 ts] eqn:Ht; [discriminate |].
  cbn [List.length]. replace (2 * S (List.length ts))%nat
    with (S (S (2 * List.length ts))) by lia.
  rewrite <- Ht in Hp.
  rewrite (toast_runDue_fire _ _ _ _ _ Hp Hd).
  now rewrite toast_runDue_idle.
Qed.

(** Decide the comparisons of integers in the goal by linear arithmetic. *)
Ltac zdecide :=
  repeat match goal with
  | |- context [?a <? ?b] =>
      first [ rewrite (proj2 (Z.ltb_lt a b)) by lia
            | rewrite (proj2 (Z.ltb_ge a b)) by lia ]
  | |- context [?a <=? ?b] =>
      first [ rewrite (proj2 (Z.leb_le a b)) by lia
            | rewrite (proj2 (Z.leb_gt a b)) by lia ]
  | |- context [?a =? ?b] =>
      first [ rewrite (proj2 (Z.eqb_eq a b)) by lia
            | rewrite (proj2 (Z.eqb_neq a b)) by lia ]
  | |- context [Z.max ?a ?b] =>
      first [ rewrite (Z.max_l a b) by lia | rewrite (Z.max_r a b) by lia ]
  end.

(** Run the toast on a state given field by field. *)
Ltac toast_run :=
  repeat (cbv [Toast.steps Toast.step Toast.render Toast.elapse
               Toast.setClock Toast.runDue Toast.pick Toast.fireTimer
               Toast.clearTimeout Toast.hidden
               Toast.show Toast.visible Toast.cleanup Toast.timers
               Toast.nextHandle Toast.clock Toast.closed
               Toast.handle Toast.due Toast.callback
               fold_left List.length Nat.mul Nat.add app List.filter negb andb];
          zdecide).

(** X16: the toast, shown while no timer of it is pending and left alone.
    It is visible for 3000 ms, [onClose] is called once, 300 ms later, and
    from then on the component renders nothing and no timer is left. *)
Theorem toast_shows_for_3000 (t : Toast.Toast) (dt : Z) :
  Toast.timers t = [] -> 0 <= dt ->
  let s := Toast.steps [Toast.Render true; Toast.Elapse dt] t in
  Toast.visible s = (dt <? 3000)
  /\ Toast.show s = (dt <? 3300)
  /\ Toast.closed s = (if dt <? 3300 then Toast.closed t else S (Toast.closed t))
  /\ Toast.hidden s = negb (dt <? 3300)
  /\ (3300 <= dt -> Toast.timers s = []).
Proof.
  intros Hq Hdt. cbv zeta.
  destruct t as [sh vi cl ts nh ck cd]. cbn [Toast.timers] in Hq. subst ts.
  destruct cl as [h |];
    (destruct (Z.lt_ge_cases dt 3000); [| destruct (Z.lt_ge_cases dt 3300)]);
    toast_run; repeat split; intros; lia.
Qed.

Lemma toast_shows_for_3000_witness :
  Toast.visible (Toast.steps [Toast.Render true; Toast.Elapse 3000] (Toast.idle 1 0))
  = (3000 <? 3000).
Proof.
  assert (H0 : 0 <= 3000) by lia.
  exact (proj1 (toast_shows_for_3000 (Toast.idle 1 0) 3000 eq_refl H0)).
Defined.

(** X17: a render of [App] while the toast is up starts its 3000 ms anew.
    The timer of the earlier run is cleared, exactly one hide timer is
    pending, and the toast is visible until 3000 ms after that render. *)
Theorem toast_render_restarts_countdown (t : Toast.Toast) (d e : Z) :
  Toast.timers t = [] -> 0 <= d < 3000 -> 0 <= e ->
  let s1 := Toast.steps [Toast.Render true; Toast.Elapse d; Toast.Render true] t in
  Toast.timers s1
  = [ {| Toast.handle := Toast.nextHandle t + 1;
         Toast.due := Toast.clock t + d + 3000;
         Toast.callback := Toast.Hide |} ]
  /\ Toast.visible (Toast.step s1 (Toast.Elapse e)) = (e <? 3000).
Proof.
  intros Hq Hd He. cbv zeta.
  destruct t as [sh vi cl ts nh ck cd]. cbn [Toast.timers] in Hq. subst ts.
  destruct cl as [h |];
    (split;
     [ toast_run; reflexivity
     | (destruct (Z.lt_ge_cases e 3000); [| destruct (Z.lt_ge_cases e 3300)]);
       toast_run; reflexivity ]).
Qed.

Lemma toast_render_restarts_countdown_witness :
  Toast.visible
    (Toast.step
       (Toast.steps [Toast.Render true; Toast.Elapse 2000; Toast.Render true]
                    (Toast.idle 1 0))
       (Toast.Elapse 2999))
  = (2999 <? 3000).
Proof.
  assert (Hd : 0 <= 2000 < 3000) by lia.
  assert (He : 0 <= 2999) by lia.
  exact (proj2 (toast_render_restarts_countdown (Toast.idle 1 0) 2000 2999
                  eq_refl Hd He)).
Defined.

(** X18: a render of [App] during the 300 ms between the hiding of the
    toast and the call of [onClose] leaves the toast up for good.  The render
    makes it visible again and schedules a new hide timer; the pending
    [onClose] then sets [show] to false, and the cleanup this causes clears
    that timer.  The toast is then visible with [show] false and no timer
    pending, however much time passes. *)
Theorem toast_stays_up_after_render_while_closing
    (t : Toast.Toast) (d e : Z) :
  Toast.timers t = [] -> 0 <= d < 300 -> 300 - d <= e ->
  let s :=
    Toast.steps [Toast.Render true; Toast.Elapse (3000 + d);
                 Toast.Render true; Toast.Elapse e] t in
  Toast.show s = false
  /\ Toast.visible s = true
  /\ Toast.hidden s = false
  /\ Toast.timers s = []
  /\ (forall later, Toast.visible (Toast.step s (Toast.Elapse later)) = true).
Proof.
  intros Hq Hd He. cbv zeta.
  destruct t as [sh vi cl ts nh ck cd]. cbn [Toast.timers] in Hq. subst ts.
  set (t0 := {| Toast.show := sh; Toast.visible := vi; Toast.cleanup := cl;
                Toast.timers := []; Toast.nextHandle := nh; Toast.clock := ck;
                Toast.closed := cd |}).
  (* hidden at 3000, onClose pending, App renders *)
  assert (E3 : Toast.steps [Toast.Render true; Toast.Elapse (3000 + d);
                            Toast.Render true] t0
               = {| Toast.show := true; Toast.visible := true;
                    Toast.cleanup := Some (nh + 1 + 1);
                    Toast.timers :=
                      [ {| Toast.handle := nh + 1; Toast.due := ck + 3000 + 300;
                           Toast.callback := Toast.Close |};
                        {| Toast.handle := nh + 1 + 1;
                           Toast.due := ck + (3000 + d) + 3000;
                           Toast.callback := Toast.Hide |} ];
                    Toast.nextHandle := nh + 1 + 1 + 1;
                    Toast.clock := ck + (3000 + d);
                    Toast.closed := cd |}).
  { subst t0. destruct cl as [h |]; toast_run; reflexivity. }
  change (Toast.steps [Toast.Render true; Toast.Elapse (3000 + d);
                       Toast.Render true; Toast.Elapse e] t0)
    with (Toast.step (Toast.steps [Toast.Render true; Toast.Elapse (3000 + d);
                                   Toast.Render true] t0) (Toast.Elapse e)).
  rewrite E3. clear E3. cbn [Toast.step].
  (* onClose fires first; its cleanup clears the new hide timer *)
  assert (E4 : forall s, Toast.timers s = [] -> forall dt,
               Toast.elapse dt s = Toast.setClock (Toast.clock s + dt) s).
  { intros s Hs dt. apply toast_elapse_idle. rewrite Hs. intros tm []. }
  assert (E5 : Toast.elapse e
                 {| Toast.show := true; Toast.visible := true;
                    Toast.cleanup := Some (nh + 1 + 1);
                    Toast.timers :=
                      [ {| Toast.handle := nh + 1; Toast.due := ck + 3000 + 300;
                           Toast.callback := Toast.Close |};
                        {| Toast.handle := nh + 1 + 1;
                           Toast.due := ck + (3000 + d) + 3000;
                           Toast.callback := Toast.Hide |} ];
                    Toast.nextHandle := nh + 1 + 1 + 1;
                    Toast.clock := ck + (3000 + d);
                    Toast.closed := cd |}
               = {| Toast.show := false; Toast.visible := true;
                    Toast.cleanup := None; Toast.timers := [];
                    Toast.nextHandle := nh + 1 + 1 + 1;
                    Toast.clock := ck + (3000 + d) + e;
                    Toast.closed := S cd |}).
  { unfold Toast.elapse.
    cbn [Toast.timers Toast.clock List.length Nat.mul Nat.add].
    rewrite (toast_runDue_fire _ _ _
               {| Toast.handle := nh + 1; Toast.due := ck + 3000 + 300;
                  Toast.callback := Toast.Close |}
               [ {| Toast.handle := nh + 1 + 1;
                    Toast.due := ck + (3000 + d) + 3000;
                    Toast.callback := Toast.Hide |} ]).
    2: { cbn [Toast.timers Toast.pick Toast.due]. now zdecide. }
    2: { cbn [Toast.due]. lia. }
    cbv [Toast.fireTimer Toast.render Toast.clearTimeout Toast.callback
         Toast.show Toast.visible Toast.cleanup Toast.timers Toast.nextHandle
         Toast.clock Toast.closed Toast.handle Toast.due List.filter negb].
    zdecide. cbv iota beta.
    rewrite toast_runDue_idle by (intros tm []).
    reflexivity. }
  rewrite E5. clear E5.
  do 4 (split; [reflexivity |]). intros later.
  cbn [Toast.step]. rewrite E4 by reflexivity. reflexivity.
Qed.

Lemma toast_stays_up_after_render_while_closing_witness :
  Toast.visible
    (Toast.steps [Toast.Render true; Toast.Elapse (3000 + 100);
                  Toast.Render true; Toast.Elapse 200] (Toast.idle 1 0))
  = true.
Proof.
  assert (Hd : 0 <= 100 < 300) by lia.
  assert (He : 300 - 100 <= 200) by lia.
  exact (proj1 (proj2 (toast_stays_up_after_render_while_closing
                         (Toast.idle 1 0) 100 200 eq_refl Hd He))).
Defined.

(** ** The scroll spy after a navigation request *)

(** X19: once a navigation request has settled the scroll spy observes
    again.  From 850 ms after a rail click on a laid-out section [X] (no
    timer pending at the click; after the click React renders and runs the
    effects, which attach the listener anew) a scroll event sets the active section by the
    containment rule, starting from [X]: to the last section whose window
    contains the probe point, [X] itself when there is none. *)
Theorem spy_resumes_after_settle
    (st : State) (X : string) (el : Element) (dt y : Z) :
  timers st = [] -> activeSectionId st <> X -> document st !! X = Some el ->
  850 <= dt ->
  let s := steps [Click X; Effects; Elapse dt] st in
  let probe := y + lookahead_offset in
  activeSectionId (step s (Scroll y)) = spy (document st) probe SECTIONS X
  /\ (forall (before : list SectionItem) K after,
        SECTIONS = (before ++ K :: after)%list ->
        contains (document st) probe K ->
        (forall K', In K' after -> ~ contains (document st) probe K') ->
        activeSectionId (step s (Scroll y)) = id K)
  /\ ((forall K, In K SECTIONS -> ~ contains (document st) probe K) ->
      activeSectionId (step s (Scroll y)) = X).
Proof.
  intros Hq Hne Hel Hdt. cbn zeta. unfold steps. cbn [fold_left].
  destruct (click_other st X Hne) as (A1 & F1 & _ & T1 & C1 & D1 & _).
  cbn zeta in *. rewrite Hq in T1. cbn [app] in T1.
  set (s1 := step st (Click X)) in *.
  assert (L1 : live s1).
  { split.
    - intros t. rewrite T1, C1. intros [<- | []].
      unfold settlesBy. cbn [callback due]. lia.
    - intros _. eexists. rewrite T1. split; [now left | reflexivity]. }
  destruct (effects_frame s1) as (K2 & A2 & _ & _ & _ & D2 & _).
  cbn zeta in *.
  assert (L2 : live (step s1 Effects)) by (apply step_live; [exact L1 | exact I]).
  set (s2 := step s1 Effects) in *.
  destruct (elapse_frame dt s2) as (_ & _ & A3 & _ & _ & _ & _ & D3 & _).
  cbn zeta in *.
  pose proof (elapse_captured dt s2) as K3.
  pose proof (live_flag_down s2 dt L2 Hdt) as F3.
  change (step s2 (Elapse dt)) with (elapse dt s2).
  set (s := elapse dt s2) in *.
  assert (Hspy : activeSectionId (step s (Scroll y))
                 = spy (document st) (y + lookahead_offset) SECTIONS X).
  { rewrite (scroll_fresh s y F3) by congruence. cbn [exec activeSectionId].
    f_equal; congruence. }
  split; [exact Hspy |]. rewrite Hspy. split.
  - intros before K after Hsplit HK Hafter. rewrite Hsplit. now apply spy_last.
  - intros Hnone. now apply spy_none.
Qed.

Lemma spy_resumes_after_settle_witness :
  activeSectionId
    (step (steps [Click "hpi"; Effects; Elapse 850] (initial page 2024))
          (Scroll 4000))
  = spy (document (initial page 2024)) (4000 + lookahead_offset) SECTIONS "hpi".
Proof.
  assert (Ha : activeSectionId (initial page 2024) <> "hpi") by discriminate.
  assert (H0 : 850 <= 850) by lia.
  exact (proj1 (spy_resumes_after_settle (initial page 2024) "hpi" (block 1400)
                  850 4000 eq_refl Ha eq_refl H0)).
Defined.

(** X20: the lag of the scroll listener ends when the effects run.  Whatever
    section the listener was attached with, once React has run the effects of
    its latest render a scroll event processed while the flag is down sets the active section by
    the containment rule: the last section whose window contains the probe
    point, the active section itself when there is none. *)
Theorem effects_refresh_spy (st : State) (y : Z) :
  isManualScrolling st = false ->
  let st' := steps [Effects; Scroll y] st in
  let probe := y + lookahead_offset in
  activeSectionId st' = spy (document st) probe SECTIONS (activeSectionId st)
  /\ (forall (before : list SectionItem) s after,
        SECTIONS = (before ++ s :: after)%list ->
        contains (document st) probe s ->
        (forall s', In s' after -> ~ contains (document st) probe s') ->
        activeSectionId st' = id s)
  /\ ((forall s, In s SECTIONS -> ~ contains (document st) probe s) ->
      activeSectionId st' = activeSectionId st).
Proof.
  intros Hf. cbn zeta. unfold steps. cbn [fold_left].
  destruct (effects_frame st) as (K1 & A1 & _ & F1 & _ & D1 & _).
  cbn zeta in *. set (s1 := step st Effects) in *.
  assert (Hspy : activeSectionId (step s1 (Scroll y))
                 = spy (document st) (y + lookahead_offset) SECTIONS
                     (activeSectionId st)).
  { rewrite (scroll_fresh s1 y) by congruence. cbn [exec activeSectionId].
    f_equal; congruence. }
  split; [exact Hspy |]. rewrite Hspy. split.
  - intros before s after Hsplit Hs Hafter. rewrite Hsplit. now apply spy_last.
  - intros Hnone. now apply spy_none.
Qed.

Lemma effects_refresh_spy_witness :
  activeSectionId
    (steps [Effects; Scroll 0] (step (initial page 2024) (Scroll 1500)))
  = spy (document (step (initial page 2024) (Scroll 1500)))
        (0 + lookahead_offset) SECTIONS
        (activeSectionId (step (initial page 2024) (Scroll 1500))).
Proof.
  exact (proj1 (effects_refresh_spy (step (initial page 2024) (Scroll 1500)) 0
                  eq_refl)).
Defined.

(** ** What the cleanup of the toast clears *)

Lemma toast_pick_rest (ts : list Toast.Timer) :
  forall t rest, Toast.pick ts = Some (t, rest) ->
                 forall x, In x rest -> In x ts.
Proof.
  induction ts as [| t0 ts IH]; intros t rest H x Hx; [discriminate |].
  cbn [Toast.pick] in H. destruct (Toast.pick ts) as [[t' rest'] |] eqn:Hp.
  - destruct (Toast.due t' <? Toast.due t0); injection H as <- <-.
    + destruct Hx as [<- | Hx]; [now left | right; now apply (IH t' rest')].
    + now right.
  - injection H as <- <-. now right.
Qed.

(** After the cleanup no timer that hides the toast is pending. *)
Lemma toast_cleared_spec (t : Toast.Toast) :
  Toast.wellKept t ->
  forall tm, In tm (Toast.cleared t) ->
             In tm (Toast.timers t) /\ Toast.isHide tm = false.
Proof.
  intros (_ & _ & Hk) tm. unfold Toast.cleared.
  destruct (Toast.cleanup t) as [h |] eqn:Hc.
  - unfold Toast.clearTimeout. intros Hin.
    apply List.filter_In in Hin. destruct Hin as [Hin Hne].
    split; [exact Hin |].
    destruct (Toast.isHide tm) eqn:Hh; [| reflexivity].
    apply (Hk tm Hin) in Hh. injection Hh as ->.
    rewrite Z.eqb_refl in Hne. discriminate.
  - intros Hin. split; [exact Hin |].
    destruct (Toast.isHide tm) eqn:Hh; [| reflexivity].
    apply (Hk tm Hin) in Hh. discriminate.
Qed.

Lemma toast_render_wellKept (s : bool) (t : Toast.Toast) :
  Toast.wellKept t -> Toast.wellKept (Toast.render s t).
Proof.
  intros Hw. pose proof (toast_cleared_spec t Hw) as Hcl.
  destruct Hw as (Hlt & Hcu & Hk).
  unfold Toast.render. fold (Toast.cleared t). destruct s.
  - split; [| split]; cbn [Toast.timers Toast.nextHandle Toast.cleanup].
    + intros tm Hin. apply in_app_or in Hin. destruct Hin as [Hin | [<- | []]].
      * specialize (Hlt tm (proj1 (Hcl tm Hin))). lia.
      * cbn [Toast.handle]. lia.
    + intros h [= <-]. lia.
    + intros tm Hin. apply in_app_or in Hin. destruct Hin as [Hin | [<- | []]].
      * destruct (Hcl tm Hin) as [Hin' Hh]. rewrite Hh.
        specialize (Hlt tm Hin'). split; [discriminate |].
        intros [= He]. lia.
      * split; reflexivity.
  - split; [| split]; cbn [Toast.timers Toast.nextHandle Toast.cleanup].
    + intros tm Hin. exact (Hlt tm (proj1 (Hcl tm Hin))).
    + discriminate.
    + intros tm Hin. rewrite (proj2 (Hcl tm Hin)). split; discriminate.
Qed.

Lemma toast_fire_wellKept (tm : Toast.Timer) (rest : list Toast.Timer)
    (t : Toast.Toast) :
  Toast.wellKept t -> Toast.pick (Toast.timers t) = Some (tm, rest) ->
  Toast.wellKept (Toast.fireTimer tm rest t).
Proof.
  intros (Hlt & Hcu & Hk) Hp.
  pose proof (toast_pick_rest _ _ _ Hp) as Hsub.
  unfold Toast.fireTimer. destruct (Toast.callback tm).
  - split; [| split]; cbn [Toast.timers Toast.nextHandle Toast.cleanup].
    + intros x Hin. apply in_app_or in Hin. destruct Hin as [Hin | [<- | []]].
      * specialize (Hlt x (Hsub x Hin)). lia.
      * cbn [Toast.handle]. lia.
    + intros h Hh. specialize (Hcu h Hh). lia.
    + intros x Hin. apply in_app_or in Hin. destruct Hin as [Hin | [<- | []]].
      * exact (Hk x (Hsub x Hin)).
      * split; [discriminate |]. cbn [Toast.handle]. intros Hh.
        specialize (Hcu _ Hh). lia.
  - assert (Hw' : Toast.wellKept
                    {| Toast.show := Toast.show t; Toast.visible := Toast.visible t;
                       Toast.cleanup := Toast.cleanup t; Toast.timers := rest;
                       Toast.nextHandle := Toast.nextHandle t;
                       Toast.clock := Z.max (Toast.clock t) (Toast.due tm);
                       Toast.closed := S (Toast.closed t) |}).
    { split; [| split]; cbn [Toast.timers Toast.nextHandle Toast.cleanup].
      - intros x Hin. exact (Hlt x (Hsub x Hin)).
      - exact Hcu.
      - intros x Hin. exact (Hk x (Hsub x Hin)). }
    destruct (Toast.show t); [now apply toast_render_wellKept | exact Hw'].
Qed.

Lemma toast_runDue_wellKept (fuel : nat) (deadline : Z) :
  forall t, Toast.wellKept t -> Toast.wellKept (Toast.runDue fuel deadline t).
Proof.
  induction fuel as [| fuel IH]; intros t Hw; [exact Hw |].
  cbn [Toast.runDue].
  destruct (Toast.pick (Toast.timers t)) as [[tm rest] |] eqn:Hp; [| exact Hw].
  destruct (Toast.due tm <=? deadline); [| exact Hw].
  apply IH. now apply toast_fire_wellKept.
Qed.

Lemma toast_step_wellKept (t : Toast.Toast) (ev : Toast.Event) :
  Toast.wellKept t -> Toast.wellKept (Toast.step t ev).
Proof.
  intros Hw. destruct ev as [s | dt]; cbn [Toast.step].
  - now apply toast_render_wellKept.
  - unfold Toast.elapse.
    pose proof (toast_runDue_wellKept (2 * List.length (Toast.timers t))
                  (Toast.clock t + dt) t Hw) as Hr.
    exact Hr.
Qed.

(** X21: the cleanup of the effect of the toast clears the pending timers
    that hide the toast, and nothing else.  In every state the toast reaches
    from rest, through renders of [App] and the passing of time, what
    [clearTimeout(timer)] leaves of the queue is the queue without the
    3000 ms timers; and when the last run of the effect returned no cleanup,
    no such timer is pending. *)
Theorem toast_cleanup_clears_hide_timers
    (first now : Z) (evs : list Toast.Event) :
  let t := Toast.steps evs (Toast.idle first now) in
  Toast.cleared t
  = List.filter (fun tm => negb (Toast.isHide tm)) (Toast.timers t)
  /\ (Toast.cleanup t = None ->
      forall tm, In tm (Toast.timers t) -> Toast.isHide tm = false).
Proof.
  cbn zeta.
  assert (Hw : Toast.wellKept (Toast.steps evs (Toast.idle first now))).
  { assert (H0 : Toast.wellKept (Toast.idle first now)).
    { split; [| split]; cbn; [intros tm [] | discriminate | intros tm []]. }
    generalize dependent (Toast.idle first now).
    induction evs as [| ev evs IH]; intros t Ht; [exact Ht |].
    cbn [Toast.steps fold_left]. apply IH. now apply toast_step_wellKept. }
  set (t := Toast.steps evs (Toast.idle first now)) in *.
  destruct Hw as (_ & _ & Hk). split.
  - unfold Toast.cleared. destruct (Toast.cleanup t) as [h |] eqn:Hc.
    + unfold Toast.clearTimeout. apply List.filter_ext_in.
      intros tm Hin. f_equal. specialize (Hk tm Hin).
      destruct (Z.eqb_spec (Toast.handle tm) h) as [<- | Hne].
      * symmetry. now apply Hk.
      * destruct (Toast.isHide tm); [| reflexivity].
        exfalso. apply Hne. destruct Hk as [Hk _].
        specialize (Hk eq_refl). congruence.
    + symmetry. apply List.forallb_filter_id. apply List.forallb_forall.
      intros tm Hin. specialize (Hk tm Hin).
      destruct (Toast.isHide tm); [| reflexivity].
      destruct Hk as [Hk _]. specialize (Hk eq_refl). discriminate.
  - intros Hc tm Hin. specialize (Hk tm Hin). rewrite Hc in Hk.
    destruct (Toast.isHide tm); [| reflexivity].
    destruct Hk as [Hk _]. specialize (Hk eq_refl). discriminate.
Qed.
